(** * Wikimedia Cirrus dump downloader: a shallow embedding

    This development embeds [download_wiki_dumps_simple.py] and proves the
    properties of its directory-listing parser, date selector, shard locator,
    shard reassembler and cleanup mode.

    Modelling conventions.
    - A Python [str] is a [string]; every [ascii] stands for one code point
      below 256.  In that range the decimal digits are exactly ['0'..'9'],
      code-point order is byte order, and [str.lower]/[str.strip] are the
      tables written out below.
    - The remote archive, the bz2 decoder and the gzip codec are given by an
      environment record; the local file system, the log of HTTP requests,
      the pending answers on standard input and the messages printed are
      threaded through a state-and-exception monad. *)

From Stdlib Require Import ZArith List String Ascii Bool Lia Sorting.Sorted
  Sorting.Permutation.
From stdpp Require Import base option list strings sorting gmap fin_maps.

Import ListNotations.
Local Open Scope string_scope.
Local Open Scope list_scope.

(** ** Python string operations *)

Module Py.

(** [s.endswith(suf)] *)
Fixpoint endswith (s suf : string) : bool :=
  String.eqb s suf ||
  match s with
  | EmptyString => false
  | String _ s' => endswith s' suf
  end.

(** [s.startswith(pre)] *)
Definition startswith (s pre : string) : bool := String.prefix pre s.

(** [sub in s] *)
Fixpoint contains (s sub : string) : bool :=
  String.prefix sub s ||
  match s with
  | EmptyString => false
  | String _ s' => contains s' sub
  end.

(** [s.rstrip(c)] for a single character [c]: every trailing [c] goes. *)
Fixpoint rstrip (c : ascii) (s : string) : string :=
  match s with
  | EmptyString => EmptyString
  | String a s' =>
      match rstrip c s' with
      | EmptyString => if Ascii.eqb a c then EmptyString else String a EmptyString
      | r => String a r
      end
  end.

(** Truthiness of a string: [if s:] *)
Definition truthy (s : string) : bool :=
  match s with EmptyString => false | _ => true end.

(** [x in xs] for a list of strings *)
Definition str_in (x : string) (xs : list string) : bool :=
  existsb (String.eqb x) xs.

(** [os.path.basename(p)]: what follows the last ['/']. *)
Fixpoint basename (p : string) : string :=
  match p with
  | EmptyString => EmptyString
  | String a p' =>
      if contains p' "/" then basename p'
      else if Ascii.eqb a "/" then p' else p
  end.

(** [s.rfind(c)] for a single character *)
Fixpoint rfind (c : ascii) (s : string) : option nat :=
  match s with
  | EmptyString => None
  | String a s' =>
      match rfind c s' with
      | Some i => Some (S i)
      | None => if Ascii.eqb a c then Some 0 else None
      end
  end.

(** [PurePath.stem] of a final path component: the name up to its last
    dot, unless that dot is the first or the last character. *)
Definition stem (name : string) : string :=
  match rfind "." name with
  | Some i =>
      if Nat.ltb 0 i && Nat.ltb i (String.length name - 1)
      then String.substring 0 i name else name
  | None => name
  end.

(** [s.replace(old, "")]: every occurrence of [old], left to right, goes.
    [skip] counts the characters of a match still to be dropped. *)
Fixpoint remove_all_from (old : string) (skip : nat) (s : string) : string :=
  match s with
  | EmptyString => EmptyString
  | String a s' =>
      match skip with
      | S k => remove_all_from old k s'
      | O =>
          if truthy old && String.prefix old s
          then remove_all_from old (String.length old - 1) s'
          else String a (remove_all_from old 0 s')
      end
  end.
Definition remove_all (old s : string) : string := remove_all_from old 0 s.

(** Code points for which [str.isspace] holds, below 256. *)
Definition isspace (a : ascii) : bool :=
  let n := N_of_ascii a in
  ((9 <=? n) && (n <=? 13) || (28 <=? n) && (n <=? 32)
   || (n =? 133) || (n =? 160))%N.

(** [s.lstrip()], [s.rstrip()], [s.strip()] *)
Fixpoint lstrip_space (s : string) : string :=
  match s with
  | EmptyString => EmptyString
  | String a s' => if isspace a then lstrip_space s' else s
  end.

Fixpoint rstrip_space (s : string) : string :=
  match s with
  | EmptyString => EmptyString
  | String a s' =>
      match rstrip_space s' with
      | EmptyString => if isspace a then EmptyString else String a EmptyString
      | r => String a r
      end
  end.

Definition strip (s : string) : string := rstrip_space (lstrip_space s).

(** [s.lower()] on code points below 256. *)
Definition lower_char (a : ascii) : ascii :=
  let n := N_of_ascii a in
  if ((65 <=? n) && (n <=? 90)
      || (192 <=? n) && (n <=? 222) && negb (n =? 215))%N
  then ascii_of_N (n + 32) else a.

Fixpoint lower (s : string) : string :=
  match s with
  | EmptyString => EmptyString
  | String a s' => String (lower_char a) (lower s')
  end.

(** [sorted(xs)] on strings: ascending by code points. *)
Definition sorted (xs : list string) : list string := merge_sort String.le xs.

(** [\d] on code points below 256 *)
Definition is_digit (a : ascii) : bool :=
  let n := N_of_ascii a in ((48 <=? n) && (n <=? 57))%N.

Fixpoint all_digits (s : string) : bool :=
  match s with
  | EmptyString => true
  | String a s' => is_digit a && all_digits s'
  end.

(** [re.compile(r'^\d{8}$').match(d)]: eight digits, then the end of the
    string; [$] also matches just before a final newline. *)
Definition date_pattern_match (d : string) : bool :=
  let head := String.substring 0 8 d in
  let rest := String.substring 8 (String.length d - 8) d in
  Nat.eqb (String.length head) 8 && all_digits head
  && (String.eqb rest "" || String.eqb rest (String "010" "")).

(** [urllib.parse.quote(s, safe='/')]: letters, digits and [_.-~] stay,
    as does ['/']; any other code point is replaced by the percent-encoded
    bytes of its UTF-8 encoding. *)
Definition always_safe (a : ascii) : bool :=
  let n := N_of_ascii a in
  ((65 <=? n) && (n <=? 90) || (97 <=? n) && (n <=? 122)
   || (48 <=? n) && (n <=? 57)
   || (n =? 95) || (n =? 46) || (n =? 45) || (n =? 126))%N.

Definition hex_digit (n : N) : ascii :=
  match String.get (N.to_nat n) "0123456789ABCDEF" with
  | Some a => a
  | None => "0"%char
  end.

Definition percent_byte (n : N) : string :=
  String "%" (String (hex_digit (n / 16)) (String (hex_digit (n mod 16)) "")).

Definition utf8_bytes (a : ascii) : list N :=
  let n := N_of_ascii a in
  if (n <? 128)%N then [n]
  else [N.lor 192 (N.shiftr n 6); N.lor 128 (N.land n 63)].

Definition quote_char (a : ascii) : string :=
  if always_safe a || Ascii.eqb a "/" then String a ""
  else String.concat "" (map percent_byte (utf8_bytes a)).

Fixpoint quote (s : string) : string :=
  match s with
  | EmptyString => EmptyString
  | String a s' => quote_char a +:+ quote s'
  end.

(** [fnmatch] for patterns made of literal characters and [*], which is
    how [Path.glob] tests the names of a directory: case-sensitive, and
    [*] also matches a leading dot. *)
Fixpoint fnmatch (pat name : string) {struct pat} : bool :=
  match pat with
  | EmptyString => negb (truthy name)
  | String c pat' =>
      if Ascii.eqb c "*" then
        (fix star (n : string) : bool :=
           fnmatch pat' n ||
           match n with
           | EmptyString => false
           | String _ n' => star n'
           end) name
      else
        match name with
        | EmptyString => false
        | String d name' => Ascii.eqb c d && fnmatch pat' name'
        end
  end.

End Py.

(** ** The directory-listing parser *)

(** What [HTMLParser.feed] hands to [handle_starttag]: the tag name and the
    attribute list, an attribute without a value carrying [None]. *)
Definition attr : Type := string * option string.
Definition start_tag : Type := string * list attr.

Record DirectoryListingParser := mkParser {
  files : list string;
  directories : list string
}.

Definition new_parser : DirectoryListingParser :=
  {| files := []; directories := [] |}.

Definition handle_attr (p : DirectoryListingParser) (a : attr)
  : DirectoryListingParser :=
  match a with
  | (attr_name, Some attr_value) =>
      if String.eqb attr_name "href" && Py.truthy attr_value then
        if negb (Py.str_in attr_value ["../"; "./"]) then
          if Py.endswith attr_value "/" then
            let dir_name := Py.rstrip "/" attr_value in
            if Py.truthy dir_name
            then {| files := files p; directories := directories p ++ [dir_name] |}
            else p
          else {| files := files p ++ [attr_value]; directories := directories p |}
        else p
      else p
  | (_, None) => p
  end.

Definition handle_starttag (p : DirectoryListingParser) (t : start_tag)
  : DirectoryListingParser :=
  let '(tag, attrs) := t in
  if String.eqb tag "a" then fold_left handle_attr attrs p else p.

Definition feed (p : DirectoryListingParser) (tags : list start_tag)
  : DirectoryListingParser :=
  fold_left handle_starttag tags p.

(** The listing of one page: a fresh parser fed with the page's tags. *)
Definition parse_listing (tags : list start_tag) : DirectoryListingParser :=
  feed new_parser tags.

(** ** Exceptions, results and the monad *)

Inductive exn :=
| HTTPError (code : Z)          (* urllib.error.HTTPError *)
| URLError                      (* any other failure to open, read or decode *)
| OSError                       (* a failed file-system or codec operation *)
| EOFError                      (* input() at end of input *)
| Exception (msg : error_message)
| ValueError (msg : error_message)
| SystemExit (code : Z)
with error_message :=
| NoDateDirectories (base_url : string)
| ListingAccessFailed (url : string) (cause : exn)
| ErrorFindingLatestDate (cause : exn)
| NoShardFiles (dir_url : string) (shown : list string) (more : nat)
| ShardDirectoryNotFound (dir_url : string) (cause : exn)
    (shown : list string) (more : nat)
| ErrorDiscoveringShards (cause : exn)
| FailedToDownload (url : string).

(** [except Exception] catches everything but [SystemExit]. *)
Definition is_Exception (e : exn) : bool :=
  match e with SystemExit _ => false | _ => true end.

Inductive result (A : Type) :=
| Ret (a : A)
| Raise (e : exn).
Arguments Ret {A} a.
Arguments Raise {A} e.

(** A computation over a state [S]: it returns or raises, and always leaves
    a state behind. *)
Definition M (S A : Type) : Type := S -> result A * S.

Definition ret {S A} (a : A) : M S A := fun s => (Ret a, s).
Definition raise {S A} (e : exn) : M S A := fun s => (Raise e, s).
Definition bind {S A B} (c : M S A) (k : A -> M S B) : M S B :=
  fun s =>
    match c s with
    | (Ret a, s') => k a s'
    | (Raise e, s') => (Raise e, s')
    end.
Definition get {S} : M S S := fun s => (Ret s, s).
Definition modify {S} (f : S -> S) : M S unit := fun s => (Ret tt, f s).

(** [try: c  except ... as e: h e]; the handler re-raises what its [except]
    clauses do not name. *)
Definition try_except {S A} (c : M S A) (h : exn -> M S A) : M S A :=
  fun s =>
    match c s with
    | (Ret a, s') => (Ret a, s')
    | (Raise e, s') => h e s'
    end.

(** [try: c  finally: f] and the exit of a [with] block *)
Definition finally {S A} (c : M S A) (f : M S unit) : M S A :=
  fun s =>
    match c s with
    | (r, s') =>
        match f s' with
        | (Ret _, s'') => (r, s'')
        | (Raise e, s'') => (Raise e, s'')
        end
    end.

Declare Scope monad_scope.
Delimit Scope monad_scope with monad.
Notation "'let*' x ':=' c 'in' k" := (bind c (fun x => k))
  (at level 10, x name, c at level 100, k at level 200) : monad_scope.
Notation "c1 ';;' c2" := (bind c1 (fun _ => c2))
  (at level 100, c2 at level 200, right associativity) : monad_scope.
Local Open Scope monad_scope.

(** A [for] loop whose body returns nothing *)
Fixpoint for_each {S A} (xs : list A) (body : A -> M S unit) : M S unit :=
  match xs with
  | [] => ret tt
  | x :: rest => body x ;; for_each rest body
  end.

(** ** The world *)

(** A path is its list of components below the root. *)
Abbreviation path := (list string).

Inductive node :=
| File (content : list Byte.byte)
| Dir.

Inductive request :=
| GET (url : string)
| HEAD (url : string).

Inductive message :=
| FoundDates (count : nat) (latest : string)
| NoOldDumps
| FoundOldDumps (names : list string)
| DeletePrompt
| CleanupCancelled
| Deleted (name : string)
| DeleteError (name : string)
| CleanupCompleted
| CreatedOutput (name : string) (total_size : Z)
| ErrorProcessingShards (e : exn)
| DownloadError (url : string) (e : exn)
| Succeeded (filename : string)
| Failed (filename : string)
| ErrorMessage (e : exn).

Record world := mkWorld {
  fs : gmap path node;          (* the local file system *)
  requests : list request;      (* HTTP requests made, oldest first *)
  stdin : list string;          (* lines input() has still to read *)
  stdout : list message         (* messages printed, oldest first *)
}.

Definition set_fs (f : gmap path node) (w : world) : world :=
  {| fs := f; requests := requests w; stdin := stdin w; stdout := stdout w |}.

Definition printed (m : message) (w : world) : world :=
  {| fs := fs w; requests := requests w; stdin := stdin w;
     stdout := stdout w ++ [m] |}.

Definition logged (r : request) (w : world) : world :=
  {| fs := fs w; requests := requests w ++ [r]; stdin := stdin w;
     stdout := stdout w |}.

Definition print (m : message) : M world unit := modify (printed m).

Definition log_request (r : request) : M world unit := modify (logged r).

(** [input(prompt)]: the prompt is printed, one line is consumed. *)
Definition input (prompt : message) : M world string :=
  print prompt ;;
  fun w =>
    match stdin w with
    | [] => (Raise EOFError, w)
    | line :: rest =>
        (Ret line, {| fs := fs w; requests := requests w; stdin := rest;
                      stdout := stdout w |})
    end.

(** *** Files and directories *)

Module FS.

Definition parent (p : path) : path := removelast p.
Definition name (p : path) : string := List.last p "".

(** [p / name] for a single component, resolved as the operating system
    resolves it: an empty name or ["."] is [p] itself, [".."] its parent. *)
Definition joinpath (p : path) (n : string) : path :=
  if Py.str_in n [""; "."] then p
  else if String.eqb n ".." then parent p
  else p ++ [n].

Definition lookup_node (f : gmap path node) (p : path) : option node :=
  match p with
  | [] => Some Dir
  | _ => f !! p
  end.

Definition is_dir (f : gmap path node) (p : path) : bool :=
  match lookup_node f p with Some Dir => true | _ => false end.

Definition exist (f : gmap path node) (p : path) : bool :=
  match lookup_node f p with Some _ => true | None => false end.

Definition is_child_of (d p : path) : bool :=
  match p with
  | [] => false
  | _ => bool_decide (parent p = d)
  end.

(** The entries of directory [d], in the order the map enumerates them. *)
Definition children (f : gmap path node) (d : path) : list path :=
  List.filter (is_child_of d) (map fst (map_to_list f)).

(** [Path.mkdir(exist_ok=True)] *)
Definition mkdir_exist_ok (f : gmap path node) (p : path)
  : option (gmap path node) :=
  match lookup_node f p with
  | Some Dir => Some f
  | Some (File _) => None
  | None => if is_dir f (parent p) then Some (<[p := Dir]> f) else None
  end.

(** [Path.mkdir(parents=True, exist_ok=True)]: every prefix in turn. *)
Fixpoint mkdir_prefixes (f : gmap path node) (done todo : path)
  : option (gmap path node) :=
  match todo with
  | [] => Some f
  | c :: rest =>
      match mkdir_exist_ok f (done ++ [c]) with
      | Some f' => mkdir_prefixes f' (done ++ [c]) rest
      | None => None
      end
  end.
Definition mkdir_parents (f : gmap path node) (p : path)
  : option (gmap path node) := mkdir_prefixes f [] p.

(** [open(p, 'wb')], the content written, and the close *)
Definition write (f : gmap path node) (p : path) (c : list Byte.byte)
  : option (gmap path node) :=
  match lookup_node f p with
  | Some Dir => None
  | _ => if is_dir f (parent p) then Some (<[p := File c]> f) else None
  end.

Definition read (f : gmap path node) (p : path) : option (list Byte.byte) :=
  match lookup_node f p with
  | Some (File c) => Some c
  | _ => None
  end.

(** [Path.unlink()] *)
Definition unlink (f : gmap path node) (p : path) : option (gmap path node) :=
  match lookup_node f p with
  | Some (File _) => Some (delete p f)
  | _ => None
  end.

(** [Path.rmdir()]: only an empty directory goes. *)
Definition rmdir (f : gmap path node) (p : path) : option (gmap path node) :=
  match p, f !! p with
  | _ :: _, Some Dir =>
      match children f p with
      | [] => Some (delete p f)
      | _ => None
      end
  | _, _ => None
  end.

End FS.

(** A file-system operation as a computation: failure raises [OSError]. *)
Definition fs_op (op : gmap path node -> option (gmap path node))
  : M world unit :=
  fun w =>
    match op (fs w) with
    | Some f' => (Ret tt, set_fs f' w)
    | None => (Raise OSError, w)
    end.

Definition path_exists (p : path) : M world bool :=
  fun w => (Ret (FS.exist (fs w) p), w).

Definition read_file (p : path) : M world (list Byte.byte) :=
  fun w =>
    match FS.read (fs w) p with
    | Some c => (Ret c, w)
    | None => (Raise OSError, w)
    end.

(** ** The environment: remote archive and codecs *)

(** One HTML page: the start tags [HTMLParser.feed] reports, and what
    [re.findall] returns on its text for the pattern of
    [list_available_indexes]. *)
Record html := mkHtml {
  html_tags : list start_tag;
  html_index_hrefs : list string
}.

Inductive http_response :=
| Page (doc : html)
| HttpFailure (code : Z)
| OtherFailure.

(** What happens to the retrieval of one shard: the HEAD request fails, the
    GET cannot be opened, the transfer stops after [partial] was written to
    the target, or all of [content] arrives. *)
Inductive download :=
| HeadFailed
| GetFailed
| Truncated (partial : list Byte.byte)
| Complete (content : list Byte.byte).

Record environment := mkEnv {
  listing : string -> http_response;
  retrieve : string -> download;
  (* the bytes a bz2 stream yields, and whether it then ends cleanly *)
  bz2_read : list Byte.byte -> list Byte.byte * bool;
  gzip_compress : list Byte.byte -> list Byte.byte;
  gzip_decompress : list Byte.byte -> option (list Byte.byte)
}.

(** ** The program *)

Section Program.

Context (env : environment).

(** [urllib.request.urlopen(url)] followed by [read().decode('utf-8')] *)
Definition urlopen (url : string) : M world html :=
  log_request (GET url) ;;
  match listing env url with
  | Page doc => ret doc
  | HttpFailure code => raise (HTTPError code)
  | OtherFailure => raise URLError
  end.

Definition download_dump (url : string) (output_path : path) : M world bool :=
  try_except
    (log_request (HEAD url) ;;
     match retrieve env url with
     | HeadFailed => raise URLError
     | GetFailed => log_request (GET url) ;; raise URLError
     | Truncated partial =>
         log_request (GET url) ;;
         fs_op (fun f => FS.write f output_path partial) ;;
         raise URLError
     | Complete content =>
         log_request (GET url) ;;
         fs_op (fun f => FS.write f output_path content) ;;
         ret true
     end)
    (fun e =>
       if is_Exception e
       then print (DownloadError url e) ;; ret false
       else raise e).

Definition find_latest_date (base_url : string) : M world string :=
  try_except
    (let* doc := urlopen base_url in
     let parser := parse_listing (html_tags doc) in
     let dates := List.filter Py.date_pattern_match (directories parser) in
     match dates with
     | [] => raise (ValueError (NoDateDirectories base_url))
     | _ =>
         let dates := Py.sorted dates in
         let latest_date := default "" (last dates) in
         print (FoundDates (length dates) latest_date) ;;
         ret latest_date
     end)
    (fun e =>
       match e with
       | HTTPError _ => raise (ValueError (ListingAccessFailed base_url e))
       | SystemExit _ => raise e
       | _ => raise (ValueError (ErrorFindingLatestDate e))
       end).

(** The answer to the confirmation prompt counts as a yes. *)
Definition is_yes (response : string) : bool :=
  Py.str_in (Py.lower (Py.strip response)) ["yes"; "y"].

Definition dump_pattern : string := "*wiki-*-cirrussearch-content.json.gz".

(** [output_dir.glob(pattern)] *)
Definition glob (f : gmap path node) (dir : path) (pattern : string)
  : list path :=
  List.filter (fun p => Py.fnmatch pattern (FS.name p)) (FS.children f dir).

(** The deletion loop of [cleanup_old_dumps]; [None] when it ran to its end,
    [Some b] when it returned [b] from inside. *)
Fixpoint delete_dumps (dump_files : list path) : M world (option bool) :=
  match dump_files with
  | [] => ret None
  | f :: rest =>
      let* r :=
        try_except
          (fs_op (fun m => FS.unlink m f) ;;
           print (Deleted (FS.name f)) ;;
           ret None)
          (fun e =>
             if is_Exception e
             then print (DeleteError (FS.name f)) ;; ret (Some false)
             else raise e) in
      match r with
      | Some b => ret (Some b)
      | None => delete_dumps rest
      end
  end.

Definition cleanup_old_dumps (output_dir : path) (confirm : bool)
  : M world bool :=
  let pattern := dump_pattern in
  let* w := get in
  let dump_files := glob (fs w) output_dir pattern in
  match dump_files with
  | [] => print NoOldDumps ;; ret true
  | _ =>
      print (FoundOldDumps (map FS.name dump_files)) ;;
      let* go_on :=
        (if confirm then
           let* response := input DeletePrompt in
           if negb (is_yes response)
           then print CleanupCancelled ;; ret false
           else ret true
         else ret true) in
      if negb go_on then ret false
      else
        let* r := delete_dumps dump_files in
        match r with
        | Some b => ret b
        | None => print CleanupCompleted ;; ret true
        end
  end.

(** [list(set(xs))]: the distinct elements; Python leaves their order
    unspecified, and the callers sort them before use. *)
Definition list_set (xs : list string) : list string := remove_dups xs.

Definition list_available_indexes (base_url : string) : M world (list string) :=
  try_except
    (let* doc := urlopen base_url in
     let parser := parse_listing (html_tags doc) in
     let indexes :=
       List.filter (fun d => Py.startswith d "index_name=") (directories parser) in
     let indexes :=
       match indexes with
       | [] =>
           let all_items := files parser ++ directories parser in
           let indexes :=
             List.filter (fun item => Py.contains item "index_name=") all_items in
           let indexes := map (Py.remove_all ".json.bz2") indexes in
           list_set
             (List.filter (fun idx => Py.startswith idx "index_name=") indexes)
       | _ => indexes
       end in
     let indexes :=
       match indexes with
       | [] =>
           let matches := html_index_hrefs doc in
           list_set
             (List.filter (fun m => Py.startswith m "index_name=") matches)
       | _ => indexes
       end in
     ret indexes)
    (fun e => if is_Exception e then ret [] else raise e).

Definition shard_subdir (lang : string) : string :=
  if String.eqb lang "simple"
  then "index_name=simplewiki_content"
  else "index_name=" +:+ lang +:+ "wiki_content".

Definition shard_files_of (doc : html) : list string :=
  let parser := parse_listing (html_tags doc) in
  Py.sorted (List.filter (fun f => Py.endswith f ".json.bz2") (files parser)).

Definition discover_shard_files (base_url lang date : string)
  : M world (list string) :=
  let subdir := shard_subdir lang in
  let dir_url := base_url +:+ subdir +:+ "/" in
  try_except
    (let* doc := urlopen dir_url in
     let shard_files := shard_files_of doc in
     match shard_files with
     | [] =>
         let* available_indexes := list_available_indexes base_url in
         raise (ValueError
                  (NoShardFiles dir_url
                     (take 10 (Py.sorted available_indexes))
                     (length available_indexes - 10)))
     | _ =>
         let shard_urls :=
           map (fun f => base_url +:+ subdir +:+ "/" +:+ f) shard_files in
         ret shard_urls
     end)
    (fun e =>
       match e with
       | HTTPError code =>
           if Z.eqb code 404 then
             let encoded_subdir := Py.quote subdir in
             let encoded_dir_url := base_url +:+ encoded_subdir +:+ "/" in
             let* found :=
               try_except
                 (let* doc := urlopen encoded_dir_url in
                  let shard_files := shard_files_of doc in
                  match shard_files with
                  | [] => ret None
                  | _ =>
                      ret (Some
                             (map (fun f =>
                                     base_url +:+ encoded_subdir +:+ "/" +:+ f)
                                shard_files))
                  end)
                 (fun _ => ret None) in
             match found with
             | Some shard_urls => ret shard_urls
             | None =>
                 let* available_indexes := list_available_indexes base_url in
                 raise (ValueError
                          (ShardDirectoryNotFound dir_url e
                             (take 20 (Py.sorted available_indexes))
                             (length available_indexes - 20)))
             end
           else raise (ValueError (ListingAccessFailed dir_url e))
       | SystemExit _ => raise e
       | _ => raise (ValueError (ErrorDiscoveringShards e))
       end).

(** *** The shard reassembler *)

(** The local variables of [download_and_concatenate_shards] that outlive a
    statement: the [except] clause reads [downloaded_shards] as it stands
    when the exception is raised. [outfile] is what has been written to the
    gzip stream so far. *)
Record locals := mkLocals {
  downloaded_shards : list path;
  outfile : list Byte.byte;
  total_size : Z
}.

Definition liftW {A} (c : M world A) : M (world * locals) A :=
  fun s =>
    match c (fst s) with
    | (r, w') => (r, (w', snd s))
    end.

Definition get_locals : M (world * locals) locals :=
  fun s => (Ret (snd s), s).

Definition set_locals (f : locals -> locals) : M (world * locals) unit :=
  fun s => (Ret tt, (fst s, f (snd s))).

Definition with_locals {A} (l0 : locals) (c : M (world * locals) A)
  : M world A :=
  fun w =>
    match c (w, l0) with
    | (r, s') => (r, fst s')
    end.

(** [read(n)] on a stream whose remaining bytes are [l]: the bytes
    returned, and the bytes left. *)
Fixpoint takeN {A} (n : N) (l : list A) : list A :=
  match l with
  | [] => []
  | x :: l' => if N.eqb n 0 then [] else x :: takeN (N.pred n) l'
  end.

Fixpoint dropN {A} (n : N) (l : list A) : list A :=
  match l with
  | [] => l
  | x :: l' => if N.eqb n 0 then l else dropN (N.pred n) l'
  end.

Definition CHUNK : N := 1024 * 1024.

Definition download_all (temp_dir : path)
  : list string -> M (world * locals) unit :=
  fix loop (shard_urls : list string) : M (world * locals) unit :=
    match shard_urls with
    | [] => ret tt
    | shard_url :: rest =>
        let shard_filename := Py.basename shard_url in
        let temp_shard_path := FS.joinpath temp_dir shard_filename in
        let* ok := liftW (download_dump shard_url temp_shard_path) in
        if negb ok then raise (Exception (FailedToDownload shard_url))
        else
          set_locals (fun l =>
            {| downloaded_shards := downloaded_shards l ++ [temp_shard_path];
               outfile := outfile l; total_size := total_size l |}) ;;
          loop rest
    end.

(** The [while True] loop over one open bz2 file. [stream] is what is left
    to read; a read of [CHUNK] bytes returns nothing exactly when it is
    empty, which ends the loop, or raises when the stream is damaged. *)
Fixpoint read_chunks (stream : list Byte.byte) (clean : bool)
  : M (world * locals) unit :=
  match stream with
  | [] => if clean then ret tt else raise OSError
  | b :: rest =>
      let chunk := b :: takeN (CHUNK - 1) rest in
      set_locals (fun l =>
        {| downloaded_shards := downloaded_shards l;
           outfile := outfile l ++ chunk;
           total_size := total_size l + Z.of_nat (length chunk) |}) ;;
      read_chunks (dropN (CHUNK - 1) rest) clean
  end.

Definition process_shard (shard_path : path) : M (world * locals) unit :=
  let* content := liftW (read_file shard_path) in
  read_chunks (fst (bz2_read env content)) (snd (bz2_read env content)).

(** [with gzip.open(output_path, 'wb') as outfile: body]: the file is
    created or truncated; when the block is left, normally or not, the
    stream is closed and the file holds the compressed form of all that
    was written. *)
Definition with_gzip_open (output_path : path) (body : M (world * locals) unit)
  : M (world * locals) unit :=
  liftW (fs_op (fun f => FS.write f output_path [])) ;;
  set_locals (fun l =>
    {| downloaded_shards := downloaded_shards l; outfile := [];
       total_size := total_size l |}) ;;
  finally body
    (let* l := get_locals in
     liftW (modify (fun w =>
       set_fs (<[output_path := File (gzip_compress env (outfile l))]> (fs w)) w))).

Definition temp_dir_of (output_path : path) : path :=
  FS.joinpath (FS.parent output_path)
    (".temp_" +:+ Py.stem (FS.name output_path)).

Definition download_and_concatenate_shards (shard_urls : list string)
  (output_path : path) : M world bool :=
  let temp_dir := temp_dir_of output_path in
  fs_op (fun f => FS.mkdir_exist_ok f temp_dir) ;;
  with_locals {| downloaded_shards := []; outfile := []; total_size := 0 |}
    (try_except
       (download_all temp_dir shard_urls ;;
        with_gzip_open output_path
          (let* l := get_locals in
           for_each (downloaded_shards l) process_shard) ;;
        let* l := get_locals in
        liftW (print (CreatedOutput (FS.name output_path) (total_size l))) ;;
        for_each (downloaded_shards l)
          (fun shard_path => liftW (fs_op (fun f => FS.unlink f shard_path))) ;;
        liftW (fs_op (fun f => FS.rmdir f temp_dir)) ;;
        ret true)
       (fun e =>
          if is_Exception e then
            liftW (print (ErrorProcessingShards e)) ;;
            let* there := liftW (path_exists temp_dir) in
            (if there then
               let* l := get_locals in
               for_each (downloaded_shards l)
                 (fun shard_path =>
                    let* present := liftW (path_exists shard_path) in
                    if present
                    then liftW (fs_op (fun f => FS.unlink f shard_path))
                    else ret tt) ;;
               try_except
                 (liftW (fs_op (fun f => FS.rmdir f temp_dir)))
                 (fun _ => ret tt)
             else ret tt) ;;
            ret false
          else raise e)).

(** *** The command line *)

Record Args := mkArgs {
  lang : string;
  output_dir : path;
  date : option string;
  clean : bool;
  yes : bool
}.

Definition sys_exit {A} (code : Z) : M world A := raise (SystemExit code).

Definition output_filename (lang dump_date : string) : string :=
  if String.eqb lang "simple"
  then "simplewiki-" +:+ dump_date +:+ "-cirrussearch-content.json.gz"
  else lang +:+ "wiki-" +:+ dump_date +:+ "-cirrussearch-content.json.gz".

Definition base_index_url : string :=
  "https://dumps.wikimedia.org/other/cirrus_search_index/".

Definition main (args : Args) : M world unit :=
  fs_op (fun f => FS.mkdir_parents f (output_dir args)) ;;
  (if clean args then
     let* ok := cleanup_old_dumps (output_dir args) (negb (yes args)) in
     if negb ok then sys_exit 1 else ret tt
   else ret tt) ;;
  let* dump_date :=
    (if Py.truthy (default "" (date args)) then ret (default "" (date args))
     else
       try_except (find_latest_date base_index_url)
         (fun e =>
            if is_Exception e then print (ErrorMessage e) ;; sys_exit 1
            else raise e)) in
  let filename := output_filename (lang args) dump_date in
  let output_path := FS.joinpath (output_dir args) filename in
  let base_url := base_index_url +:+ dump_date +:+ "/" in
  try_except
    (let* shard_urls := discover_shard_files base_url (lang args) dump_date in
     let* ok := download_and_concatenate_shards shard_urls output_path in
     if ok then print (Succeeded filename)
     else print (Failed filename) ;; sys_exit 1)
    (fun e =>
       if is_Exception e then print (ErrorMessage e) ;; sys_exit 1
       else raise e).

(** The exit status of the process that ran [main]. *)
Definition exit_status (r : result unit) : Z :=
  match r with
  | Ret _ => 0
  | Raise (SystemExit code) => code
  | Raise _ => 1
  end.

End Program.

(** ** Definitions used to state the properties *)

(** The hyperlink targets of a page, in document order: the values of the
    [href] attributes of its [a] tags. *)
Definition href_of (a : attr) : list string :=
  match a with
  | (n, Some v) => if String.eqb n "href" then [v] else []
  | (_, None) => []
  end.

Definition hrefs (tags : list start_tag) : list string :=
  flat_map (fun t => if String.eqb (fst t) "a"
                     then flat_map href_of (snd t) else []) tags.

(** A target that is neither empty nor a current/parent-directory marker *)
Definition kept (v : string) : bool :=
  Py.truthy v && negb (Py.str_in v ["../"; "./"]).

Definition is_file_target (v : string) : bool :=
  kept v && negb (Py.endswith v "/").

Definition is_dir_target (v : string) : bool :=
  kept v && Py.endswith v "/" && Py.truthy (Py.rstrip "/" v).

(** A string without the wildcard character *)
Fixpoint no_star (s : string) : bool :=
  match s with
  | EmptyString => true
  | String c s' => negb (Ascii.eqb c "*") && no_star s'
  end.

(** The temporary path of each shard, in the order of the URLs *)
Definition paths_of (temp_dir : path) (shard_urls : list string) : list path :=
  map (fun u => FS.joinpath temp_dir (Py.basename u)) shard_urls.

(** The file system after a series of files has been written *)
Fixpoint write_all (f : gmap path node) (pcs : list (path * list Byte.byte))
  : gmap path node :=
  match pcs with
  | [] => f
  | (p, c) :: rest => write_all (<[p := File c]> f) rest
  end.

(** What the bz2 streams of the contents [cs] decode to, one after another *)
Definition decoded (env : environment) (cs : list (list Byte.byte))
  : list Byte.byte :=
  concat (map (fun c => fst (bz2_read env c)) cs).

(** ** Example data *)

Definition plain_env (l : string -> http_response) (r : string -> download)
  : environment :=
  {| listing := l; retrieve := r;
     bz2_read := fun c => (c, true);
     gzip_compress := fun c => c;
     gzip_decompress := fun c => Some c |}.

Definition empty_world : world :=
  {| fs := ∅; requests := []; stdin := []; stdout := [] |}.

Definition dates_page : html :=
  {| html_tags :=
       [("a", [("href", Some "../")]); ("a", [("href", Some "20240101/")]);
        ("a", [("href", Some "20231225/")]);
        ("a", [("href", Some "202050101/")]);
        ("a", [("href", Some "2020511/")])];
     html_index_hrefs := [] |}.

Definition shards_page : html :=
  {| html_tags :=
       [("a", [("href", Some "../")]);
        ("a", [("href", Some "part-2.json.bz2")]);
        ("a", [("href", Some "part-1.json.bz2")]);
        ("a", [("href", Some "part-10.json.bz2")]);
        ("a", [("href", Some "README.txt")])];
     html_index_hrefs := [] |}.

(** An archive that knows the shard directory of the English edition only
    under its percent-encoded name. *)
Definition encoded_only_listing (url : string) : http_response :=
  if String.eqb url "https://h/20240101/index_name%3Denwiki_content/"
  then Page shards_page else HttpFailure 404.

Definition dir_world (f : gmap path node) (answers : list string) : world :=
  {| fs := f; requests := []; stdin := answers; stdout := [] |}.

(** An output directory holding notes only, and one holding an old dump. *)
Definition tidy_fs : gmap path node :=
  {[ ["dumps"] := Dir; ["dumps"; "notes.txt"] := File [] ]}.

Definition stale_fs : gmap path node :=
  {[ ["dumps"] := Dir;
     ["dumps"; "notes.txt"] := File [];
     ["dumps"; "enwiki-20230101-cirrussearch-content.json.gz"] :=
       File [Byte.x1f; Byte.x8b] ]}.

Definition clean_args : Args :=
  {| lang := "en"; output_dir := ["dumps"]; date := Some "20240101";
     clean := true; yes := false |}.

(** Three shards: two arrive whole, the transfer of the third breaks off
    after one byte. *)
Definition three_shards (url : string) : download :=
  if String.eqb url "http://h/a.json.bz2" then Complete [Byte.x01; Byte.x02]
  else if String.eqb url "http://h/b.json.bz2" then Complete [Byte.x03]
  else if String.eqb url "http://h/c.json.bz2" then Truncated [Byte.x04]
  else HeadFailed.

Definition shard_env : environment :=
  plain_env (fun _ => OtherFailure) three_shards.

Definition out_world : world := dir_world {[ ["out"] := Dir ]} [].

(** The same directory after an earlier run was interrupted: a shard file
    is still there. *)
Definition interrupted_world : world :=
  dir_world {[ ["out"] := Dir;
               ["out"; ".temp_x.json"] := Dir;
               ["out"; ".temp_x.json"; "d.json.bz2"] := File [Byte.x05] ]} [].

(** A small archive: one dated directory with three shards of the English
    edition. *)
Definition archive_listing (url : string) : http_response :=
  if String.eqb url base_index_url then Page dates_page
  else if String.eqb url
            (base_index_url +:+ "20240101/index_name=enwiki_content/")
  then Page shards_page
  else HttpFailure 404.

Definition archive_shards (url : string) : download :=
  let dir := base_index_url +:+ "20240101/index_name=enwiki_content/" in
  if String.eqb url (dir +:+ "part-1.json.bz2") then Complete [Byte.x01]
  else if String.eqb url (dir +:+ "part-10.json.bz2") then Complete [Byte.x0a]
  else if String.eqb url (dir +:+ "part-2.json.bz2") then Complete [Byte.x02]
  else HeadFailed.

Definition archive_env : environment := plain_env archive_listing archive_shards.

Definition download_args : Args :=
  {| lang := "en"; output_dir := ["dumps"]; date := None;
     clean := false; yes := false |}.

(** ** Further definitions used to state properties *)



(** ** Further example data *)

(** A dated directory of the archive listing two indexes and a note. *)
Definition indexes_page : html :=
  {| html_tags :=
       [("a", [("href", Some "../")]);
        ("a", [("href", Some "index_name=enwiki_content/")]);
        ("a", [("href", Some "index_name=dewiki_content/")]);
        ("a", [("href", Some "README.txt")])];
     html_index_hrefs := [] |}.

(** An output directory in which a directory bears a dump's name. *)
Definition odd_fs : gmap path node :=
  {[ ["dumps"] := Dir;
     ["dumps"; "dewiki-20230101-cirrussearch-content.json.gz"] := Dir ]}.

(** The archive of [shard_env] with a decoder that reports a stream of a
    single byte as damaged, after delivering that byte. *)
Definition damaged_env : environment :=
  {| listing := listing shard_env; retrieve := retrieve shard_env;
     bz2_read := fun c => (c, Nat.ltb 1 (length c));
     gzip_compress := gzip_compress shard_env;
     gzip_decompress := gzip_decompress shard_env |}.

(** ** Definitions used to state what a run leaves alone *)

(** [within d q]: the path [q] is [d] or lies below it. *)
Definition within (d q : path) : Prop := exists rest, q = d ++ rest.

(** What [except Exception] catches *)
Definition catchable (e : exn) : Prop := is_Exception e = true.

(** A computation [keeps] an invariant [I] and a relation [R] between the
    state a run starts from and the state it leaves, raising in [E] only,
    when every run from a state in [I] ends in [I], is in [R], and raises
    nothing but exceptions in [E]. *)
Definition keeps {S A} (I : S -> Prop) (R : S -> S -> Prop)
  (E : exn -> Prop) (c : M S A) : Prop :=
  forall s, I s ->
    I (snd (c s)) /\ R s (snd (c s)) /\
    forall e, fst (c s) = Raise e -> E e.

(** The input is not read, nothing outside directory [d] is touched, and no
    directory is created. *)
Definition confined (d : path) (w w' : world) : Prop :=
  stdin w' = stdin w /\
  (forall q, ~ within d q -> fs w' !! q = fs w !! q) /\
  (forall q, fs w' !! q = Some Dir -> fs w !! q = Some Dir).

(** The input is not read, and what exists outside directory [d] stays as
    it is. *)
Definition spares (d : path) (w w' : world) : Prop :=
  stdin w' = stdin w /\
  (forall q, ~ within d q -> fs w !! q <> None -> fs w' !! q = fs w !! q).

(** Every path in [downloaded_shards] lies in directory [d] and is not a
    directory. *)
Definition shards_in (d : path) (s : world * locals) : Prop :=
  Forall (fun p => within d p /\ p <> [] /\ fs (fst s) !! p <> Some Dir)
    (downloaded_shards (snd s)).

(** A file system with a file that is none of the downloader's business. *)
Definition shared_fs : gmap path node :=
  {[ ["home"] := Dir; ["home"; "notes.txt"] := File [Byte.x41] ]}.

(** * Properties *)

(** ** Strings *)

Arguments Py.str_in : simpl never.
Arguments Py.truthy : simpl never.
Arguments Py.endswith : simpl never.
Arguments Py.rstrip : simpl never.
Arguments Py.date_pattern_match : simpl never.
Arguments Py.sorted : simpl never.
Arguments Py.quote : simpl never.
Arguments Py.fnmatch : simpl never.
Arguments Py.basename : simpl never.
Arguments Py.stem : simpl never.

Lemma append_cons (a : ascii) (s t : string) :
  String a s +:+ t = String a (s +:+ t).
Proof. reflexivity. Qed.

Lemma append_empty_l (t : string) : "" +:+ t = t.
Proof. reflexivity. Qed.

Lemma append_assoc (s t u : string) : (s +:+ t) +:+ u = s +:+ (t +:+ u).
Proof.
  induction s as [|a s IH]; [reflexivity|]. rewrite !append_cons. now f_equal.
Qed.

Lemma append_nil_r (s : string) : s +:+ "" = s.
Proof.
  induction s as [|a s IH]; [reflexivity|]. rewrite append_cons. now f_equal.
Qed.


Lemma endswith_cons (a : ascii) (s suf : string) :
  Py.endswith (String a s) suf
  = String.eqb (String a s) suf || Py.endswith s suf.
Proof. reflexivity. Qed.


Lemma rstrip_no_trailing (c : ascii) (s : string) :
  Py.endswith (Py.rstrip c s) (String c "") = false.
Proof.
  induction s as [|a s IH]; [reflexivity|].
  change (Py.rstrip c (String a s))
    with (match Py.rstrip c s with
          | EmptyString =>
              if Ascii.eqb a c then EmptyString else String a EmptyString
          | r => String a r
          end).
  destruct (Py.rstrip c s) as [|b r] eqn:E.
  - destruct (Ascii.eqb a c) eqn:Hac; [reflexivity|].
    rewrite endswith_cons. cbn. now rewrite Hac.
  - change (Py.endswith (String a (String b r)) (String c ""))
      with ((Ascii.eqb a c && String.eqb (String b r) "")
            || Py.endswith (String b r) (String c "")).
    rewrite IH. simpl. now rewrite andb_false_r.
Qed.

(** ** C8: names built from the language code *)

Lemma shard_subdir_template (lang : string) :
  shard_subdir lang = "index_name=" +:+ lang +:+ "wiki_content".
Proof.
  unfold shard_subdir.
  destruct (String.eqb_spec lang "simple") as [-> | _]; reflexivity.
Qed.

(** C8. For every language code, ["simple"] included, the shard
    subdirectory is [index_name={lang}wiki_content] and the output file
    name is [{lang}wiki-{date}-cirrussearch-content.json.gz]: the branch
    taken for ["simple"] yields what the general template yields. *)
Theorem names_follow_templates (lang date : string) :
  shard_subdir lang = "index_name=" +:+ lang +:+ "wiki_content" /\
  output_filename lang date =
    lang +:+ "wiki-" +:+ date +:+ "-cirrussearch-content.json.gz".
Proof.
  split; [apply shard_subdir_template|]. unfold output_filename.
  destruct (String.eqb_spec lang "simple") as [-> | _]; reflexivity.
Qed.

(** ** C7: the directory-listing parser *)

Lemma handle_attr_spec (p : DirectoryListingParser) (a : attr) :
  files (handle_attr p a) = files p ++ List.filter is_file_target (href_of a) /\
  directories (handle_attr p a) =
    directories p ++ map (Py.rstrip "/") (List.filter is_dir_target (href_of a)).
Proof.
  destruct a as [n [v|]]; simpl; [|now rewrite !app_nil_r].
  unfold is_file_target, is_dir_target, kept.
  destruct (String.eqb n "href"); simpl; [|now rewrite !app_nil_r].
  destruct (Py.truthy v); simpl; [|now rewrite !app_nil_r].
  destruct (Py.str_in v ["../"; "./"]); simpl; [now rewrite !app_nil_r|].
  destruct (Py.endswith v "/"); simpl.
  - destruct (Py.truthy (Py.rstrip "/" v)); simpl; now rewrite !app_nil_r.
  - now rewrite !app_nil_r.
Qed.

Lemma handle_attrs_spec (attrs : list attr) (p : DirectoryListingParser) :
  files (fold_left handle_attr attrs p) =
    files p ++ List.filter is_file_target (flat_map href_of attrs) /\
  directories (fold_left handle_attr attrs p) =
    directories p ++
    map (Py.rstrip "/") (List.filter is_dir_target (flat_map href_of attrs)).
Proof.
  revert p. induction attrs as [|a attrs IH]; intros p; simpl.
  - now rewrite !app_nil_r.
  - destruct (IH (handle_attr p a)) as [-> ->].
    destruct (handle_attr_spec p a) as [-> ->].
    rewrite !List.filter_app, map_app, <- !app_assoc. now split.
Qed.

Lemma feed_spec (tags : list start_tag) (p : DirectoryListingParser) :
  files (feed p tags) = files p ++ List.filter is_file_target (hrefs tags) /\
  directories (feed p tags) =
    directories p ++ map (Py.rstrip "/") (List.filter is_dir_target (hrefs tags)).
Proof.
  revert p. unfold feed.
  induction tags as [|[tag attrs] tags IH]; intros p.
  - simpl. now rewrite !app_nil_r.
  - cbn [fold_left]. destruct (IH (handle_starttag p (tag, attrs))) as [-> ->].
    unfold hrefs. cbn [flat_map fst snd]. fold (hrefs tags).
    rewrite !List.filter_app, map_app. unfold handle_starttag.
    destruct (String.eqb tag "a").
    + destruct (handle_attrs_spec attrs p) as [-> ->].
      rewrite <- !app_assoc. now split.
    + simpl. now split.
Qed.

(** C7, as amended. The files of a page are its targets that are kept and
    do not end in ['/'], in document order; its directories are the kept
    targets that end in ['/'] and have something left once every trailing
    ['/'] is removed, stored in that stripped form. Hence a kept target
    that is not made of ['/'] characters only lands in exactly one of the
    two collections, and no directory entry is empty or ends in ['/']. *)
Theorem parser_partitions_targets (tags : list start_tag) :
  let p := parse_listing tags in
  files p = List.filter is_file_target (hrefs tags) /\
  directories p = map (Py.rstrip "/") (List.filter is_dir_target (hrefs tags)) /\
  (forall v, kept v = true -> Py.rstrip "/" v <> "" ->
     xorb (is_file_target v) (is_dir_target v) = true) /\
  Forall (fun d => d <> "" /\ Py.endswith d "/" = false) (directories p).
Proof.
  intros p. destruct (feed_spec tags new_parser) as [Hf Hd].
  simpl in Hf, Hd. fold (parse_listing tags) in Hf, Hd. fold p in Hf, Hd.
  split; [exact Hf|]. split; [exact Hd|]. split.
  - intros v Hk Hne. unfold is_file_target, is_dir_target. rewrite Hk. simpl.
    destruct (Py.rstrip "/" v) eqn:E; [congruence|]. simpl.
    destruct (Py.endswith v "/"); reflexivity.
  - rewrite Hd. apply List.Forall_forall. intros d Hin.
    apply in_map_iff in Hin as [v [<- Hv]].
    apply filter_In in Hv as [_ Hv]. unfold is_dir_target in Hv.
    apply andb_true_iff in Hv as [_ Hv]. split.
    + intros E. rewrite E in Hv. discriminate Hv.
    + apply rstrip_no_trailing.
Qed.

(** The claim as written fails on a link to the root: its target ["/"] is
    not empty and is not a directory marker, yet it lands in neither
    collection. *)
Lemma parser_drops_root_target :
  let p := parse_listing [("a", [("href", Some "/")])] in
  kept "/" = true /\ In "/" (hrefs [("a", [("href", Some "/")])]) /\
  files p = [] /\ directories p = [].
Proof. vm_compute. repeat split. now left. Qed.

(** An instance of [parser_partitions_targets]: a page with a parent link,
    a dated directory and a file. *)
Lemma parser_partitions_targets_witness :
  kept "20240101/" = true /\ Py.rstrip "/" "20240101/" <> "" /\
  xorb (is_file_target "20240101/") (is_dir_target "20240101/") = true.
Proof.
  split; [reflexivity|]. split; [discriminate|].
  apply (parser_partitions_targets
           [("a", [("href", Some "../")]); ("a", [("href", Some "20240101/")]);
            ("a", [("href", Some "notes.txt")])]);
    [reflexivity | discriminate].
Defined.

(** ** Running computations *)

Lemma bind_Ret_inv {S A B} (c : M S A) (k : A -> M S B) s b s' :
  bind c k s = (Ret b, s') ->
  exists a s1, c s = (Ret a, s1) /\ k a s1 = (Ret b, s').
Proof.
  unfold bind. destruct (c s) as [[a|e] s1]; intros H.
  - now exists a, s1.
  - discriminate H.
Qed.

(** What printing, logging and a new file system leave untouched *)

Lemma fs_printed m w : fs (printed m w) = fs w.
Proof. reflexivity. Qed.
Lemma stdin_printed m w : stdin (printed m w) = stdin w.
Proof. reflexivity. Qed.
Lemma requests_printed m w : requests (printed m w) = requests w.
Proof. reflexivity. Qed.
Lemma stdout_printed m w : stdout (printed m w) = stdout w ++ [m].
Proof. reflexivity. Qed.
Lemma fs_logged r w : fs (logged r w) = fs w.
Proof. reflexivity. Qed.
Lemma stdin_logged r w : stdin (logged r w) = stdin w.
Proof. reflexivity. Qed.
Lemma requests_logged r w : requests (logged r w) = requests w ++ [r].
Proof. reflexivity. Qed.
Lemma stdout_logged r w : stdout (logged r w) = stdout w.
Proof. reflexivity. Qed.
Lemma fs_set_fs f w : fs (set_fs f w) = f.
Proof. reflexivity. Qed.
Lemma stdin_set_fs f w : stdin (set_fs f w) = stdin w.
Proof. reflexivity. Qed.
Lemma requests_set_fs f w : requests (set_fs f w) = requests w.
Proof. reflexivity. Qed.
Lemma stdout_set_fs f w : stdout (set_fs f w) = stdout w.
Proof. reflexivity. Qed.

Create Rewrite HintDb world.
#[export] Hint Rewrite fs_printed stdin_printed requests_printed stdout_printed
  fs_logged stdin_logged requests_logged stdout_logged
  fs_set_fs stdin_set_fs requests_set_fs stdout_set_fs : world.

(** ** Sorting *)

Lemma sorted_Permutation (xs : list string) : Permutation (Py.sorted xs) xs.
Proof. apply merge_sort_Permutation. Qed.

Lemma sorted_StronglySorted (xs : list string) :
  StronglySorted String.le (Py.sorted xs).
Proof. apply StronglySorted_merge_sort; apply _. Qed.

Lemma sorted_nil_inv (xs : list string) : Py.sorted xs = [] -> xs = [].
Proof.
  intros H. apply Permutation_nil. rewrite <- H.
  apply sorted_Permutation.
Qed.

Lemma sorted_last_max (xs : list string) (d : string) :
  last (Py.sorted xs) = Some d ->
  In d xs /\ forall d', In d' xs -> String.le d' d.
Proof.
  intros Hlast. apply last_Some in Hlast as [l' Hl'].
  pose proof (sorted_StronglySorted xs) as Hs.
  pose proof (sorted_Permutation xs) as Hp.
  rewrite Hl' in Hs, Hp. split.
  - apply (Permutation_in _ Hp). apply in_or_app. right. now left.
  - intros d' Hd'. apply (Permutation_in _ (Permutation_sym Hp)) in Hd'.
    apply in_app_or in Hd' as [Hd' | [<- | []]].
    + apply (StronglySorted_app_1_elem_of _ l' [d]); [exact Hs | |].
      * now apply list_elem_of_In.
      * apply list_elem_of_In. now left.
    + reflexivity.
Qed.

(** ** C6: the date selector *)

(** C6. On the listing of [base_url], [find_latest_date] looks only at the
    directory names matching [^\d{8}$]: when it returns, the result is one
    of them and no other one is greater in the order of strings; it raises
    exactly when there is none. Names with nine or seven digits do not
    match. *)
Theorem find_latest_date_is_max (env : environment) (base_url : string)
  (w : world) (doc : html) :
  listing env base_url = Page doc ->
  let dirs := directories (parse_listing (html_tags doc)) in
  match fst (find_latest_date env base_url w) with
  | Ret d =>
      In d dirs /\ Py.date_pattern_match d = true /\
      forall d', In d' dirs -> Py.date_pattern_match d' = true ->
                 String.le d' d
  | Raise e =>
      List.filter Py.date_pattern_match dirs = [] /\
      e = ValueError (ErrorFindingLatestDate
                        (ValueError (NoDateDirectories base_url)))
  end /\
  Py.date_pattern_match "202050101" = false /\
  Py.date_pattern_match "2020511" = false.
Proof.
  intros Hpage dirs. split; [|split; reflexivity].
  unfold find_latest_date, urlopen.
  unfold try_except at 1, bind at 1, bind at 1, log_request, modify.
  rewrite Hpage. unfold ret at 1. fold dirs.
  destruct (List.filter Py.date_pattern_match dirs) as [|d0 ds] eqn:E.
  - simpl. now split.
  - destruct (last (Py.sorted (d0 :: ds))) as [d|] eqn:Hlast.
    + simpl. apply sorted_last_max in Hlast as [Hin Hmax].
      rewrite <- E in Hin, Hmax. apply filter_In in Hin as [Hin Hm].
      repeat split; [exact Hin | exact Hm |].
      intros d' Hd' Hm'. apply Hmax. now apply filter_In.
    + apply last_None, sorted_nil_inv in Hlast. discriminate Hlast.
Qed.

Example find_latest_date_example :
  fst (find_latest_date (plain_env (fun _ => Page dates_page) (fun _ => HeadFailed))
         base_index_url empty_world) = Ret "20240101".
Proof. vm_compute. reflexivity. Qed.

Lemma find_latest_date_is_max_witness :
  let env := plain_env (fun _ => Page dates_page) (fun _ => HeadFailed) in
  let dirs := directories (parse_listing (html_tags dates_page)) in
  listing env base_index_url = Page dates_page /\
  (match fst (find_latest_date env base_index_url empty_world) with
   | Ret d =>
       In d dirs /\ Py.date_pattern_match d = true /\
       forall d', In d' dirs -> Py.date_pattern_match d' = true ->
                  String.le d' d
   | Raise e =>
       List.filter Py.date_pattern_match dirs = [] /\
       e = ValueError (ErrorFindingLatestDate
                         (ValueError (NoDateDirectories base_index_url)))
   end /\
   Py.date_pattern_match "202050101" = false /\
   Py.date_pattern_match "2020511" = false).
Proof.
  split; [reflexivity|].
  apply (find_latest_date_is_max
           (plain_env (fun _ => Page dates_page) (fun _ => HeadFailed))
           base_index_url empty_world dates_page).
  reflexivity.
Defined.

(** ** C5: the percent-encoded retry *)

Lemma quote_app (s t : string) : Py.quote (s +:+ t) = Py.quote s +:+ Py.quote t.
Proof.
  induction s as [|a s IH]; [reflexivity|].
  rewrite append_cons.
  change (Py.quote (String a (s +:+ t)))
    with (Py.quote_char a +:+ Py.quote (s +:+ t)).
  change (Py.quote (String a s)) with (Py.quote_char a +:+ Py.quote s).
  now rewrite IH, append_assoc.
Qed.

Lemma list_available_indexes_run (env : environment) (base_url : string)
  (w : world) :
  exists indexes,
    list_available_indexes env base_url w = (Ret indexes, logged (GET base_url) w).
Proof.
  unfold list_available_indexes, urlopen, try_except, bind, log_request, modify.
  destruct (listing env base_url) as [doc|code|]; simpl; eauto.
Qed.

(** Unfold [discover_shard_files] down to the requests it makes. *)
Ltac run_locator :=
  cbv beta iota zeta delta
    [discover_shard_files urlopen log_request modify try_except bind raise ret].

Section Locator.

Context (env : environment) (base_url lang date : string).

Let subdir := shard_subdir lang.
Let dir_url := base_url +:+ subdir +:+ "/".
Let encoded_subdir := Py.quote subdir.
Let encoded_dir_url := base_url +:+ encoded_subdir +:+ "/".

Lemma encoded_dir_url_not_base : encoded_dir_url <> base_url.
Proof.
  unfold encoded_dir_url. intros E.
  rewrite <- (append_nil_r base_url) in E at 2.
  apply String.app_inj in E.
  destruct encoded_subdir; discriminate E.
Qed.

Lemma discover_other_status (w : world) (code : Z) :
  listing env dir_url = HttpFailure code ->
  Z.eqb code 404 = false ->
  discover_shard_files env base_url lang date w
  = (Raise (ValueError (ListingAccessFailed dir_url (HTTPError code))),
     logged (GET dir_url) w).
Proof.
  intros Hfail Hcode.
  unfold dir_url, subdir in *. run_locator.
  rewrite Hfail. cbv beta iota. rewrite Hcode. reflexivity.
Qed.

Lemma discover_retry_found (w : world) (code : Z) (doc : html) :
  listing env dir_url = HttpFailure code ->
  Z.eqb code 404 = true ->
  listing env encoded_dir_url = Page doc ->
  shard_files_of doc <> [] ->
  discover_shard_files env base_url lang date w
  = (Ret (map (fun f => base_url +:+ encoded_subdir +:+ "/" +:+ f)
              (shard_files_of doc)),
     logged (GET encoded_dir_url) (logged (GET dir_url) w)).
Proof.
  intros Hfail Hcode Henc Hfiles.
  unfold encoded_dir_url, encoded_subdir, dir_url, subdir in *. run_locator.
  rewrite Hfail. cbv beta iota. rewrite Hcode, Henc. cbv beta iota.
  destruct (shard_files_of doc); [congruence | reflexivity].
Qed.

Lemma discover_retry_requests (w : world) (code : Z) :
  listing env dir_url = HttpFailure code ->
  Z.eqb code 404 = true ->
  exists tail,
    requests (snd (discover_shard_files env base_url lang date w))
    = requests w ++ [GET dir_url; GET encoded_dir_url] ++ tail /\
    (tail = [] \/ tail = [GET base_url]).
Proof.
  intros Hfail Hcode.
  pose proof (list_available_indexes_run env base_url
                (logged (GET encoded_dir_url) (logged (GET dir_url) w)))
    as [idx Hidx].
  unfold encoded_dir_url, encoded_subdir, dir_url, subdir in *. run_locator.
  rewrite Hfail. cbv beta iota. rewrite Hcode.
  destruct (listing env (base_url +:+ Py.quote (shard_subdir lang) +:+ "/"))
    as [doc|code'|]; cbv beta iota.
  - destruct (shard_files_of doc).
    + rewrite Hidx. exists [GET base_url]. simpl. rewrite <- !app_assoc. auto.
    + exists []. simpl. rewrite <- !app_assoc. auto.
  - rewrite Hidx. exists [GET base_url]. simpl. rewrite <- !app_assoc. auto.
  - rewrite Hidx. exists [GET base_url]. simpl. rewrite <- !app_assoc. auto.
Qed.

End Locator.

(** C5. When the first, unencoded request for the shard directory is
    answered by HTTP 404, one request for the percent-encoded directory
    follows, and nothing but at most the listing of [base_url] comes after
    it; a retry that finds shard files returns their URLs below the encoded
    path, with no further request. Any other HTTP status raises at once:
    the only request made is the first one. The encoding turns ['='] into
    [%3D] and leaves ['/'] alone. *)
Theorem encoded_retry_only_on_404 (env : environment)
  (base_url lang date : string) (w : world) (code : Z) :
  let subdir := shard_subdir lang in
  let dir_url := base_url +:+ subdir +:+ "/" in
  let encoded_subdir := Py.quote subdir in
  let encoded_dir_url := base_url +:+ encoded_subdir +:+ "/" in
  let run := discover_shard_files env base_url lang date w in
  listing env dir_url = HttpFailure code ->
  (if Z.eqb code 404 then
     (exists tail,
        requests (snd run)
        = requests w ++ [GET dir_url; GET encoded_dir_url] ++ tail /\
        (tail = [] \/ tail = [GET base_url])) /\
     encoded_dir_url <> base_url /\
     (forall doc,
        listing env encoded_dir_url = Page doc ->
        shard_files_of doc <> [] ->
        run = (Ret (map (fun f => base_url +:+ encoded_subdir +:+ "/" +:+ f)
                        (shard_files_of doc)),
               logged (GET encoded_dir_url) (logged (GET dir_url) w)))
   else
     run = (Raise (ValueError (ListingAccessFailed dir_url (HTTPError code))),
            logged (GET dir_url) w)) /\
  encoded_subdir = "index_name%3D" +:+ Py.quote lang +:+ "wiki_content" /\
  Py.quote "index_name=enwiki_content" = "index_name%3Denwiki_content" /\
  Py.quote "a/b" = "a/b".
Proof.
  intros subdir dir_url encoded_subdir encoded_dir_url run Hfail.
  split; [|split; [|split; reflexivity]].
  - destruct (Z.eqb code 404) eqn:Hcode.
    + split; [|split].
      * now apply discover_retry_requests with (code := code).
      * apply encoded_dir_url_not_base.
      * intros doc Henc Hfiles. now apply discover_retry_found with (code := code).
    + now apply discover_other_status.
  - unfold encoded_subdir, subdir. rewrite shard_subdir_template.
    now rewrite !quote_app.
Qed.

Lemma encoded_retry_only_on_404_witness :
  discover_shard_files (plain_env encoded_only_listing (fun _ => HeadFailed))
    "https://h/20240101/" "en" "20240101" empty_world
  = (Ret ["https://h/20240101/index_name%3Denwiki_content/part-1.json.bz2";
          "https://h/20240101/index_name%3Denwiki_content/part-10.json.bz2";
          "https://h/20240101/index_name%3Denwiki_content/part-2.json.bz2"],
     logged (GET "https://h/20240101/index_name%3Denwiki_content/")
       (logged (GET "https://h/20240101/index_name=enwiki_content/")
          empty_world)).
Proof.
  pose proof (encoded_retry_only_on_404
                (plain_env encoded_only_listing (fun _ => HeadFailed))
                "https://h/20240101/" "en" "20240101" empty_world 404
                eq_refl) as [[_ [_ H]] _].
  apply (H shards_page); [reflexivity | discriminate].
Defined.

(** ** What the patterns accept *)

Lemma fnmatch_nil (name : string) :
  Py.fnmatch "" name = true <-> name = "".
Proof. destruct name; split; intros H; try reflexivity; discriminate H. Qed.

Lemma fnmatch_star_nil (pat : string) :
  Py.fnmatch (String "*" pat) "" = Py.fnmatch pat "" || false.
Proof. reflexivity. Qed.

Lemma fnmatch_star_cons (pat : string) (a : ascii) (n : string) :
  Py.fnmatch (String "*" pat) (String a n)
  = Py.fnmatch pat (String a n) || Py.fnmatch (String "*" pat) n.
Proof. reflexivity. Qed.

Lemma fnmatch_star (pat name : string) :
  Py.fnmatch (String "*" pat) name = true <->
  exists pre rest, name = pre +:+ rest /\ Py.fnmatch pat rest = true.
Proof.
  induction name as [|a n IH].
  - rewrite fnmatch_star_nil, orb_false_r. split.
    + intros H. now exists "", "".
    + intros [[|b pre] [rest [E H]]]; [|discriminate E].
      rewrite append_empty_l in E. now subst rest.
  - rewrite fnmatch_star_cons, orb_true_iff, IH. split.
    + intros [H | [pre [rest [-> H]]]].
      * now exists "", (String a n).
      * now exists (String a pre), rest.
    + intros [[|b pre] [rest [E H]]].
      * left. rewrite append_empty_l in E. now subst rest.
      * right. rewrite append_cons in E. injection E as _ ->.
        now exists pre, rest.
Qed.

Lemma fnmatch_literal (lit pat name : string) :
  no_star lit = true ->
  (Py.fnmatch (lit +:+ pat) name = true <->
   exists rest, name = lit +:+ rest /\ Py.fnmatch pat rest = true).
Proof.
  revert name. induction lit as [|c lit IH]; intros name Hlit.
  - rewrite append_empty_l. split.
    + intros H. now exists name.
    + intros [rest [-> H]]. exact H.
  - simpl in Hlit. apply andb_true_iff in Hlit as [Hc Hlit].
    apply negb_true_iff in Hc. rewrite append_cons.
    change (Py.fnmatch (String c (lit +:+ pat)) name)
      with (if Ascii.eqb c "*"
            then Py.fnmatch (String "*" (lit +:+ pat)) name
            else match name with
                 | EmptyString => false
                 | String d name' =>
                     Ascii.eqb c d && Py.fnmatch (lit +:+ pat) name'
                 end).
    rewrite Hc. destruct name as [|d name'].
    + split; [discriminate|]. intros [rest [E _]]. discriminate E.
    + rewrite andb_true_iff, (IH name' Hlit). split.
      * intros [Hcd [rest [-> H]]]. apply Ascii.eqb_eq in Hcd as ->.
        now exists rest.
      * intros [rest [E H]]. rewrite append_cons in E. injection E as -> ->.
        split; [apply Ascii.eqb_refl | now exists rest].
Qed.

(** The names the cleanup pattern accepts: anything, then [wiki-], then
    anything, then [-cirrussearch-content.json.gz]. *)
Lemma dump_pattern_accepts (name : string) :
  Py.fnmatch dump_pattern name = true <->
  exists a b, name = a +:+ "wiki-" +:+ b +:+ "-cirrussearch-content.json.gz".
Proof.
  unfold dump_pattern.
  change "*wiki-*-cirrussearch-content.json.gz"
    with (String "*" ("wiki-" +:+
            String "*" ("-cirrussearch-content.json.gz" +:+ ""))).
  rewrite fnmatch_star. split.
  - intros [a [r1 [-> H]]].
    apply fnmatch_literal in H as [r2 [-> H]]; [|reflexivity].
    apply fnmatch_star in H as [b [r3 [-> H]]].
    apply fnmatch_literal in H as [r4 [-> H]]; [|reflexivity].
    apply fnmatch_nil in H as ->. exists a, b. now rewrite append_nil_r.
  - intros [a [b ->]]. exists a, ("wiki-" +:+ b +:+ "-cirrussearch-content.json.gz").
    split; [reflexivity|]. apply fnmatch_literal; [reflexivity|].
    exists (b +:+ "-cirrussearch-content.json.gz"). split; [reflexivity|].
    apply fnmatch_star. exists b, "-cirrussearch-content.json.gz".
    split; [reflexivity|]. apply fnmatch_literal; [reflexivity|].
    exists "". split; [now rewrite append_nil_r | reflexivity].
Qed.

(** The date pattern accepts eight digits, also before one final newline,
    and nothing that has a letter or another length. *)
Example date_pattern_examples :
  Py.date_pattern_match "20240101" = true /\
  Py.date_pattern_match ("20240101" +:+ String "010" "") = true /\
  Py.date_pattern_match "2024010a" = false /\
  Py.date_pattern_match "202401011" = false /\
  Py.date_pattern_match "" = false.
Proof. repeat split. Qed.

(** ** C10 and C9: cleanup mode *)

Ltac mred := cbv beta iota; autorewrite with world.

Ltac run_cleanup :=
  cbv beta iota zeta delta
    [cleanup_old_dumps get bind ret raise print input modify try_except fs_op];
  autorewrite with world.

Lemma glob_In (f : gmap path node) (dir p : path) (pattern : string) :
  In p (glob f dir pattern) ->
  p <> [] /\ FS.parent p = dir /\ Py.fnmatch pattern (FS.name p) = true.
Proof.
  unfold glob, FS.children. intros H.
  apply filter_In in H as [H Hm]. apply filter_In in H as [_ Hc].
  unfold FS.is_child_of in Hc. destruct p as [|c p]; [discriminate Hc|].
  apply bool_decide_eq_true in Hc. now repeat split.
Qed.

(** C10. When no entry of the output directory matches the pattern,
    [cleanup_old_dumps] returns [True] whatever [confirm] is: it prints
    that nothing was found and does nothing else, so it neither prompts nor
    reads an answer nor touches a file. *)
Theorem cleanup_nothing_to_clean (output_dir : path) (confirm : bool)
  (w : world) :
  Forall (fun p => Py.fnmatch dump_pattern (FS.name p) = false)
    (FS.children (fs w) output_dir) ->
  cleanup_old_dumps output_dir confirm w = (Ret true, printed NoOldDumps w) /\
  fs (printed NoOldDumps w) = fs w /\
  stdin (printed NoOldDumps w) = stdin w /\
  ~ In DeletePrompt (skipn (length (stdout w)) (stdout (printed NoOldDumps w))).
Proof.
  intros Hnone.
  assert (Hglob : glob (fs w) output_dir dump_pattern = []).
  { unfold glob. induction (FS.children (fs w) output_dir) as [|p ps IH];
      [reflexivity|].
    inversion Hnone as [|? ? Hp Hps]; subst. simpl. rewrite Hp. now apply IH. }
  split; [|split; [reflexivity | split; [reflexivity|]]].
  - run_cleanup. now rewrite Hglob.
  - simpl. rewrite skipn_app, skipn_all, Nat.sub_diag. simpl.
    intros [H | []]. discriminate H.
Qed.

Lemma cleanup_nothing_to_clean_witness :
  cleanup_old_dumps ["dumps"] true (dir_world tidy_fs ["yes"])
  = (Ret true, printed NoOldDumps (dir_world tidy_fs ["yes"])).
Proof.
  apply (cleanup_nothing_to_clean ["dumps"] true (dir_world tidy_fs ["yes"])).
  vm_compute. repeat constructor.
Defined.

Lemma unlink_Some (f f1 : gmap path node) (p : path) :
  FS.unlink f p = Some f1 ->
  p <> [] /\ (exists c, f !! p = Some (File c)) /\ f1 = delete p f.
Proof.
  unfold FS.unlink, FS.lookup_node. intros H.
  destruct p as [|c0 p0]; [discriminate H|].
  destruct (f !! (c0 :: p0)) as [[c|]|] eqn:E; try discriminate H.
  injection H as <-. split; [discriminate|].
  split; [now exists c | reflexivity].
Qed.

Lemma delete_dumps_spec (dump_files : list path) (w w' : world)
  (r : result (option bool)) :
  delete_dumps dump_files w = (r, w') ->
  stdin w' = stdin w /\
  forall p, fs w' !! p <> fs w !! p ->
    In p dump_files /\ (exists c, fs w !! p = Some (File c)) /\
    fs w' !! p = None.
Proof.
  revert w. induction dump_files as [|f rest IH]; intros w Hrun.
  - cbv in Hrun. injection Hrun as _ <-.
    split; [reflexivity|]. intros p Hp. now elim Hp.
  - cbn [delete_dumps] in Hrun.
    cbv beta iota zeta delta
      [bind ret raise print modify try_except fs_op] in Hrun.
    destruct (FS.unlink (fs w) f) as [f1|] eqn:Hun.
    + cbv beta iota in Hrun. apply IH in Hrun as [Hin Hrest].
      split; [exact Hin|]. intros p Hp.
      apply unlink_Some in Hun as [Hnil [[c Hf] ->]].
      change (fs (printed (Deleted (FS.name f)) (set_fs (delete f (fs w)) w)))
        with (delete f (fs w)) in Hrest.
      destruct (decide (p = f)) as [-> | Hne].
      * split; [now left|]. split; [now exists c|].
        destruct (fs w' !! f) as [n|] eqn:E; [|reflexivity].
        destruct (Hrest f) as [_ [[c1 Hc1] _]].
        -- now rewrite E, lookup_delete_eq.
        -- rewrite lookup_delete_eq in Hc1. discriminate Hc1.
      * destruct (Hrest p) as [Hp1 [[c1 Hc1] Hp3]].
        -- now rewrite lookup_delete_ne.
        -- rewrite lookup_delete_ne in Hc1 by congruence.
           split; [now right|]. split; [now exists c1 | exact Hp3].
    + cbv beta iota delta [is_Exception] in Hrun. injection Hrun as _ <-.
      split; [reflexivity|]. intros p Hp. now elim Hp.
Qed.

Lemma cleanup_changes (output_dir : path) (confirm : bool) (w w' : world)
  (r : result bool) :
  cleanup_old_dumps output_dir confirm w = (r, w') ->
  forall p, fs w' !! p <> fs w !! p ->
    (FS.parent p = output_dir /\
     Py.fnmatch dump_pattern (FS.name p) = true /\
     (exists c, fs w !! p = Some (File c)) /\
     fs w' !! p = None) /\
    (confirm = false \/
     exists line rest, stdin w = line :: rest /\ is_yes line = true).
Proof.
  intros Hrun p Hp. revert Hrun. run_cleanup.
  destruct (glob (fs w) output_dir dump_pattern) as [|f0 fs0] eqn:Hglob.
  { intros [= _ <-]. now elim Hp. }
  assert (Hdel : forall w0 r1 w2,
            fs w0 = fs w -> fs w2 = fs w' ->
            delete_dumps (f0 :: fs0) w0 = (r1, w2) ->
            FS.parent p = output_dir /\
            Py.fnmatch dump_pattern (FS.name p) = true /\
            (exists c, fs w !! p = Some (File c)) /\ fs w' !! p = None).
  { intros w0 r1 w2 Hfs Hfs' Hd. apply delete_dumps_spec in Hd as [_ Hd].
    rewrite Hfs, Hfs' in Hd. destruct (Hd p Hp) as [Hin [Hc Hn]].
    rewrite <- Hglob in Hin. apply glob_In in Hin as [_ [Hpar Hm]].
    now repeat split. }
  mred. destruct confirm; mred.
  - destruct (stdin w) as [|line rest] eqn:Hin.
    { intros [= _ <-]. now elim Hp. }
    mred. destruct (is_yes line) eqn:Hyes; cbv beta iota delta [negb].
    + destruct (delete_dumps (f0 :: fs0) _) as [[[b|]|e] w1] eqn:Hd;
        intros [= _ <-];
        (split; [eapply Hdel; [| |exact Hd]; reflexivity
                | right; now exists line, rest]).
    + intros [= _ <-]. now elim Hp.
  - cbv beta iota delta [negb].
    destruct (delete_dumps (f0 :: fs0) _) as [[[b|]|e] w1] eqn:Hd;
      intros [= _ <-];
      (split; [eapply Hdel; [| |exact Hd]; reflexivity | now left]).
Qed.

Lemma cleanup_declined (output_dir : path) (w : world)
  (line : string) (rest : list string) :
  glob (fs w) output_dir dump_pattern <> [] ->
  stdin w = line :: rest ->
  is_yes line = false ->
  exists w', cleanup_old_dumps output_dir true w = (Ret false, w') /\
             fs w' = fs w.
Proof.
  intros Hglob Hin Hno. run_cleanup.
  destruct (glob (fs w) output_dir dump_pattern); [congruence|].
  mred. rewrite Hin. mred. rewrite Hno. cbv beta iota delta [negb].
  eexists. split; reflexivity.
Qed.

Lemma main_exits_when_cleanup_fails (env : environment) (args : Args)
  (w w1 : world) (f1 : gmap path node) :
  clean args = true ->
  FS.mkdir_parents (fs w) (output_dir args) = Some f1 ->
  cleanup_old_dumps (output_dir args) (negb (yes args)) (set_fs f1 w)
  = (Ret false, w1) ->
  main env args w = (Raise (SystemExit 1), w1).
Proof.
  intros Hclean Hmk Hcl. unfold main.
  cbv beta iota zeta delta [bind fs_op sys_exit raise ret].
  rewrite Hmk, Hclean. cbv beta iota. rewrite Hcl. reflexivity.
Qed.

(** C9. Whatever [cleanup_old_dumps] does, an entry of the file system
    that it changes was a file of the output directory whose name matches
    [*wiki-*-cirrussearch-content.json.gz], and is gone afterwards; and
    this only happens when confirmation was not asked for or the answer
    read was a yes. When matching files exist and the answer is no,
    nothing is deleted and the function returns [False]; [main], run with
    [--clean], then leaves with exit status 1. *)
Theorem cleanup_mode_is_safe (env : environment) (args : Args)
  (w w1 : world) (f1 : gmap path node) (r : result bool) :
  FS.mkdir_parents (fs w) (output_dir args) = Some f1 ->
  cleanup_old_dumps (output_dir args) (negb (yes args)) (set_fs f1 w)
  = (r, w1) ->
  (forall p, fs w1 !! p <> f1 !! p ->
     (FS.parent p = output_dir args /\
      Py.fnmatch dump_pattern (FS.name p) = true /\
      (exists c, f1 !! p = Some (File c)) /\
      fs w1 !! p = None) /\
     (yes args = true \/
      exists line rest, stdin w = line :: rest /\ is_yes line = true)) /\
  (yes args = false ->
   glob f1 (output_dir args) dump_pattern <> [] ->
   (exists line rest, stdin w = line :: rest /\ is_yes line = false) ->
   r = Ret false /\ fs w1 = f1) /\
  (clean args = true -> r = Ret false ->
   main env args w = (Raise (SystemExit 1), w1) /\
   exit_status (fst (main env args w)) = 1%Z).
Proof.
  intros Hmk Hcl. split; [|split].
  - intros p Hp.
    destruct (cleanup_changes _ _ _ _ _ Hcl p Hp) as [H1 H2].
    split; [exact H1|]. destruct H2 as [H2 | H2].
    + left. now apply negb_false_iff.
    + right. exact H2.
  - intros Hyes Hglob [line [rest [Hin Hno]]]. rewrite Hyes in Hcl.
    destruct (cleanup_declined (output_dir args) (set_fs f1 w) line rest)
      as [w' [Hrun Hfs]]; try assumption.
    change (negb false) with true in Hcl. rewrite Hrun in Hcl.
    injection Hcl as <- <-. now split.
  - intros Hclean ->.
    rewrite (main_exits_when_cleanup_fails env args w w1 f1 Hclean Hmk Hcl).
    now split.
Qed.

Lemma cleanup_mode_is_safe_witness :
  let env := plain_env (fun _ => OtherFailure) (fun _ => HeadFailed) in
  let w := dir_world stale_fs ["no"] in
  main env clean_args w
  = (Raise (SystemExit 1),
     snd (cleanup_old_dumps ["dumps"] true (set_fs stale_fs w))) /\
  exit_status (fst (main env clean_args w)) = 1%Z.
Proof.
  intros env w.
  apply (cleanup_mode_is_safe env clean_args w
           (snd (cleanup_old_dumps ["dumps"] true (set_fs stale_fs w)))
           stale_fs
           (fst (cleanup_old_dumps ["dumps"] true (set_fs stale_fs w)))).
  - vm_compute. reflexivity.
  - apply surjective_pairing.
  - reflexivity.
  - vm_compute. reflexivity.
Defined.

(** ** The shard reassembler *)

Ltac mrun :=
  cbv beta iota zeta delta
    [bind ret raise try_except finally liftW get_locals set_locals with_locals
     fs_op print modify path_exists read_file log_request get for_each];
  cbn [fst snd]; autorewrite with world.

Lemma write_Some (f f' : gmap path node) (p : path) (c : list Byte.byte) :
  FS.write f p c = Some f' ->
  p <> [] /\ f !! p <> Some Dir /\ f' = <[p := File c]> f.
Proof.
  unfold FS.write, FS.lookup_node. intros H.
  destruct p as [|c0 p0]; [discriminate H|].
  destruct (f !! (c0 :: p0)) as [[c1|]|] eqn:E; try discriminate H;
    destruct (FS.is_dir f (FS.parent (c0 :: p0))); try discriminate H;
    injection H as <-; repeat split; congruence.
Qed.

Lemma takeN_dropN {A} (n : N) (l : list A) : takeN n l ++ dropN n l = l.
Proof.
  revert n. induction l as [|x l IH]; intros n; [reflexivity|].
  simpl. destruct (N.eqb n 0); [reflexivity|]. simpl. now rewrite IH.
Qed.

Lemma dropN_length {A} (n : N) (l : list A) : length (dropN n l) <= length l.
Proof.
  revert n. induction l as [|x l IH]; intros n; [reflexivity|].
  simpl. destruct (N.eqb n 0); [reflexivity|].
  specialize (IH (N.pred n)). simpl. lia.
Qed.

(** A read of [CHUNK] bytes from a stream that is not empty *)
Lemma first_chunk (b : Byte.byte) (rest : list Byte.byte) :
  b :: takeN (CHUNK - 1) rest = takeN CHUNK (b :: rest) /\
  dropN (CHUNK - 1) rest = dropN CHUNK (b :: rest).
Proof. split; reflexivity. Qed.

Lemma try_except_inv {S A} (c : M S A) (h : exn -> M S A) s r s' :
  try_except c h s = (r, s') ->
  (exists a, c s = (Ret a, s') /\ r = Ret a) \/
  (exists e s1, c s = (Raise e, s1) /\ h e s1 = (r, s')).
Proof.
  unfold try_except. destruct (c s) as [[a|e] s1]; intros H.
  - left. injection H as <- <-. now exists a.
  - right. now exists e, s1.
Qed.

Lemma finally_Ret_inv {S A} (c : M S A) (f : M S unit) s a s' :
  finally c f s = (Ret a, s') ->
  exists s1, c s = (Ret a, s1) /\ f s1 = (Ret tt, s').
Proof.
  unfold finally. destruct (c s) as [r s1].
  destruct (f s1) as [[[]|e] s2] eqn:Hf; intros H; [|discriminate H].
  injection H as -> <-. now exists s1.
Qed.

Lemma liftW_fs_op_inv (op : gmap path node -> option (gmap path node))
  (w w' : world) (l l' : locals) (r : unit) :
  liftW (fs_op op) (w, l) = (Ret r, (w', l')) ->
  exists f', op (fs w) = Some f' /\ w' = set_fs f' w /\ l' = l.
Proof.
  unfold liftW, fs_op. cbn [fst snd].
  destruct (op (fs w)) as [f'|]; intros H; [|discriminate H].
  injection H as <- <-. now exists f'.
Qed.

Lemma mkdir_exist_ok_Some (f f1 : gmap path node) (p : path) :
  FS.mkdir_exist_ok f p = Some f1 -> p <> [] -> f1 !! p = Some Dir.
Proof.
  unfold FS.mkdir_exist_ok, FS.lookup_node. intros H Hp.
  destruct p as [|c0 p0]; [congruence|].
  destruct (f !! (c0 :: p0)) as [[c|]|] eqn:E; try discriminate H.
  - now injection H as <-.
  - destruct (FS.is_dir f (FS.parent (c0 :: p0))); [|discriminate H].
    injection H as <-. apply lookup_insert_eq.
Qed.

Lemma rmdir_Some (f f' : gmap path node) (p : path) :
  FS.rmdir f p = Some f' -> f' = delete p f /\ FS.children f p = [].
Proof.
  unfold FS.rmdir. intros H. destruct p as [|c0 p0]; [discriminate H|].
  destruct (f !! (c0 :: p0)) as [[c|]|]; try discriminate H.
  destruct (FS.children f (c0 :: p0)) eqn:E; [|discriminate H].
  injection H as <-. now split.
Qed.

Lemma write_all_notin (pcs : list (path * list Byte.byte))
  (f : gmap path node) (p : path) :
  ~ In p (map fst pcs) -> write_all f pcs !! p = f !! p.
Proof.
  revert f. induction pcs as [|[q c] pcs IH]; intros f Hp; [reflexivity|].
  cbn [write_all]. rewrite IH by (intros Hin; apply Hp; now right).
  apply lookup_insert_ne. intros ->. apply Hp. now left.
Qed.

Lemma write_all_lookup (paths : list path) (cs : list (list Byte.byte))
  (f : gmap path node) :
  List.NoDup paths -> length paths = length cs ->
  Forall2 (fun p c => write_all f (zip paths cs) !! p = Some (File c)) paths cs.
Proof.
  intros Hnd. revert f cs.
  induction Hnd as [|p paths Hp Hnd IH]; intros f [|c cs] Hlen;
    try discriminate Hlen; [constructor|].
  cbn [zip zip_with write_all]. constructor.
  - rewrite write_all_notin; [apply lookup_insert_eq|].
    intros Hin. apply Hp. apply in_map_iff in Hin as [[q c'] [Hq Hin]].
    simpl in Hq. subst q.
    apply list_elem_of_In, elem_of_zip_l in Hin. now apply list_elem_of_In.
  - apply IH. now injection Hlen.
Qed.

Lemma temp_dir_of_eq (output_path : path) :
  temp_dir_of output_path
  = FS.parent output_path ++ [".temp_" +:+ Py.stem (FS.name output_path)].
Proof.
  unfold temp_dir_of, FS.joinpath.
  replace (".temp_" +:+ Py.stem (FS.name output_path))
    with (String "." (String "t" (String "e" (String "m" (String "p"
           (String "_" (Py.stem (FS.name output_path))))))))
    by reflexivity.
  reflexivity.
Qed.

Lemma joinpath_cases (d : path) (n : string) :
  FS.joinpath d n = d \/ FS.joinpath d n = FS.parent d \/
  FS.joinpath d n = d ++ [n].
Proof.
  unfold FS.joinpath. destruct (Py.str_in n [""; "."]); [now left|].
  destruct (String.eqb n ".."); [right; now left | right; now right].
Qed.

Lemma parent_length (p : path) : p <> [] -> S (length (FS.parent p)) = length p.
Proof.
  intros Hp. unfold FS.parent.
  destruct (exists_last Hp) as [q [x ->]].
  rewrite removelast_last, length_app. simpl. lia.
Qed.

Section Reassembler.

Context (env : environment).

Lemma read_chunks_spec (stream : list Byte.byte) (clean : bool)
  (w : world) (l : locals) :
  read_chunks stream clean (w, l)
  = (if clean then Ret tt else Raise OSError,
     (w, {| downloaded_shards := downloaded_shards l;
            outfile := outfile l ++ stream;
            total_size := total_size l + Z.of_nat (length stream) |})).
Proof.
  assert (H : forall n stream l, length stream <= n ->
    read_chunks stream clean (w, l)
    = (if clean then Ret tt else Raise OSError,
       (w, {| downloaded_shards := downloaded_shards l;
              outfile := outfile l ++ stream;
              total_size := total_size l + Z.of_nat (length stream) |}))).
  { clear stream l. induction n as [|n IH]; intros [|b rest] l Hle.
    - destruct l as [ds o t]. cbn [read_chunks length Z.of_nat outfile
        total_size downloaded_shards].
      rewrite app_nil_r, Z.add_0_r. destruct clean; reflexivity.
    - simpl in Hle. lia.
    - destruct l as [ds o t]. cbn [read_chunks length Z.of_nat outfile
        total_size downloaded_shards].
      rewrite app_nil_r, Z.add_0_r. destruct clean; reflexivity.
    - cbn [read_chunks]. mrun. rewrite IH.
      + cbn [downloaded_shards outfile total_size].
        rewrite <- app_assoc.
        replace ((b :: takeN (CHUNK - 1) rest) ++ dropN (CHUNK - 1) rest)
          with (b :: rest) by (simpl; now rewrite takeN_dropN).
        replace (total_size l
                 + Z.of_nat (length (b :: takeN (CHUNK - 1) rest))
                 + Z.of_nat (length (dropN (CHUNK - 1) rest)))%Z
          with (total_size l + Z.of_nat (length (b :: rest)))%Z;
          [reflexivity|].
        rewrite <- Z.add_assoc, <- Nat2Z.inj_add, <- length_app. simpl.
        now rewrite takeN_dropN.
      + pose proof (dropN_length (CHUNK - 1) rest). simpl in Hle. lia. }
  apply (H (length stream)). lia.
Qed.

Lemma download_dump_true (url : string) (p : path) (w w' : world) :
  download_dump env url p w = (Ret true, w') ->
  exists c, retrieve env url = Complete c /\
    FS.write (fs w) p c = Some (fs w') /\
    stdout w' = stdout w /\ stdin w' = stdin w.
Proof.
  unfold download_dump. mrun.
  destruct (retrieve env url) as [| |partial|content]; mred;
    cbv beta iota delta [is_Exception]; try discriminate.
  - destruct (FS.write (fs w) p partial); mred; discriminate.
  - destruct (FS.write (fs w) p content) as [f'|] eqn:Hw; mred;
      [|discriminate].
    intros [= <-]. exists content. autorewrite with world. now repeat split.
Qed.

Lemma download_all_Ret (temp_dir : path) (shard_urls : list string)
  (w w' : world) (l l' : locals) :
  download_all env temp_dir shard_urls (w, l) = (Ret tt, (w', l')) ->
  exists cs,
    Forall2 (fun u c => retrieve env u = Complete c) shard_urls cs /\
    fs w' = write_all (fs w) (zip (paths_of temp_dir shard_urls) cs) /\
    Forall (fun p => p <> [] /\ fs w !! p <> Some Dir)
      (paths_of temp_dir shard_urls) /\
    (forall d, fs w !! d = Some Dir -> fs w' !! d = Some Dir) /\
    stdout w' = stdout w /\ stdin w' = stdin w /\
    l' = {| downloaded_shards :=
              downloaded_shards l ++ paths_of temp_dir shard_urls;
            outfile := outfile l; total_size := total_size l |}.
Proof.
  revert w l. induction shard_urls as [|u rest IH]; intros w l Hrun.
  - cbv in Hrun. injection Hrun as <- <-. exists [].
    rewrite app_nil_r. destruct l. repeat split; auto; constructor.
  - cbn [download_all] in Hrun. apply bind_Ret_inv in Hrun as [ok [[w1 l1] [Hd Hk]]].
    unfold liftW in Hd. cbn [fst snd] in Hd.
    destruct (download_dump env u (FS.joinpath temp_dir (Py.basename u)) w)
      as [[b|e] w1'] eqn:Hdump; [|discriminate Hd].
    injection Hd as -> -> <-.
    destruct ok; cbn [negb] in Hk; [|discriminate Hk].
    apply bind_Ret_inv in Hk as [[] [[w2 l2] [Hset Hk]]].
    cbv in Hset. injection Hset as <- <-.
    apply download_dump_true in Hdump as [c [Hc [Hw [Hout Hin]]]].
    apply write_Some in Hw as [Hnil [Hnd Hfs]].
    apply IH in Hk as [cs [Hcs [Hfs' [Hall [Hdir [Hout' [Hin' ->]]]]]]].
    exists (c :: cs). cbn [downloaded_shards outfile total_size].
    split; [now constructor|].
    split; [cbn [paths_of map zip zip_with write_all]; now rewrite Hfs', Hfs|].
    split.
    { cbn [paths_of map]. constructor; [now split|].
      apply List.Forall_forall. intros p Hp.
      apply (proj1 (List.Forall_forall _ _) Hall) in Hp as [Hp1 Hp2].
      split; [exact Hp1|]. intros Hd. apply Hp2. rewrite Hfs.
      destruct (decide (FS.joinpath temp_dir (Py.basename u) = p)) as [<-|Hne];
        [congruence|]. now rewrite lookup_insert_ne. }
    split.
    { intros d Hd. apply Hdir. rewrite Hfs.
      destruct (decide (FS.joinpath temp_dir (Py.basename u) = d)) as [<-|Hne];
        [congruence|]. now rewrite lookup_insert_ne. }
    split; [congruence|]. split; [congruence|].
    cbn [paths_of map]. now rewrite <- app_assoc.
Qed.

Lemma process_all_Ret (paths : list path) (w w' : world) (l l' : locals) :
  for_each paths (process_shard env) (w, l) = (Ret tt, (w', l')) ->
  w' = w /\
  exists cs,
    Forall2 (fun p c => FS.read (fs w) p = Some c /\
                        snd (bz2_read env c) = true) paths cs /\
    l' = {| downloaded_shards := downloaded_shards l;
            outfile := outfile l ++ decoded env cs;
            total_size := total_size l + Z.of_nat (length (decoded env cs)) |}.
Proof.
  revert l. induction paths as [|p rest IH]; intros l Hrun.
  - cbv in Hrun. injection Hrun as <- <-. split; [reflexivity|]. exists [].
    unfold decoded. simpl. rewrite app_nil_r, Z.add_0_r. destruct l.
    split; [constructor | reflexivity].
  - cbn [for_each] in Hrun.
    apply bind_Ret_inv in Hrun as [[] [[w1 l1] [Hp Hk]]].
    unfold process_shard in Hp.
    apply bind_Ret_inv in Hp as [content [[w0 l0] [Hread Hchunks]]].
    unfold liftW, read_file in Hread. cbn [fst snd] in Hread.
    destruct (FS.read (fs w) p) as [c|] eqn:Hc; [|discriminate Hread].
    injection Hread as <- <- <-.
    rewrite read_chunks_spec in Hchunks.
    destruct (snd (bz2_read env c)) eqn:Hclean; [|discriminate Hchunks].
    injection Hchunks as <- <-.
    apply IH in Hk as [-> [cs [Hcs ->]]]. split; [reflexivity|].
    exists (c :: cs). split; [now constructor|].
    cbn [downloaded_shards outfile total_size]. unfold decoded.
    cbn [map concat]. rewrite length_app, Nat2Z.inj_add, <- app_assoc,
      Z.add_assoc. reflexivity.
Qed.

Lemma unlink_all_Ret (paths : list path) (w w' : world) (l l' : locals) :
  for_each paths
    (fun shard_path => liftW (fs_op (fun f => FS.unlink f shard_path)))
    (w, l) = (Ret tt, (w', l')) ->
  List.NoDup paths /\ l' = l /\ stdout w' = stdout w /\
  (forall q, ~ In q paths -> fs w' !! q = fs w !! q) /\
  (forall q, In q paths -> fs w' !! q = None) /\
  (forall q, In q paths -> exists c, fs w !! q = Some (File c)).
Proof.
  revert w. induction paths as [|p rest IH]; intros w Hrun.
  - cbv in Hrun. injection Hrun as <- <-.
    split; [constructor|]. split; [reflexivity|]. split; [reflexivity|].
    split; [reflexivity|]. split; intros q [].
  - cbn [for_each] in Hrun.
    apply bind_Ret_inv in Hrun as [[] [[w1 l1] [Hp Hk]]].
    unfold liftW, fs_op in Hp. cbn [fst snd] in Hp.
    destruct (FS.unlink (fs w) p) as [f1|] eqn:Hun; [|discriminate Hp].
    injection Hp as <- <-.
    apply unlink_Some in Hun as [Hnil [[c Hc] ->]].
    apply IH in Hk as [Hnd [-> [Hout [Hother [Hgone Hfile]]]]].
    autorewrite with world in *.
    assert (Hnotin : ~ In p rest).
    { intros Hin. destruct (Hfile p Hin) as [c' Hc'].
      rewrite lookup_delete_eq in Hc'. discriminate Hc'. }
    split; [now constructor|]. split; [reflexivity|]. split; [exact Hout|].
    split; [|split].
    + intros q Hq. rewrite Hother by (intros Hin; apply Hq; now right).
      apply lookup_delete_ne. intros ->. apply Hq. now left.
    + intros q [<- | Hq]; [|now apply Hgone].
      rewrite (Hother p Hnotin). apply lookup_delete_eq.
    + intros q [<- | Hq]; [now exists c|].
      destruct (Hfile q Hq) as [c' Hc']. exists c'.
      destruct (decide (p = q)) as [-> | Hne]; [contradiction|].
      now rewrite lookup_delete_ne in Hc'.
Qed.

Lemma paths_not_output (output_path : path) (shard_urls : list string)
  (f : gmap path node) :
  output_path <> [] ->
  f !! temp_dir_of output_path = Some Dir ->
  Forall (fun p => p <> [] /\ f !! p <> Some Dir)
    (paths_of (temp_dir_of output_path) shard_urls) ->
  ~ In output_path (paths_of (temp_dir_of output_path) shard_urls).
Proof.
  intros Hout Htemp Hall Hin. unfold paths_of in Hin.
  apply in_map_iff in Hin as [u [Hu Hin]].
  assert (Hp : In (FS.joinpath (temp_dir_of output_path) (Py.basename u))
                 (paths_of (temp_dir_of output_path) shard_urls)).
  { unfold paths_of. apply in_map_iff. now exists u. }
  apply (proj1 (List.Forall_forall _ _) Hall) in Hp as [_ Hnd].
  pose proof (parent_length output_path Hout) as Hlen.
  destruct (joinpath_cases (temp_dir_of output_path) (Py.basename u))
    as [E | [E | E]]; rewrite E in Hu, Hnd.
  - congruence.
  - rewrite temp_dir_of_eq in Hu. unfold FS.parent at 1 in Hu.
    rewrite removelast_last in Hu. apply (f_equal (@length string)) in Hu.
    lia.
  - rewrite temp_dir_of_eq in Hu. apply (f_equal (@length string)) in Hu.
    rewrite !length_app in Hu. simpl in Hu. lia.
Qed.

Lemma same_contents (f : gmap path node) (paths : list path)
  (cs cs' : list (list Byte.byte)) :
  Forall2 (fun p c => f !! p = Some (File c)) paths cs ->
  Forall2 (fun p c => FS.read f p = Some c /\ snd (bz2_read env c) = true)
    paths cs' ->
  cs' = cs /\ Forall (fun c => snd (bz2_read env c) = true) cs.
Proof.
  intros H. revert cs'. induction H as [|p c paths cs Hp H IH]; intros cs' H'.
  - inversion H'. split; [reflexivity | constructor].
  - inversion H' as [|? c' ? cs0 [Hr Hc] H0]; subst.
    destruct (IH cs0 H0) as [-> Hall].
    unfold FS.read, FS.lookup_node in Hr.
    destruct p as [|c0 p0]; [discriminate Hr|]. rewrite Hp in Hr.
    injection Hr as <-. split; [reflexivity | now constructor].
Qed.

(** What a run that returns [True] has done. *)
Lemma reassemble_success (shard_urls : list string) (output_path : path)
  (w w' : world) :
  download_and_concatenate_shards env shard_urls output_path w
  = (Ret true, w') ->
  exists cs,
    Forall2 (fun u c => retrieve env u = Complete c) shard_urls cs /\
    Forall (fun c => snd (bz2_read env c) = true) cs /\
    fs w' !! output_path = Some (File (gzip_compress env (decoded env cs))) /\
    stdout w'
    = stdout w ++ [CreatedOutput (FS.name output_path)
                     (Z.of_nat (length (decoded env cs)))] /\
    List.NoDup (paths_of (temp_dir_of output_path) shard_urls).
Proof.
  intros Hrun. unfold download_and_concatenate_shards in Hrun.
  set (temp := temp_dir_of output_path) in *.
  set (paths := paths_of temp shard_urls).
  apply bind_Ret_inv in Hrun as [[] [w1 [Hmk Hrun]]].
  unfold fs_op in Hmk.
  destruct (FS.mkdir_exist_ok (fs w) temp) as [f1|] eqn:Hmkdir;
    [|discriminate Hmk].
  injection Hmk as <-.
  assert (Htemp : f1 !! temp = Some Dir).
  { apply (mkdir_exist_ok_Some _ _ _ Hmkdir). unfold temp.
    rewrite temp_dir_of_eq. now destruct (FS.parent output_path). }
  unfold with_locals in Hrun.
  match type of Hrun with
  | (let (_, _) := ?c in _) = _ => destruct c as [r [w2 l2]] eqn:Htry
  end.
  cbn [fst] in Hrun. injection Hrun as -> ->.
  apply try_except_inv in Htry as [[a [Hbody [= <-]]] | [e [s1 [_ Hh]]]].
  2:{ destruct (is_Exception e); [|discriminate Hh].
      apply bind_Ret_inv in Hh as [? [? [_ Hh]]].
      apply bind_Ret_inv in Hh as [? [? [_ Hh]]].
      apply bind_Ret_inv in Hh as [? [? [_ Hh]]].
      discriminate Hh. }
  (* the downloads *)
  apply bind_Ret_inv in Hbody as [[] [[wa la] [Hdl Hbody]]].
  apply download_all_Ret in Hdl
    as [cs [Hcs [Hfa [Hall [Hdirs [Houta [_ ->]]]]]]].
  autorewrite with world in *. cbn [downloaded_shards app] in Hbody.
  fold paths in Hfa, Hall, Hbody.
  (* the gzip stream *)
  apply bind_Ret_inv in Hbody as [[] [[wb lb] [Hgz Hbody]]].
  unfold with_gzip_open in Hgz.
  apply bind_Ret_inv in Hgz as [[] [[wc lc] [Hopen Hgz]]].
  apply liftW_fs_op_inv in Hopen as [f2 [Hwrite [-> ->]]].
  apply write_Some in Hwrite as [Hout_nil [Hout_nd ->]].
  apply bind_Ret_inv in Hgz as [[] [[wd ld] [Hset Hgz]]].
  unfold set_locals in Hset. cbn [fst snd] in Hset. injection Hset as <- <-.
  apply finally_Ret_inv in Hgz as [[we le] [Hstream Hclose]].
  apply bind_Ret_inv in Hstream as [l0 [[wf lf] [Hget Hstream]]].
  unfold get_locals in Hget. cbn [fst snd] in Hget.
  injection Hget as <- <- <-.
  cbn [downloaded_shards] in Hstream.
  apply process_all_Ret in Hstream as [-> [cs' [Hcs' ->]]].
  autorewrite with world in Hcs'.
  cbn [outfile total_size downloaded_shards app Z.add] in Hclose.
  apply bind_Ret_inv in Hclose as [l0 [[wg lg] [Hget Hclose]]].
  unfold get_locals in Hget. cbn [fst snd] in Hget.
  injection Hget as <- <- <-.
  unfold liftW, modify in Hclose. cbn [fst snd outfile] in Hclose.
  injection Hclose as <- <-. autorewrite with world in Hbody.
  (* the message and the cleanup *)
  apply bind_Ret_inv in Hbody as [l0 [[wh lh] [Hget Hbody]]].
  unfold get_locals in Hget. cbn [fst snd] in Hget.
  injection Hget as <- <- <-.
  cbn [downloaded_shards total_size] in Hbody.
  apply bind_Ret_inv in Hbody as [[] [[wi li] [Hprint Hbody]]].
  unfold liftW, print, modify in Hprint. cbn [fst snd] in Hprint.
  injection Hprint as <- <-.
  apply bind_Ret_inv in Hbody as [[] [[wj lj] [Hunlink Hbody]]].
  apply unlink_all_Ret in Hunlink as [Hnd [-> [Houtj [Hother _]]]].
  apply bind_Ret_inv in Hbody as [[] [[wk lk] [Hrmdir Hbody]]].
  apply liftW_fs_op_inv in Hrmdir as [f3 [Hrm [-> ->]]].
  apply rmdir_Some in Hrm as [-> _].
  unfold ret in Hbody. injection Hbody as <- <-.
  (* what the files held *)
  assert (Hnotout : ~ In output_path paths).
  { apply (paths_not_output output_path shard_urls f1 Hout_nil Htemp Hall). }
  assert (Hlen : length paths = length cs).
  { unfold paths, paths_of. rewrite length_map.
    now apply Forall2_length in Hcs. }
  pose proof (write_all_lookup paths cs f1 Hnd Hlen) as Hheld.
  rewrite <- Hfa in Hheld.
  assert (Hheld' : Forall2
            (fun p c => <[output_path := File []]> (fs wa) !! p
                        = Some (File c)) paths cs).
  { clear -Hheld Hnotout. induction Hheld as [|p c ps cs0 Hp H IH];
      constructor.
    - rewrite lookup_insert_ne; [exact Hp|]. intros ->. apply Hnotout. now left.
    - apply IH. intros Hin. apply Hnotout. now right. }
  destruct (same_contents _ _ _ _ Hheld' Hcs') as [-> Hclean].
  exists cs. split; [exact Hcs|]. split; [exact Hclean|]. split; [|split].
  - cbn [fs set_fs]. rewrite lookup_delete_ne.
    + rewrite Hother by exact Hnotout. cbn [fs printed set_fs].
      rewrite lookup_insert_eq. reflexivity.
    + intros E. apply Hout_nd. rewrite <- E. now apply Hdirs.
  - cbn [stdout set_fs]. rewrite Houtj. cbn [stdout printed set_fs].
    rewrite Houta. rewrite Z.add_0_l. reflexivity.
  - exact Hnd.
Qed.

End Reassembler.

(** ** C1, C4 and C3: what the reassembler produces *)

Lemma decoded_of_shards (env : environment) (shard_urls : list string)
  (cs bs : list (list Byte.byte)) :
  Forall2 (fun u c => retrieve env u = Complete c) shard_urls cs ->
  Forall2 (fun u b => exists c, retrieve env u = Complete c /\
                                fst (bz2_read env c) = b) shard_urls bs ->
  decoded env cs = concat bs.
Proof.
  intros H. revert bs. induction H as [|u c us cs Hu H IH]; intros bs Hbs.
  - inversion Hbs. reflexivity.
  - inversion Hbs as [|? b ? bs0 [c' [Hc' Hb]] Hbs0]; subst.
    rewrite Hu in Hc'. injection Hc' as <-.
    unfold decoded in *. cbn [map concat]. now rewrite (IH bs0).
Qed.

(** Run the listing of sibling indexes, which never raises. *)
Ltac list_indexes :=
  match goal with
  | |- context [list_available_indexes ?env ?base_url ?s] =>
      let idx := fresh "idx" in
      destruct (list_available_indexes_run env base_url s) as [idx ->];
      cbv beta iota
  end.

Lemma discover_Ret_nonempty (env : environment) (base_url lang date : string)
  (w w' : world) (shard_urls : list string) :
  discover_shard_files env base_url lang date w = (Ret shard_urls, w') ->
  shard_urls <> [].
Proof.
  run_locator.
  destruct (listing env (base_url +:+ shard_subdir lang +:+ "/"))
    as [doc|code|]; cbv beta iota.
  - destruct (shard_files_of doc) as [|f fs0]; cbv beta iota.
    + list_indexes; discriminate.
    + intros [= <- _]. discriminate.
  - destruct (Z.eqb code 404); [|discriminate].
    destruct (listing env (base_url +:+ Py.quote (shard_subdir lang) +:+ "/"))
      as [doc|code'|]; cbv beta iota.
    + destruct (shard_files_of doc) as [|f fs0]; cbv beta iota.
      * list_indexes; discriminate.
      * intros [= <- _]. discriminate.
    + list_indexes; discriminate.
    + list_indexes; discriminate.
  - discriminate.
Qed.

(** C1, as amended. If the shards at the given URLs arrive whole and their
    bz2 streams decode to [b1 .. bN], then after a run that returns [True]
    the output file decompresses to [b1 ++ ... ++ bN], in the order of the
    URLs; this covers [N = 0], where the output decompresses to nothing.
    An empty shard list is an error of the locator, which never returns
    one. *)
Theorem reassembly_concatenates (env : environment)
  (shard_urls : list string) (bs : list (list Byte.byte))
  (output_path : path) (w w' : world) :
  (forall b, gzip_decompress env (gzip_compress env b) = Some b) ->
  Forall2 (fun u b => exists c, retrieve env u = Complete c /\
                                fst (bz2_read env c) = b) shard_urls bs ->
  download_and_concatenate_shards env shard_urls output_path w
  = (Ret true, w') ->
  (exists g, fs w' !! output_path = Some (File g) /\
             gzip_decompress env g = Some (concat bs)) /\
  (forall base_url lang date w0 w1 found,
     discover_shard_files env base_url lang date w0 = (Ret found, w1) ->
     found <> []).
Proof.
  intros Hgz Hbs Hrun. split.
  - apply reassemble_success in Hrun as [cs [Hcs [_ [Hout _]]]].
    exists (gzip_compress env (decoded env cs)). split; [exact Hout|].
    rewrite Hgz. f_equal. now apply decoded_of_shards with (shard_urls := shard_urls).
  - intros base_url lang date w0 w1 found. apply discover_Ret_nonempty.
Qed.

(** The claim as written fails for [N = 0]: with no shard at all the
    reassembler returns [True] and leaves an output file that decompresses
    to nothing. *)
Lemma reassembly_of_nothing_succeeds :
  let run := download_and_concatenate_shards shard_env []
               ["out"; "x.json.gz"] out_world in
  fst run = Ret true /\
  fs (snd run) !! ["out"; "x.json.gz"] = Some (File (gzip_compress shard_env [])).
Proof. vm_compute. split; reflexivity. Qed.

Lemma reassembly_concatenates_witness :
  let run := download_and_concatenate_shards shard_env
               ["http://h/a.json.bz2"; "http://h/b.json.bz2"]
               ["out"; "x.json.gz"] out_world in
  exists g, fs (snd run) !! ["out"; "x.json.gz"] = Some (File g) /\
            gzip_decompress shard_env g
            = Some (concat [[Byte.x01; Byte.x02]; [Byte.x03]]).
Proof.
  intros run.
  apply (reassembly_concatenates shard_env
           ["http://h/a.json.bz2"; "http://h/b.json.bz2"]
           [[Byte.x01; Byte.x02]; [Byte.x03]]
           ["out"; "x.json.gz"] out_world (snd run)).
  - intros b. reflexivity.
  - repeat constructor; eexists; split; reflexivity.
  - vm_compute. reflexivity.
Defined.




(** C3, on a failing input. The transfer of the second of two shards
    breaks off after one byte. The run returns [False]: the first shard
    file is gone and the failure to remove the directory is swallowed, but
    the partly written file of the failing shard is still there, because
    its path is appended to [downloaded_shards] only after a successful
    download. *)
Theorem truncated_shard_is_left_behind :
  let run := download_and_concatenate_shards shard_env
               ["http://h/a.json.bz2"; "http://h/c.json.bz2"]
               ["out"; "x.json.gz"] out_world in
  fst run = Ret false /\
  fs (snd run) !! ["out"; ".temp_x.json"; "a.json.bz2"] = None /\
  fs (snd run) !! ["out"; ".temp_x.json"; "c.json.bz2"]
  = Some (File [Byte.x04]) /\
  fs (snd run) !! ["out"; ".temp_x.json"] = Some Dir /\
  fs (snd run) !! ["out"; "x.json.gz"] = None.
Proof. vm_compute. repeat split. Qed.

(** The same happens without any partial transfer when the temporary
    directory, which is reused if present, still holds a file of that name
    from an interrupted run and the HEAD request fails. *)
Lemma stale_shard_is_left_behind :
  let run := download_and_concatenate_shards shard_env
               ["http://h/a.json.bz2"; "http://h/d.json.bz2"]
               ["out"; "x.json.gz"] interrupted_world in
  retrieve shard_env "http://h/d.json.bz2" = HeadFailed /\
  fst run = Ret false /\
  fs (snd run) !! ["out"; ".temp_x.json"; "d.json.bz2"]
  = Some (File [Byte.x05]).
Proof. vm_compute. repeat split. Qed.

(** ** C2: the order of the shards *)





(** ** The whole program on a small archive *)

(** [main], without a date on the command line, picks the latest date,
    lists the shards, and leaves one output file holding the shards in the
    order [part-1], [part-10], [part-2]; nothing else stays behind. *)
Example main_end_to_end :
  let run := main archive_env download_args empty_world in
  exit_status (fst run) = 0%Z /\
  map_to_list (fs (snd run))
  = [(["dumps"; "enwiki-20240101-cirrussearch-content.json.gz"],
      File [Byte.x01; Byte.x0a; Byte.x02]);
     (["dumps"], Dir)] /\
  stdout (snd run)
  = [FoundDates 2 "20240101";
     CreatedOutput "enwiki-20240101-cirrussearch-content.json.gz" 3;
     Succeeded "enwiki-20240101-cirrussearch-content.json.gz"].
Proof. vm_compute. repeat split. Qed.

(** * Further properties of the program *)

(** ** The listing of sibling indexes *)

Lemma Forall_filter_true {A} (f : A -> bool) (l : list A) :
  Forall (fun x => f x = true) (List.filter f l).
Proof.
  apply List.Forall_forall. intros x Hx. now apply filter_In in Hx.
Qed.

Lemma Forall_list_set (P : string -> Prop) (l : list string) :
  Forall P l -> Forall P (list_set l).
Proof.
  intros H. apply List.Forall_forall. intros x Hx.
  apply (proj1 (List.Forall_forall _ _) H).
  unfold list_set in Hx.
  rewrite <- list_elem_of_In in *. rewrite elem_of_remove_dups in Hx.
  exact Hx.
Qed.

(** [list_available_indexes] never raises and makes exactly one request,
    whatever the archive answers: a page that cannot be fetched gives the
    empty list. Every name it returns starts with [index_name=]. *)
Theorem available_indexes_never_raise (env : environment) (base_url : string)
  (w : world) :
  exists indexes,
    list_available_indexes env base_url w
    = (Ret indexes, logged (GET base_url) w) /\
    Forall (fun i => Py.startswith i "index_name=" = true) indexes /\
    match listing env base_url with
    | Page _ => True
    | _ => indexes = []
    end.
Proof.
  unfold list_available_indexes, urlopen, try_except, bind, log_request, modify.
  destruct (listing env base_url) as [doc|code|]; cbv beta iota zeta.
  - unfold ret. eexists. split; [reflexivity|]. split; [|exact I].
    destruct (List.filter (fun d => Py.startswith d "index_name=")
                (directories (parse_listing (html_tags doc)))) as [|d ds] eqn:E.
    + match goal with
      | |- Forall _ (match ?l with [] => _ | _ => _ end) =>
          destruct l as [|i rest0] eqn:E2
      end.
      * apply Forall_list_set, Forall_filter_true.
      * rewrite <- E2. apply Forall_list_set, Forall_filter_true.
    + rewrite <- E. apply Forall_filter_true.
  - exists []. repeat split. constructor.
  - exists []. repeat split. constructor.
Qed.

(** The strategies come in order: as soon as some directory of the page
    carries the prefix, the result is exactly the directories that carry
    it, in the order of the page; otherwise the result has no duplicates. *)
Theorem available_indexes_prefer_directories (env : environment)
  (base_url : string) (w : world) (doc : html) :
  listing env base_url = Page doc ->
  let dirs :=
    List.filter (fun d => Py.startswith d "index_name=")
      (directories (parse_listing (html_tags doc))) in
  match dirs with
  | [] => exists indexes,
            fst (list_available_indexes env base_url w) = Ret indexes /\
            List.NoDup indexes
  | _ => fst (list_available_indexes env base_url w) = Ret dirs
  end.
Proof.
  intros Hpage. cbv zeta.
  unfold list_available_indexes, urlopen, try_except, bind, log_request, modify.
  rewrite Hpage. cbv beta iota zeta. unfold ret.
  destruct (List.filter (fun d => Py.startswith d "index_name=")
              (directories (parse_listing (html_tags doc)))) as [|d ds] eqn:E;
    [|reflexivity].
  eexists. split; [reflexivity|].
  match goal with
  | |- List.NoDup (match ?l with [] => _ | _ => _ end) =>
      destruct l as [|i rest0] eqn:E2
  end.
  - apply NoDup_ListNoDup, NoDup_remove_dups.
  - rewrite <- E2. apply NoDup_ListNoDup, NoDup_remove_dups.
Qed.

Lemma available_indexes_prefer_directories_witness :
  fst (list_available_indexes
         (plain_env (fun _ => Page indexes_page) (fun _ => HeadFailed))
         "https://h/20240101/" empty_world)
  = Ret ["index_name=enwiki_content"; "index_name=dewiki_content"].
Proof.
  apply (available_indexes_prefer_directories
           (plain_env (fun _ => Page indexes_page) (fun _ => HeadFailed))
           "https://h/20240101/" empty_world indexes_page eq_refl).
Defined.

(** ** The date selector: failures, messages, and what "latest" means *)

(** [find_latest_date] makes exactly one request and leaves the file system
    and the pending input alone. It can only raise [ValueError]: an HTTP
    error status is reported as a failed access to the listing, any other
    failure to fetch the page as an error finding the latest date. *)
Theorem find_latest_date_failures (env : environment) (base_url : string)
  (w : world) :
  let run := find_latest_date env base_url w in
  requests (snd run) = requests w ++ [GET base_url] /\
  fs (snd run) = fs w /\ stdin (snd run) = stdin w /\
  (forall e, fst run = Raise e -> exists m, e = ValueError m) /\
  match listing env base_url with
  | Page _ => True
  | HttpFailure code =>
      fst run = Raise (ValueError (ListingAccessFailed base_url (HTTPError code)))
  | OtherFailure =>
      fst run = Raise (ValueError (ErrorFindingLatestDate URLError))
  end.
Proof.
  cbv zeta.
  cbv beta iota zeta delta
    [find_latest_date urlopen try_except bind log_request print modify raise
     ret].
  destruct (listing env base_url) as [doc|code|]; cbv beta iota zeta.
  - destruct (List.filter Py.date_pattern_match
                (directories (parse_listing (html_tags doc)))) as [|d ds];
      cbn [fst snd]; autorewrite with world; repeat split; try reflexivity.
    + intros e [= <-]. eauto.
    + intros e [=].
  - cbn [fst snd]. autorewrite with world. repeat split; try reflexivity.
    intros e [= <-]. eauto.
  - cbn [fst snd]. autorewrite with world. repeat split; try reflexivity.
    intros e [= <-]. eauto.
Qed.













(** ** The parser across several pages and tags *)



(** Tags other than [a] leave the parser as it is. *)
Theorem parser_ignores_other_tags (p : DirectoryListingParser)
  (tags : list start_tag) :
  Forall (fun t => fst t <> "a") tags -> feed p tags = p.
Proof.
  intros H. unfold feed. induction H as [|[tag attrs] tags Ht H IH];
    [reflexivity|].
  cbn [fold_left]. unfold handle_starttag at 2.
  destruct (String.eqb_spec tag "a") as [-> | _]; [now elim Ht | exact IH].
Qed.

Lemma parser_ignores_other_tags_witness :
  feed new_parser
    [("link", [("href", Some "style.css")]); ("img", [("src", Some "x.png")])]
  = new_parser.
Proof.
  apply (parser_ignores_other_tags new_parser
           [("link", [("href", Some "style.css")]);
            ("img", [("src", Some "x.png")])]).
  repeat constructor; discriminate.
Defined.

(** ** The shard locator: outcomes and errors *)





Lemma list_available_indexes_prefixed (env : environment) (base_url : string)
  (w : world) :
  exists indexes,
    list_available_indexes env base_url w
    = (Ret indexes, logged (GET base_url) w) /\
    Forall (fun i => Py.startswith i "index_name=" = true) indexes.
Proof.
  unfold list_available_indexes, urlopen, try_except, bind, log_request, modify.
  destruct (listing env base_url) as [doc|code|]; cbv beta iota zeta.
  - unfold ret. eexists. split; [reflexivity|].
    destruct (List.filter (fun d => Py.startswith d "index_name=")
                (directories (parse_listing (html_tags doc)))) as [|d ds] eqn:E.
    + match goal with
      | |- Forall _ (match ?l with [] => _ | _ => _ end) =>
          destruct l as [|i rest0] eqn:E2
      end.
      * apply Forall_list_set, Forall_filter_true.
      * rewrite <- E2. apply Forall_list_set, Forall_filter_true.
    + rewrite <- E. apply Forall_filter_true.
  - exists []. split; [reflexivity | constructor].
  - exists []. split; [reflexivity | constructor].
Qed.

Lemma StronglySorted_take {A} (R : relation A) (n : nat) (l : list A) :
  StronglySorted R l -> StronglySorted R (take n l).
Proof.
  intros H. revert n. induction H as [|x l H IH Hx]; intros [|n]; simpl;
    try constructor; [apply IH|].
  now apply Forall_take.
Qed.

(** The hint of an error message: the first [n] of the sorted index names. *)
Lemma hint_shown (n : nat) (indexes : list string) :
  Forall (fun i => Py.startswith i "index_name=" = true) indexes ->
  length (take n (Py.sorted indexes)) <= n /\
  StronglySorted String.le (take n (Py.sorted indexes)) /\
  Forall (fun i => Py.startswith i "index_name=" = true)
    (take n (Py.sorted indexes)).
Proof.
  intros H. split; [rewrite length_take; lia|]. split.
  - apply StronglySorted_take, sorted_StronglySorted.
  - apply Forall_take. apply List.Forall_forall. intros i Hi.
    apply (Permutation_in _ (sorted_Permutation _)) in Hi.
    now apply (proj1 (List.Forall_forall _ _) H).
Qed.

(** When the shard directory can be listed but holds no shard file, the
    locator lists the sibling indexes and raises: the error says that no
    shard file was found, wrapped as an error discovering shard files, and
    its hint shows at most ten index names, sorted, each starting with
    [index_name=]. Two requests were made and no retry. *)
Theorem discover_no_shards_error (env : environment)
  (base_url lang date : string) (w : world) (doc : html) :
  let dir_url := base_url +:+ shard_subdir lang +:+ "/" in
  listing env dir_url = Page doc ->
  shard_files_of doc = [] ->
  exists shown more,
    discover_shard_files env base_url lang date w
    = (Raise (ValueError (ErrorDiscoveringShards
                (ValueError (NoShardFiles dir_url shown more)))),
       logged (GET base_url) (logged (GET dir_url) w)) /\
    length shown <= 10 /\
    StronglySorted String.le shown /\
    Forall (fun i => Py.startswith i "index_name=" = true) shown.
Proof.
  intros dir_url Hpage Hfiles. unfold dir_url in *. run_locator.
  rewrite Hpage. cbv beta iota. rewrite Hfiles.
  destruct (list_available_indexes_prefixed env base_url
              (logged (GET (base_url +:+ shard_subdir lang +:+ "/")) w))
    as [idx [-> Hidx]].
  cbv beta iota. eexists _, _. split; [reflexivity|]. now apply hint_shown.
Qed.

Lemma discover_no_shards_error_witness :
  exists shown more,
    discover_shard_files
      (plain_env (fun _ => Page indexes_page) (fun _ => HeadFailed))
      "https://h/20240101/" "fr" "20240101" empty_world
    = (Raise (ValueError (ErrorDiscoveringShards
                (ValueError
                   (NoShardFiles
                      ("https://h/20240101/" +:+ shard_subdir "fr" +:+ "/")
                      shown more)))),
       logged (GET "https://h/20240101/")
         (logged (GET ("https://h/20240101/" +:+ shard_subdir "fr" +:+ "/"))
            empty_world)) /\
    length shown <= 10 /\
    StronglySorted String.le shown /\
    Forall (fun i => Py.startswith i "index_name=" = true) shown.
Proof.
  apply (discover_no_shards_error
           (plain_env (fun _ => Page indexes_page) (fun _ => HeadFailed))
           "https://h/20240101/" "fr" "20240101" empty_world indexes_page);
    reflexivity.
Defined.



(** ** Downloading one file *)

Lemma write_other (f f' : gmap path node) (p q : path) (c : list Byte.byte) :
  FS.write f p c = Some f' -> q <> p -> f' !! q = f !! q.
Proof.
  intros H Hq. apply write_Some in H as [_ [_ ->]].
  now apply lookup_insert_ne.
Qed.

(** [download_dump] never raises: it returns a boolean. The boolean is
    [True] exactly when the whole content arrived and was written to
    [output_path]. The HEAD request always comes first, and when it fails
    there is neither a GET request nor a change to the file system. No path
    other than [output_path] is ever touched, and the input is not read. *)
Theorem download_dump_outcomes (env : environment) (url : string)
  (output_path : path) (w : world) :
  let run := download_dump env url output_path w in
  (exists b, fst run = Ret b) /\
  (fst run = Ret true <->
   exists c, retrieve env url = Complete c /\
             FS.write (fs w) output_path c = Some (fs (snd run))) /\
  (requests (snd run) = requests w ++ [HEAD url] \/
   requests (snd run) = requests w ++ [HEAD url; GET url]) /\
  (retrieve env url = HeadFailed ->
   requests (snd run) = requests w ++ [HEAD url] /\ fs (snd run) = fs w) /\
  (forall q, q <> output_path -> fs (snd run) !! q = fs w !! q) /\
  stdin (snd run) = stdin w.
Proof.
  cbv zeta. unfold download_dump. mrun.
  destruct (retrieve env url) as [| |partial|content] eqn:Hr; mred;
    cbv beta iota delta [is_Exception]; cbn [fst snd]; autorewrite with world.
  - repeat split; eauto; try discriminate.
    intros [c [Hc _]]. discriminate Hc.
  - rewrite <- app_assoc. repeat split; eauto; try discriminate.
    intros [c [Hc _]]. discriminate Hc.
  - destruct (FS.write (fs w) output_path partial) as [f'|] eqn:Hw; mred;
      cbn [fst snd]; autorewrite with world; rewrite <- ?app_assoc;
      repeat split; eauto; try discriminate;
      try (intros [c [Hc _]]; discriminate Hc).
    intros q Hq. now apply (write_other _ _ _ _ _ Hw).
  - destruct (FS.write (fs w) output_path content) as [f'|] eqn:Hw; mred;
      cbn [fst snd]; autorewrite with world; rewrite <- ?app_assoc;
      repeat split; eauto; try discriminate.
    + intros q Hq. now apply (write_other _ _ _ _ _ Hw).
    + intros [c [[= <-] Hc]]. rewrite Hw in Hc. discriminate Hc.
Qed.

(** ** Cleanup mode: what a confirmed cleanup achieves *)

Lemma glob_NoDup (f : gmap path node) (dir : path) (pattern : string) :
  List.NoDup (glob f dir pattern).
Proof.
  unfold glob, FS.children. apply List.NoDup_filter, List.NoDup_filter.
  apply NoDup_ListNoDup. exact (NoDup_fst_map_to_list f).
Qed.

Lemma delete_dumps_all (dump_files : list path) (w : world) :
  List.NoDup dump_files ->
  Forall (fun p => p <> [] /\ exists c, fs w !! p = Some (File c)) dump_files ->
  exists w',
    delete_dumps dump_files w = (Ret None, w') /\ stdin w' = stdin w /\
    (forall p, In p dump_files -> fs w' !! p = None) /\
    (forall p, ~ In p dump_files -> fs w' !! p = fs w !! p).
Proof.
  intros Hnd. revert w. induction Hnd as [|f rest Hf Hnd IH]; intros w Hall.
  - exists w. split; [reflexivity|]. split; [reflexivity|].
    split; [intros p [] | reflexivity].
  - inversion Hall as [|? ? [Hnil [c Hc]] Hrest]; subst.
    cbn [delete_dumps].
    cbv beta iota zeta delta [bind ret raise print modify try_except fs_op].
    assert (Hun : FS.unlink (fs w) f = Some (delete f (fs w))).
    { unfold FS.unlink, FS.lookup_node. destruct f; [congruence|].
      now rewrite Hc. }
    rewrite Hun. cbv beta iota.
    destruct (IH (printed (Deleted (FS.name f)) (set_fs (delete f (fs w)) w)))
      as [w' [Hrun [Hin [Hgone Hkept]]]].
    { apply List.Forall_forall. intros p Hp.
      apply (proj1 (List.Forall_forall _ _) Hrest) in Hp as Hp'.
      destruct Hp' as [Hpn [c' Hc']]. split; [exact Hpn|]. exists c'.
      autorewrite with world. rewrite lookup_delete_ne; [exact Hc'|].
      intros ->. contradiction. }
    exists w'. split; [exact Hrun|]. autorewrite with world in *.
    split; [exact Hin|]. split.
    + intros p [<- | Hp]; [|now apply Hgone].
      rewrite (Hkept f Hf). apply lookup_delete_eq.
    + intros p Hp. rewrite Hkept by (intros Hin'; apply Hp; now right).
      apply lookup_delete_ne. intros ->. apply Hp. now left.
Qed.

(** When no confirmation is asked for, or the answer is a yes, and the
    entries that match the pattern are all files, cleanup returns [True]
    having deleted every one of them and nothing else. *)
Theorem cleanup_deletes_every_dump (output_dir : path) (confirm : bool)
  (w : world) :
  (confirm = false \/
   exists line rest, stdin w = line :: rest /\ is_yes line = true) ->
  Forall (fun p => exists c, fs w !! p = Some (File c))
    (glob (fs w) output_dir dump_pattern) ->
  exists w',
    cleanup_old_dumps output_dir confirm w = (Ret true, w') /\
    (forall p, In p (glob (fs w) output_dir dump_pattern) ->
               fs w' !! p = None) /\
    (forall p, ~ In p (glob (fs w) output_dir dump_pattern) ->
               fs w' !! p = fs w !! p).
Proof.
  intros Hgo Hfiles. run_cleanup.
  pose proof (glob_NoDup (fs w) output_dir dump_pattern) as Hnd.
  assert (Hall : Forall (fun p => p <> [] /\ exists c, fs w !! p = Some (File c))
                   (glob (fs w) output_dir dump_pattern)).
  { apply List.Forall_forall. intros p Hp. split.
    - now apply glob_In in Hp.
    - now apply (proj1 (List.Forall_forall _ _) Hfiles). }
  destruct (glob (fs w) output_dir dump_pattern) as [|f0 fs0] eqn:Hglob.
  { eexists. split; [reflexivity|]. autorewrite with world.
    split; [intros p [] | reflexivity]. }
  mred.
  assert (Hloop : forall w0, fs w0 = fs w ->
            exists w',
              (let (r, s') := delete_dumps (f0 :: fs0) w0 in
               match r with
               | Ret a =>
                   match a with
                   | Some b => fun s0 : world => (Ret b, s0)
                   | None =>
                       fun s0 : world => (Ret true, printed CleanupCompleted s0)
                   end s'
               | Raise e => (Raise e, s')
               end) = (Ret true, w') /\
              (forall p, In p (f0 :: fs0) -> fs w' !! p = None) /\
              (forall p, ~ In p (f0 :: fs0) -> fs w' !! p = fs w !! p)).
  { intros w0 Hw0.
    destruct (delete_dumps_all (f0 :: fs0) w0 Hnd) as [w1 [-> [_ [Hg Hk]]]].
    { now rewrite Hw0. }
    eexists. split; [reflexivity|]. autorewrite with world.
    split; [exact Hg|]. intros p Hp. rewrite <- Hw0. now apply Hk. }
  destruct confirm.
  - destruct Hgo as [Hgo | [line [rest [Hin Hyes]]]]; [discriminate Hgo|].
    mred. rewrite Hin. mred. rewrite Hyes. cbv beta iota delta [negb].
    apply Hloop. reflexivity.
  - mred. cbv beta iota delta [negb]. apply Hloop. reflexivity.
Qed.

Lemma cleanup_deletes_every_dump_witness :
  exists w',
    cleanup_old_dumps ["dumps"] true (dir_world stale_fs [" YES "])
    = (Ret true, w') /\
    (forall p, In p (glob stale_fs ["dumps"] dump_pattern) ->
               fs w' !! p = None) /\
    (forall p, ~ In p (glob stale_fs ["dumps"] dump_pattern) ->
               fs w' !! p = stale_fs !! p).
Proof.
  apply (cleanup_deletes_every_dump ["dumps"] true
           (dir_world stale_fs [" YES "])).
  - right. exists " YES ", []. split; reflexivity.
  - vm_compute. repeat constructor. eexists. reflexivity.
Defined.

Lemma delete_dumps_directory (dump_files : list path) (w : world) (p : path) :
  In p dump_files -> fs w !! p = Some Dir ->
  exists w', delete_dumps dump_files w = (Ret (Some false), w').
Proof.
  revert w. induction dump_files as [|f rest IH]; intros w Hin Hdir;
    [now elim Hin|].
  cbn [delete_dumps].
  cbv beta iota zeta delta [bind ret raise print modify try_except fs_op].
  destruct (FS.unlink (fs w) f) as [f1|] eqn:Hun; cbv beta iota.
  - apply unlink_Some in Hun as [_ [[c Hc] ->]].
    destruct Hin as [-> | Hin]; [congruence|].
    apply IH; [exact Hin|]. autorewrite with world.
    rewrite lookup_delete_ne; [exact Hdir|]. intros ->. congruence.
  - cbv beta iota delta [is_Exception]. eauto.
Qed.

(** When a directory bears a name that matches the pattern, a cleanup that
    goes ahead returns [False]: the directory cannot be unlinked and the
    loop stops there. *)
Theorem cleanup_fails_on_matching_directory (output_dir : path)
  (confirm : bool) (w : world) (p : path) :
  (confirm = false \/
   exists line rest, stdin w = line :: rest /\ is_yes line = true) ->
  In p (glob (fs w) output_dir dump_pattern) ->
  fs w !! p = Some Dir ->
  fst (cleanup_old_dumps output_dir confirm w) = Ret false.
Proof.
  intros Hgo Hin Hdir. run_cleanup.
  destruct (glob (fs w) output_dir dump_pattern) as [|f0 fs0] eqn:Hglob;
    [now elim Hin|].
  mred.
  assert (Hloop : forall w0, fs w0 = fs w ->
            fst (let (r, s') := delete_dumps (f0 :: fs0) w0 in
                 match r with
                 | Ret a =>
                     match a with
                     | Some b => fun s0 : world => (Ret b, s0)
                     | None =>
                         fun s0 : world =>
                           (Ret true, printed CleanupCompleted s0)
                     end s'
                 | Raise e => (Raise e, s')
                 end) = Ret false).
  { intros w0 Hw0.
    destruct (delete_dumps_directory (f0 :: fs0) w0 p Hin) as [w1 ->];
      [now rewrite Hw0 | reflexivity]. }
  destruct confirm.
  - destruct Hgo as [Hgo | [line [rest [Hstdin Hyes]]]]; [discriminate Hgo|].
    mred. rewrite Hstdin. mred. rewrite Hyes. cbv beta iota delta [negb].
    apply Hloop. reflexivity.
  - mred. cbv beta iota delta [negb]. apply Hloop. reflexivity.
Qed.

Lemma cleanup_fails_on_matching_directory_witness :
  fst (cleanup_old_dumps ["dumps"] false (dir_world odd_fs [])) = Ret false.
Proof.
  apply (cleanup_fails_on_matching_directory ["dumps"] false
           (dir_world odd_fs [])
           ["dumps"; "dewiki-20230101-cirrussearch-content.json.gz"]).
  - now left.
  - vm_compute. now left.
  - vm_compute. reflexivity.
Defined.

(** ** The shard reassembler: what else a run does *)

Lemma mkdir_exist_ok_other (f f1 : gmap path node) (p q : path) :
  FS.mkdir_exist_ok f p = Some f1 -> q <> p -> f1 !! q = f !! q.
Proof.
  unfold FS.mkdir_exist_ok. intros H Hq.
  destruct (FS.lookup_node f p) as [[c|]|]; try discriminate H.
  - now injection H as <-.
  - destruct (FS.is_dir f (FS.parent p)); [|discriminate H].
    injection H as <-. now apply lookup_insert_ne.
Qed.

Section ReassemblerFrame.

Context (env : environment).

(** A run that returns [True] leaves the output file and nothing else: the
    temporary directory and every temporary shard file are gone, and every
    other path of the file system is as it was before. *)
Theorem success_leaves_only_the_output (shard_urls : list string)
  (output_path : path) (w w' : world) :
  download_and_concatenate_shards env shard_urls output_path w
  = (Ret true, w') ->
  (exists g, fs w' !! output_path = Some (File g)) /\
  fs w' !! temp_dir_of output_path = None /\
  (forall p, In p (paths_of (temp_dir_of output_path) shard_urls) ->
             fs w' !! p = None) /\
  (forall q, q <> output_path -> q <> temp_dir_of output_path ->
             ~ In q (paths_of (temp_dir_of output_path) shard_urls) ->
             fs w' !! q = fs w !! q).
Proof.
  intros Hrun. unfold download_and_concatenate_shards in Hrun.
  set (temp := temp_dir_of output_path) in *.
  set (paths := paths_of temp shard_urls).
  apply bind_Ret_inv in Hrun as [[] [w1 [Hmk Hrun]]].
  unfold fs_op in Hmk.
  destruct (FS.mkdir_exist_ok (fs w) temp) as [f1|] eqn:Hmkdir;
    [|discriminate Hmk].
  injection Hmk as <-.
  assert (Htemp : f1 !! temp = Some Dir).
  { apply (mkdir_exist_ok_Some _ _ _ Hmkdir). unfold temp.
    rewrite temp_dir_of_eq. now destruct (FS.parent output_path). }
  unfold with_locals in Hrun.
  match type of Hrun with
  | (let (_, _) := ?c in _) = _ => destruct c as [r [w2 l2]] eqn:Htry
  end.
  cbn [fst] in Hrun. injection Hrun as -> ->.
  apply try_except_inv in Htry as [[a [Hbody [= <-]]] | [e [s1 [_ Hh]]]].
  2:{ destruct (is_Exception e); [|discriminate Hh].
      apply bind_Ret_inv in Hh as [? [? [_ Hh]]].
      apply bind_Ret_inv in Hh as [? [? [_ Hh]]].
      apply bind_Ret_inv in Hh as [? [? [_ Hh]]].
      discriminate Hh. }
  (* the downloads *)
  apply bind_Ret_inv in Hbody as [[] [[wa la] [Hdl Hbody]]].
  apply download_all_Ret in Hdl
    as [cs [Hcs [Hfa [Hall [Hdirs [Houta [_ ->]]]]]]].
  autorewrite with world in *. cbn [downloaded_shards app] in Hbody.
  fold paths in Hfa, Hall, Hbody.
  (* the gzip stream *)
  apply bind_Ret_inv in Hbody as [[] [[wb lb] [Hgz Hbody]]].
  unfold with_gzip_open in Hgz.
  apply bind_Ret_inv in Hgz as [[] [[wc lc] [Hopen Hgz]]].
  apply liftW_fs_op_inv in Hopen as [f2 [Hwrite [-> ->]]].
  apply write_Some in Hwrite as [Hout_nil [Hout_nd ->]].
  apply bind_Ret_inv in Hgz as [[] [[wd ld] [Hset Hgz]]].
  unfold set_locals in Hset. cbn [fst snd] in Hset. injection Hset as <- <-.
  apply finally_Ret_inv in Hgz as [[we le] [Hstream Hclose]].
  apply bind_Ret_inv in Hstream as [l0 [[wf lf] [Hget Hstream]]].
  unfold get_locals in Hget. cbn [fst snd] in Hget.
  injection Hget as <- <- <-.
  cbn [downloaded_shards] in Hstream.
  apply process_all_Ret in Hstream as [-> [cs' [Hcs' ->]]].
  autorewrite with world in Hcs'.
  cbn [outfile total_size downloaded_shards app Z.add] in Hclose.
  apply bind_Ret_inv in Hclose as [l0 [[wg lg] [Hget Hclose]]].
  unfold get_locals in Hget. cbn [fst snd] in Hget.
  injection Hget as <- <- <-.
  unfold liftW, modify in Hclose. cbn [fst snd outfile] in Hclose.
  injection Hclose as <- <-. autorewrite with world in Hbody.
  (* the message and the cleanup *)
  apply bind_Ret_inv in Hbody as [l0 [[wh lh] [Hget Hbody]]].
  unfold get_locals in Hget. cbn [fst snd] in Hget.
  injection Hget as <- <- <-.
  cbn [downloaded_shards total_size] in Hbody.
  apply bind_Ret_inv in Hbody as [[] [[wi li] [Hprint Hbody]]].
  unfold liftW, print, modify in Hprint. cbn [fst snd] in Hprint.
  injection Hprint as <- <-.
  apply bind_Ret_inv in Hbody as [[] [[wj lj] [Hunlink Hbody]]].
  apply unlink_all_Ret in Hunlink as [Hnd [-> [Houtj [Hother [Hgone _]]]]].
  apply bind_Ret_inv in Hbody as [[] [[wk lk] [Hrmdir Hbody]]].
  apply liftW_fs_op_inv in Hrmdir as [f3 [Hrm [-> ->]]].
  apply rmdir_Some in Hrm as [-> _].
  unfold ret in Hbody. injection Hbody as <- <-.
  (* what the files held *)
  assert (Hnotout : ~ In output_path paths).
  { apply (paths_not_output output_path shard_urls f1 Hout_nil Htemp Hall). }
  assert (Hlen : length paths = length cs).
  { unfold paths, paths_of. rewrite length_map.
    now apply Forall2_length in Hcs. }
  pose proof (write_all_lookup paths cs f1 Hnd Hlen) as Hheld.
  rewrite <- Hfa in Hheld.
  assert (Hheld' : Forall2
            (fun p c => <[output_path := File []]> (fs wa) !! p
                        = Some (File c)) paths cs).
  { clear -Hheld Hnotout. induction Hheld as [|p c ps cs0 Hp H IH];
      constructor.
    - rewrite lookup_insert_ne; [exact Hp|]. intros ->. apply Hnotout. now left.
    - apply IH. intros Hin. apply Hnotout. now right. }
  destruct (same_contents env _ _ _ _ Hheld' Hcs') as [-> Hclean].
  assert (Hpaths_temp : forall p, In p paths -> p <> temp).
  { intros p Hp ->.
    apply (proj1 (List.Forall_forall _ _) Hall) in Hp as [_ Hp]. now elim Hp. }
  split; [|split; [|split]].
  - cbn [fs set_fs]. rewrite lookup_delete_ne.
    + rewrite Hother by exact Hnotout. cbn [fs printed set_fs].
      rewrite lookup_insert_eq. eexists. reflexivity.
    + intros E. apply Hout_nd. rewrite <- E. now apply Hdirs.
  - cbn [fs set_fs]. apply lookup_delete_eq.
  - intros p Hp. cbn [fs set_fs]. rewrite lookup_delete_ne.
    + now apply Hgone.
    + intros E. now apply (Hpaths_temp p Hp).
  - intros q Hqo Hqt Hqp. cbn [fs set_fs].
    rewrite lookup_delete_ne by congruence.
    rewrite Hother by exact Hqp. cbn [fs printed set_fs].
    rewrite !lookup_insert_ne by congruence.
    rewrite Hfa. rewrite write_all_notin.
    + now apply (mkdir_exist_ok_other _ _ _ _ Hmkdir).
    + intros Hin. apply Hqp. apply in_map_iff in Hin as [[q' c'] [Hq' Hin]].
      simpl in Hq'. subst q'.
      apply list_elem_of_In, elem_of_zip_l in Hin. now apply list_elem_of_In.
Qed.

(** A run can only return [True] when the shard URLs have pairwise
    different file names: two shards of one name share a temporary file,
    and the second attempt to delete it fails. *)
Theorem success_needs_distinct_names (shard_urls : list string)
  (output_path : path) (w w' : world) :
  download_and_concatenate_shards env shard_urls output_path w
  = (Ret true, w') ->
  List.NoDup (map Py.basename shard_urls).
Proof.
  intros Hrun. apply reassemble_success in Hrun as [cs [_ [_ [_ [_ Hnd]]]]].
  unfold paths_of in Hnd.
  rewrite <- (map_map Py.basename (FS.joinpath (temp_dir_of output_path)))
    in Hnd.
  now apply List.NoDup_map_inv in Hnd.
Qed.

(** The temporary directory is created before the [try] block: when it
    cannot be created, because its parent is not a directory or because a
    file is in its place, the function raises instead of returning
    [False], and nothing has changed. *)
Theorem mkdir_failure_escapes (shard_urls : list string)
  (output_path : path) (w : world) :
  (fs w !! temp_dir_of output_path = None /\
   FS.is_dir (fs w) (FS.parent (temp_dir_of output_path)) = false) \/
  (exists c, fs w !! temp_dir_of output_path = Some (File c)) ->
  download_and_concatenate_shards env shard_urls output_path w
  = (Raise OSError, w).
Proof.
  intros H. unfold download_and_concatenate_shards, bind at 1, fs_op.
  assert (Hmk : FS.mkdir_exist_ok (fs w) (temp_dir_of output_path) = None).
  { unfold FS.mkdir_exist_ok, FS.lookup_node.
    assert (Hne : temp_dir_of output_path <> []).
    { rewrite temp_dir_of_eq. now destruct (FS.parent output_path). }
    destruct (temp_dir_of output_path) as [|c0 t0] eqn:E; [congruence|].
    destruct H as [[-> ->] | [c ->]]; reflexivity. }
  now rewrite Hmk.
Qed.

End ReassemblerFrame.

Lemma success_leaves_only_the_output_witness :
  let urls := ["http://h/a.json.bz2"; "http://h/b.json.bz2"] in
  let out := ["out"; "x.json.gz"] in
  let w' := snd (download_and_concatenate_shards shard_env urls out out_world) in
  (exists g, fs w' !! out = Some (File g)) /\
  fs w' !! temp_dir_of out = None /\
  (forall p, In p (paths_of (temp_dir_of out) urls) -> fs w' !! p = None) /\
  (forall q, q <> out -> q <> temp_dir_of out ->
             ~ In q (paths_of (temp_dir_of out) urls) ->
             fs w' !! q = fs out_world !! q).
Proof.
  intros urls out w'.
  apply (success_leaves_only_the_output shard_env urls out out_world w').
  vm_compute. reflexivity.
Defined.

Lemma success_needs_distinct_names_witness :
  List.NoDup (map Py.basename ["http://h/a.json.bz2"; "http://h/b.json.bz2"]).
Proof.
  apply (success_needs_distinct_names shard_env
           ["http://h/a.json.bz2"; "http://h/b.json.bz2"]
           ["out"; "x.json.gz"] out_world
           (snd (download_and_concatenate_shards shard_env
                   ["http://h/a.json.bz2"; "http://h/b.json.bz2"]
                   ["out"; "x.json.gz"] out_world))).
  vm_compute. reflexivity.
Defined.

Lemma mkdir_failure_escapes_witness :
  download_and_concatenate_shards shard_env ["http://h/a.json.bz2"]
    ["missing"; "x.json.gz"] out_world
  = (Raise OSError, out_world).
Proof.
  apply (mkdir_failure_escapes shard_env ["http://h/a.json.bz2"]
           ["missing"; "x.json.gz"] out_world).
  left. split; vm_compute; reflexivity.
Defined.

(** ** The shard reassembler: when a run succeeds *)

Lemma bind_run {S A B} (c : M S A) (k : A -> M S B) s a s1 :
  c s = (Ret a, s1) -> bind c k s = k a s1.
Proof. unfold bind. now intros ->. Qed.

Lemma bind_stop {S A B} (c : M S A) (k : A -> M S B) s e s1 :
  c s = (Raise e, s1) -> bind c k s = (Raise e, s1).
Proof. unfold bind. now intros ->. Qed.

Lemma joinpath_proper (d : path) (b : string) :
  Py.str_in b [""; "."; ".."] = false -> FS.joinpath d b = d ++ [b].
Proof.
  unfold FS.joinpath, Py.str_in. cbn [existsb].
  destruct (String.eqb b ""); [discriminate|].
  destruct (String.eqb b "."); [discriminate|].
  destruct (String.eqb b ".."); [discriminate|]. reflexivity.
Qed.

Lemma parent_snoc (d : path) (b : string) : FS.parent (d ++ [b]) = d.
Proof. unfold FS.parent. apply removelast_last. Qed.

Lemma snoc_not_self (d : path) (b : string) : d ++ [b] <> d.
Proof.
  intros E. apply (f_equal (@length string)) in E.
  rewrite length_app in E. simpl in E. lia.
Qed.

Lemma is_dir_lookup (f : gmap path node) (d : path) :
  d <> [] -> f !! d = Some Dir -> FS.is_dir f d = true.
Proof.
  intros Hd H. unfold FS.is_dir, FS.lookup_node.
  destruct d; [congruence|]. now rewrite H.
Qed.

Lemma write_ok (f : gmap path node) (p : path) (c : list Byte.byte) :
  p <> [] -> f !! p <> Some Dir -> FS.is_dir f (FS.parent p) = true ->
  FS.write f p c = Some (<[p := File c]> f).
Proof.
  intros Hp Hnd Hpar. unfold FS.write, FS.lookup_node.
  destruct p as [|c0 p0]; [congruence|]. rewrite Hpar.
  destruct (f !! (c0 :: p0)) as [[c1|]|]; try reflexivity. congruence.
Qed.

Lemma filter_none {A} (g : A -> bool) (l : list A) :
  (forall x, In x l -> g x = false) -> List.filter g l = [].
Proof.
  induction l as [|x l IH]; intros H; [reflexivity|]. simpl.
  rewrite (H x) by now left. apply IH. intros y Hy. apply H. now right.
Qed.

Lemma is_child_of_true (d k : path) :
  FS.is_child_of d k = true <-> k <> [] /\ FS.parent k = d.
Proof.
  unfold FS.is_child_of. destruct k as [|c0 k0].
  - split; [discriminate | intros [H _]; congruence].
  - rewrite bool_decide_eq_true. split; [intros H; now split | now intros [_ H]].
Qed.

(** A directory has no entries exactly when no path of the file system
    has it as its parent. *)
Lemma children_nil (f : gmap path node) (d : path) :
  FS.children f d = [] <->
  forall k, k <> [] -> FS.parent k = d -> f !! k = None.
Proof.
  unfold FS.children. split.
  - intros H k Hk Hpar. destruct (f !! k) as [v|] eqn:E; [|reflexivity].
    assert (Hin : In k (List.filter (FS.is_child_of d)
                          (map fst (map_to_list f)))).
    { apply filter_In. split.
      - apply in_map_iff. exists (k, v). split; [reflexivity|].
        apply list_elem_of_In. now apply elem_of_map_to_list.
      - now apply is_child_of_true. }
    rewrite H in Hin. now elim Hin.
  - intros H. apply filter_none. intros k Hin.
    apply in_map_iff in Hin as [[k' v] [Hk Hin]]. simpl in Hk. subst k'.
    apply list_elem_of_In, elem_of_map_to_list in Hin.
    destruct (FS.is_child_of d k) eqn:E; [|reflexivity].
    apply is_child_of_true in E as [Hk Hpar]. rewrite (H k Hk Hpar) in Hin.
    discriminate Hin.
Qed.

Lemma rmdir_ok (f : gmap path node) (p : path) :
  p <> [] -> f !! p = Some Dir -> FS.children f p = [] ->
  FS.rmdir f p = Some (delete p f).
Proof.
  intros Hp Hd Hc. unfold FS.rmdir. destruct p as [|c0 p0]; [congruence|].
  now rewrite Hd, Hc.
Qed.

Section ReassemblerRuns.

Context (env : environment).

Lemma download_dump_ok (url : string) (p : path) (w : world)
  (c : list Byte.byte) (f' : gmap path node) :
  retrieve env url = Complete c ->
  FS.write (fs w) p c = Some f' ->
  exists w', download_dump env url p w = (Ret true, w').
Proof.
  intros Hr Hw. unfold download_dump. mrun. rewrite Hr. mred.
  rewrite Hw. mred. eauto.
Qed.

Lemma download_all_ok (temp_dir : path) (shard_urls : list string)
  (cs : list (list Byte.byte)) (w : world) (l : locals) :
  temp_dir <> [] -> fs w !! temp_dir = Some Dir ->
  Forall2 (fun u c => retrieve env u = Complete c) shard_urls cs ->
  Forall (fun u => Py.str_in (Py.basename u) [""; "."; ".."] = false)
    shard_urls ->
  (forall u, In u shard_urls ->
             fs w !! (temp_dir ++ [Py.basename u]) <> Some Dir) ->
  exists w' l',
    download_all env temp_dir shard_urls (w, l) = (Ret tt, (w', l')).
Proof.
  intros Htn Htemp Hcs. revert w l Htemp.
  induction Hcs as [|u c us cs Hu Hcs IH]; intros w l Htemp Hproper Hfree.
  - exists w, l. reflexivity.
  - inversion Hproper as [|? ? Hb Hrest]; subst.
    cbn [download_all]. rewrite (joinpath_proper _ _ Hb).
    assert (Hw : FS.write (fs w) (temp_dir ++ [Py.basename u]) c
                 = Some (<[temp_dir ++ [Py.basename u] := File c]> (fs w))).
    { apply write_ok.
      - now destruct temp_dir.
      - apply Hfree. now left.
      - rewrite parent_snoc. now apply is_dir_lookup. }
    destruct (download_dump_ok u _ w c _ Hu Hw) as [w1 Hd].
    pose proof Hd as Hd'. apply download_dump_true in Hd' as [c' [_ [Hw' _]]].
    rewrite (bind_run _ _ _ true (w1, l)).
    2:{ unfold liftW. cbn [fst snd]. now rewrite Hd. }
    cbn [negb]. unfold bind at 1, set_locals at 1. cbn [fst snd].
    assert (Hfs1 : forall q, q <> temp_dir ++ [Py.basename u] ->
                             fs w1 !! q = fs w !! q).
    { intros q Hq. now apply (write_other _ _ _ _ _ Hw'). }
    apply IH.
    + rewrite Hfs1; [exact Htemp|]. intros E. symmetry in E.
      now apply snoc_not_self in E.
    + exact Hrest.
    + intros u' Hu'.
      destruct (decide (temp_dir ++ [Py.basename u']
                        = temp_dir ++ [Py.basename u])) as [E | Hne].
      * rewrite E. apply write_Some in Hw' as [_ [_ ->]].
        rewrite lookup_insert_eq. discriminate.
      * rewrite Hfs1 by exact Hne. apply Hfree. now right.
Qed.

Lemma process_all_ok (paths : list path) (cs : list (list Byte.byte))
  (w : world) (l : locals) :
  Forall2 (fun p c => FS.read (fs w) p = Some c /\
                      snd (bz2_read env c) = true) paths cs ->
  for_each paths (process_shard env) (w, l)
  = (Ret tt,
     (w, {| downloaded_shards := downloaded_shards l;
            outfile := outfile l ++ decoded env cs;
            total_size := total_size l + Z.of_nat (length (decoded env cs)) |})).
Proof.
  intros H. revert l. induction H as [|p c ps cs [Hr Hc] H IH]; intros l.
  - unfold decoded. cbn. rewrite app_nil_r, Z.add_0_r. now destruct l.
  - cbn [for_each].
    rewrite (bind_run _ _ _ tt
               (w, {| downloaded_shards := downloaded_shards l;
                      outfile := outfile l ++ fst (bz2_read env c);
                      total_size := total_size l
                        + Z.of_nat (length (fst (bz2_read env c))) |})).
    + rewrite IH. cbn [downloaded_shards outfile total_size]. unfold decoded.
      cbn [map concat]. rewrite length_app, Nat2Z.inj_add, <- app_assoc,
        Z.add_assoc. reflexivity.
    + unfold process_shard.
      rewrite (bind_run _ _ _ c (w, l)).
      * rewrite read_chunks_spec, Hc. reflexivity.
      * unfold liftW, read_file. cbn [fst snd]. now rewrite Hr.
Qed.

Lemma unlink_all_ok (paths : list path) (w : world) (l : locals) :
  List.NoDup paths ->
  Forall (fun p => p <> [] /\ exists c, fs w !! p = Some (File c)) paths ->
  exists w',
    for_each paths
      (fun shard_path => liftW (fs_op (fun f => FS.unlink f shard_path)))
      (w, l) = (Ret tt, (w', l)).
Proof.
  intros Hnd. revert w. induction Hnd as [|p ps Hp Hnd IH]; intros w Hall.
  - exists w. reflexivity.
  - inversion Hall as [|? ? [Hpn [c Hc]] Hrest]; subst. cbn [for_each].
    assert (Hun : FS.unlink (fs w) p = Some (delete p (fs w))).
    { unfold FS.unlink, FS.lookup_node. destruct p; [congruence|].
      now rewrite Hc. }
    rewrite (bind_run _ _ _ tt (set_fs (delete p (fs w)) w, l)).
    2:{ unfold liftW, fs_op. cbn [fst snd]. now rewrite Hun. }
    apply IH. apply List.Forall_forall. intros q Hq.
    apply (proj1 (List.Forall_forall _ _) Hrest) in Hq as Hq'.
    destruct Hq' as [Hqn [c' Hc']]. split; [exact Hqn|]. exists c'.
    cbn [fs set_fs]. rewrite lookup_delete_ne; [exact Hc'|].
    intros ->. contradiction.
Qed.

Lemma with_gzip_open_run (output_path : path)
  (body : M (world * locals) unit) (w w2 : world) (l l2 : locals)
  (f2 : gmap path node) (r : result unit) :
  FS.write (fs w) output_path [] = Some f2 ->
  body (set_fs f2 w,
        {| downloaded_shards := downloaded_shards l; outfile := [];
           total_size := total_size l |}) = (r, (w2, l2)) ->
  with_gzip_open env output_path body (w, l)
  = (r, (set_fs (<[output_path := File (gzip_compress env (outfile l2))]>
                   (fs w2)) w2, l2)).
Proof.
  intros Hw Hbody. unfold with_gzip_open.
  rewrite (bind_run _ _ _ tt (set_fs f2 w, l)).
  2:{ unfold liftW, fs_op. cbn [fst snd]. now rewrite Hw. }
  unfold bind at 1, set_locals at 1. cbn [fst snd].
  unfold finally. rewrite Hbody.
  unfold bind, get_locals, liftW, modify. cbn [fst snd]. reflexivity.
Qed.

Lemma mkdir_ok (f : gmap path node) (p : path) :
  p <> [] -> f !! p = None -> FS.is_dir f (FS.parent p) = true ->
  FS.mkdir_exist_ok f p = Some (<[p := Dir]> f).
Proof.
  intros Hp Hn Hd. unfold FS.mkdir_exist_ok, FS.lookup_node.
  destruct p as [|c0 p0]; [congruence|]. now rewrite Hn, Hd.
Qed.

Lemma paths_of_proper (temp_dir : path) (shard_urls : list string) :
  Forall (fun u => Py.str_in (Py.basename u) [""; "."; ".."] = false)
    shard_urls ->
  paths_of temp_dir shard_urls
  = map (fun b => temp_dir ++ [b]) (map Py.basename shard_urls).
Proof.
  intros H. unfold paths_of. induction H as [|u us Hu H IH]; [reflexivity|].
  cbn [map]. now rewrite IH, (joinpath_proper _ _ Hu).
Qed.

Lemma NoDup_map_injective {A B} (g : A -> B) (l : list A) :
  (forall x y, g x = g y -> x = y) -> List.NoDup l -> List.NoDup (map g l).
Proof.
  intros Hg H. induction H as [|x l Hx H IH]; simpl; constructor; [|exact IH].
  intros Hin. apply in_map_iff in Hin as [y [E Hy]].
  apply Hg in E. now subst y.
Qed.

Lemma paths_of_NoDup (temp_dir : path) (shard_urls : list string) :
  Forall (fun u => Py.str_in (Py.basename u) [""; "."; ".."] = false)
    shard_urls ->
  List.NoDup (map Py.basename shard_urls) ->
  List.NoDup (paths_of temp_dir shard_urls).
Proof.
  intros H Hnd. rewrite (paths_of_proper _ _ H).
  apply NoDup_map_injective; [|exact Hnd].
  intros b b' E. apply app_inv_head in E. now injection E.
Qed.

Lemma paths_of_children (temp_dir : path) (shard_urls : list string) (p : path) :
  Forall (fun u => Py.str_in (Py.basename u) [""; "."; ".."] = false)
    shard_urls ->
  In p (paths_of temp_dir shard_urls) -> p <> [] /\ FS.parent p = temp_dir.
Proof.
  intros H Hp. rewrite (paths_of_proper _ _ H) in Hp.
  apply in_map_iff in Hp as [b [<- _]]. split.
  - now destruct temp_dir.
  - apply parent_snoc.
Qed.

Lemma complete_contents_unique (shard_urls : list string)
  (cs cs' : list (list Byte.byte)) :
  Forall2 (fun u c => retrieve env u = Complete c) shard_urls cs ->
  Forall2 (fun u c => retrieve env u = Complete c) shard_urls cs' ->
  cs' = cs.
Proof.
  intros H. revert cs'. induction H as [|u c us cs Hu H IH]; intros cs' H'.
  - now inversion H'.
  - inversion H' as [|? c' ? cs0 Hu' H0]; subst.
    rewrite Hu in Hu'. injection Hu' as <-. now rewrite (IH cs0).
Qed.

Lemma Forall2_exists_l {A B} (P : A -> B -> Prop) (l : list A) (k : list B) :
  Forall2 P l k -> forall x, In x l -> exists y, P x y.
Proof.
  intros H. induction H as [|x y l k Hxy H IH]; intros z Hz; [now elim Hz|].
  destruct Hz as [<- | Hz]; [now exists y | now apply IH].
Qed.

Lemma Forall2_split_and (shard_urls : list string)
  (cs : list (list Byte.byte)) :
  Forall2 (fun u c => retrieve env u = Complete c /\
                      snd (bz2_read env c) = true) shard_urls cs ->
  Forall2 (fun u c => retrieve env u = Complete c) shard_urls cs /\
  Forall (fun c => snd (bz2_read env c) = true) cs.
Proof.
  intros H. induction H as [|u c us cs0 [H1 H2] H IH].
  - split; constructor.
  - destruct IH as [IH1 IH2]. split; now constructor.
Qed.

Lemma download_dump_complete (url : string) (p : path) (w : world)
  (c : list Byte.byte) (f' : gmap path node) :
  retrieve env url = Complete c ->
  FS.write (fs w) p c = Some f' ->
  download_dump env url p w
  = (Ret true, set_fs f' (logged (GET url) (logged (HEAD url) w))).
Proof.
  intros Hr Hw. unfold download_dump. mrun. rewrite Hr. mred.
  rewrite Hw. mred. reflexivity.
Qed.

Lemma download_dump_nothing (url : string) (p : path) (w : world) :
  retrieve env url = HeadFailed \/ retrieve env url = GetFailed ->
  exists w',
    download_dump env url p w = (Ret false, w') /\ fs w' = fs w /\
    requests w'
    = requests w ++ HEAD url ::
        match retrieve env url with GetFailed => [GET url] | _ => [] end.
Proof.
  intros [Hr | Hr]; unfold download_dump; mrun; rewrite Hr; mred;
    cbv beta iota delta [is_Exception]; mred;
    eexists; (split; [reflexivity|]); (split; [reflexivity|]);
    cbn [requests printed logged]; rewrite <- ?app_assoc; reflexivity.
Qed.

(** The downloads of a first part of the list, all of them complete, and
    what the loop has done when it reaches the rest. *)
Lemma download_all_app (temp_dir : path) (done later : list string)
  (cs : list (list Byte.byte)) (w : world) (l : locals) :
  temp_dir <> [] -> fs w !! temp_dir = Some Dir ->
  Forall2 (fun u c => retrieve env u = Complete c) done cs ->
  Forall (fun u => Py.str_in (Py.basename u) [""; "."; ".."] = false) done ->
  (forall u, In u done -> fs w !! (temp_dir ++ [Py.basename u]) <> Some Dir) ->
  download_all env temp_dir (done ++ later) (w, l)
  = download_all env temp_dir later
      ({| fs := write_all (fs w) (zip (paths_of temp_dir done) cs);
          requests := requests w ++ flat_map (fun u => [HEAD u; GET u]) done;
          stdin := stdin w; stdout := stdout w |},
       {| downloaded_shards := downloaded_shards l ++ paths_of temp_dir done;
          outfile := outfile l; total_size := total_size l |}).
Proof.
  intros Htn Htemp Hcs. revert w l Htemp.
  induction Hcs as [|u c us cs Hu Hcs IH]; intros w l Htemp Hproper Hfree.
  - cbn [app paths_of map zip zip_with write_all flat_map].
    rewrite !app_nil_r. now destruct w, l.
  - inversion Hproper as [|? ? Hb Hrest]; subst.
    cbn [app download_all paths_of map]. rewrite (joinpath_proper _ _ Hb).
    assert (Hw : FS.write (fs w) (temp_dir ++ [Py.basename u]) c
                 = Some (<[temp_dir ++ [Py.basename u] := File c]> (fs w))).
    { apply write_ok.
      - now destruct temp_dir.
      - apply Hfree. now left.
      - rewrite parent_snoc. now apply is_dir_lookup. }
    rewrite (bind_run _ _ _ true
               (set_fs (<[temp_dir ++ [Py.basename u] := File c]> (fs w))
                  (logged (GET u) (logged (HEAD u) w)), l)).
    2:{ unfold liftW. cbn [fst snd].
        now rewrite (download_dump_complete u _ w c _ Hu Hw). }
    cbn [negb]. unfold bind at 1, set_locals at 1. cbn [fst snd].
    fold (paths_of temp_dir us). rewrite IH; clear IH.
    + cbn [fs set_fs logged requests stdin stdout downloaded_shards outfile
           total_size zip zip_with write_all flat_map app].
      rewrite <- !app_assoc. reflexivity.
    + cbn [fs set_fs]. rewrite lookup_insert_ne; [exact Htemp|].
      apply snoc_not_self.
    + exact Hrest.
    + intros u' Hu'. cbn [fs set_fs].
      destruct (decide (temp_dir ++ [Py.basename u']
                        = temp_dir ++ [Py.basename u])) as [E | Hne].
      * rewrite E, lookup_insert_eq. discriminate.
      * rewrite lookup_insert_ne by congruence. apply Hfree. now right.
Qed.

(** After a series of writes, every path written holds a file. *)
Lemma write_all_in (pcs : list (path * list Byte.byte))
  (f : gmap path node) (p : path) :
  In p (map fst pcs) -> exists c, write_all f pcs !! p = Some (File c).
Proof.
  revert f. induction pcs as [|[q c] pcs IH]; intros f Hp; [now elim Hp|].
  cbn [write_all].
  destruct (List.in_dec (List.list_eq_dec String.string_dec) p (map fst pcs))
    as [Hin | Hnin]; [now apply IH|].
  destruct Hp as [Hq | Hp]; [|contradiction]. simpl in Hq. subst q.
  exists c. rewrite write_all_notin by exact Hnin. apply lookup_insert_eq.
Qed.

Lemma zip_fst (paths : list path) (cs : list (list Byte.byte)) :
  length paths = length cs -> map fst (zip paths cs) = paths.
Proof.
  revert cs. induction paths as [|p ps IH]; intros [|c cs] H;
    try discriminate H; [reflexivity|].
  cbn [zip zip_with map fst]. f_equal. apply IH. now injection H.
Qed.

(** The cleanup loop of the error path: a shard file is deleted only if it
    is there, so that a path listed twice does no harm. *)
Lemma guarded_unlink_all (paths : list path) (w : world) (l : locals) :
  Forall (fun p => p <> [] /\ fs w !! p <> Some Dir) paths ->
  exists w',
    for_each paths
      (fun shard_path =>
         let* present := liftW (path_exists shard_path) in
         if present
         then liftW (fs_op (fun f => FS.unlink f shard_path))
         else ret tt) (w, l) = (Ret tt, (w', l)) /\
    (forall q, In q paths -> fs w' !! q = None) /\
    (forall q, ~ In q paths -> fs w' !! q = fs w !! q) /\
    requests w' = requests w /\ stdin w' = stdin w /\ stdout w' = stdout w.
Proof.
  revert w. induction paths as [|p ps IH]; intros w Hall.
  - exists w. split; [reflexivity|]. split; [intros q []|]. now repeat split.
  - inversion Hall as [|? ? [Hpn Hnd] Hrest]; subst. cbn [for_each].
    assert (Hstep : exists w1,
      (let* present := liftW (path_exists p) in
       if present then liftW (fs_op (fun f => FS.unlink f p)) else ret tt)
        (w, l) = (Ret tt, (w1, l)) /\
      fs w1 !! p = None /\ (forall q, q <> p -> fs w1 !! q = fs w !! q) /\
      requests w1 = requests w /\ stdin w1 = stdin w /\ stdout w1 = stdout w).
    { destruct p as [|c0 p0]; [congruence|].
      destruct (fs w !! (c0 :: p0)) as [[c|]|] eqn:E; [| congruence |].
      - exists (set_fs (delete (c0 :: p0) (fs w)) w). split.
        + rewrite (bind_run _ _ _ true (w, l)).
          * unfold liftW, fs_op, FS.unlink, FS.lookup_node. cbn [fst snd].
            now rewrite E.
          * unfold liftW, path_exists, FS.exist, FS.lookup_node.
            cbn [fst snd]. now rewrite E.
        + cbn [fs set_fs requests stdin stdout].
          split; [apply lookup_delete_eq|]. split; [|now repeat split].
          intros q Hq. now apply lookup_delete_ne.
      - exists w. split; [|now repeat split].
        rewrite (bind_run _ _ _ false (w, l)); [reflexivity|].
        unfold liftW, path_exists, FS.exist, FS.lookup_node.
        cbn [fst snd]. now rewrite E. }
    destruct Hstep as [w1 [Hrun [Hp [Hoth [Hrq [Hin Hout]]]]]].
    destruct (IH w1) as [w' [Hrun' [Hgone [Hkeep [Hrq' [Hin' Hout']]]]]].
    { apply List.Forall_forall. intros q Hq.
      apply (proj1 (List.Forall_forall _ _) Hrest) in Hq as [Hqn Hqd].
      split; [exact Hqn|].
      destruct (decide (q = p)) as [-> | Hne]; [now rewrite Hp|].
      now rewrite Hoth. }
    exists w'. split; [now rewrite (bind_run _ _ _ _ _ Hrun)|].
    split; [|split; [|repeat split; congruence]].
    + intros q [<- | Hq]; [|now apply Hgone].
      destruct (List.in_dec (List.list_eq_dec String.string_dec) p ps)
        as [Hi | Hni]; [now apply Hgone|].
      now rewrite Hkeep.
    + intros q Hq. rewrite Hkeep by (intros Hi; apply Hq; now right).
      apply Hoth. intros ->. apply Hq. now left.
Qed.

(** Where the stream of one shard is damaged: the shards before it have
    been written to the output stream in full, the damaged one as far as
    it could be decoded. *)
Lemma process_all_stop (done later : list (list Byte.byte))
  (c : list Byte.byte) (paths : list path) (w : world) (l : locals) :
  Forall2 (fun p c => FS.read (fs w) p = Some c) paths (done ++ c :: later) ->
  Forall (fun c => snd (bz2_read env c) = true) done ->
  snd (bz2_read env c) = false ->
  for_each paths (process_shard env) (w, l)
  = (Raise OSError,
     (w, {| downloaded_shards := downloaded_shards l;
            outfile := outfile l ++ decoded env done ++ fst (bz2_read env c);
            total_size := total_size l
              + Z.of_nat (length (decoded env done ++ fst (bz2_read env c)))
         |})).
Proof.
  intros H Hclean Hc. revert paths l H.
  induction Hclean as [|c0 done Hc0 Hclean IH]; intros paths l H;
    inversion H as [|p ? ps ? Hr Hrest]; subst; cbn [for_each].
  - rewrite (bind_stop _ _ _ OSError
               (w, {| downloaded_shards := downloaded_shards l;
                      outfile := outfile l ++ fst (bz2_read env c);
                      total_size := total_size l
                        + Z.of_nat (length (fst (bz2_read env c))) |}));
      [reflexivity|].
    unfold process_shard. rewrite (bind_run _ _ _ c (w, l)).
    + now rewrite read_chunks_spec, Hc.
    + unfold liftW, read_file. cbn [fst snd]. now rewrite Hr.
  - rewrite (bind_run _ _ _ tt
               (w, {| downloaded_shards := downloaded_shards l;
                      outfile := outfile l ++ fst (bz2_read env c0);
                      total_size := total_size l
                        + Z.of_nat (length (fst (bz2_read env c0))) |})).
    + rewrite (IH _ _ Hrest).
      cbn [downloaded_shards outfile total_size]. unfold decoded.
      cbn [map concat]. rewrite <- !app_assoc, !length_app, !Nat2Z.inj_add.
      rewrite !Z.add_assoc. reflexivity.
    + unfold process_shard. rewrite (bind_run _ _ _ c0 (w, l)).
      * now rewrite read_chunks_spec, Hc0.
      * unfold liftW, read_file. cbn [fst snd]. now rewrite Hr.
Qed.

Lemma held_read_plain (f : gmap path node) (paths : list path)
  (cs : list (list Byte.byte)) (q : path) (c0 : list Byte.byte) :
  Forall2 (fun p c => f !! p = Some (File c)) paths cs ->
  ~ In q paths -> Forall (fun p => p <> []) paths ->
  Forall2 (fun p c => FS.read (<[q := File c0]> f) p = Some c) paths cs.
Proof.
  intros H. induction H as [|p c ps cs Hp H IH]; intros Hq Hnil;
    inversion Hnil; subst; constructor.
  - unfold FS.read, FS.lookup_node. destruct p as [|a p0]; [congruence|].
    now rewrite lookup_insert_ne, Hp by (intros ->; apply Hq; now left).
  - apply IH; [|assumption]. intros Hin. apply Hq. now right.
Qed.

(** The [except] branch: with the temporary directory in place and holding
    nothing but downloaded shard files, the cleanup removes these files and
    the directory, touches nothing else, and [False] is returned. *)
Lemma rollback_run (temp_dir : path) (e : exn) (w1 : world) (l1 : locals) :
  temp_dir <> [] -> fs w1 !! temp_dir = Some Dir ->
  Forall (fun p => p <> [] /\ fs w1 !! p <> Some Dir) (downloaded_shards l1) ->
  (forall k, k <> [] -> FS.parent k = temp_dir ->
             In k (downloaded_shards l1) \/ fs w1 !! k = None) ->
  exists w',
    (liftW (print (ErrorProcessingShards e)) ;;
     let* there := liftW (path_exists temp_dir) in
     (if there then
        let* l := get_locals in
        for_each (downloaded_shards l)
          (fun shard_path =>
             let* present := liftW (path_exists shard_path) in
             if present
             then liftW (fs_op (fun f => FS.unlink f shard_path))
             else ret tt) ;;
        try_except
          (liftW (fs_op (fun f => FS.rmdir f temp_dir)))
          (fun _ => ret tt)
      else ret tt) ;;
     ret false) (w1, l1) = (Ret false, (w', l1)) /\
    fs w' !! temp_dir = None /\
    (forall q, In q (downloaded_shards l1) -> fs w' !! q = None) /\
    (forall q, q <> temp_dir -> ~ In q (downloaded_shards l1) ->
               fs w' !! q = fs w1 !! q) /\
    requests w' = requests w1 /\ stdin w' = stdin w1.
Proof.
  intros Htn Htemp Hall Hkids.
  set (w2 := printed (ErrorProcessingShards e) w1).
  destruct (guarded_unlink_all (downloaded_shards l1) w2 l1 Hall)
    as [w3 [Hun [Hgone [Hkeep [Hrq [Hin _]]]]]].
  assert (Hnotin : ~ In temp_dir (downloaded_shards l1)).
  { intros Hi. apply (proj1 (List.Forall_forall _ _) Hall) in Hi as [_ Hd].
    contradiction. }
  assert (Hrm : FS.rmdir (fs w3) temp_dir = Some (delete temp_dir (fs w3))).
  { apply rmdir_ok; [exact Htn | |].
    - now rewrite Hkeep.
    - apply children_nil. intros k Hk Hpar.
      destruct (Hkids k Hk Hpar) as [Hi | Hn]; [now apply Hgone|].
      destruct (List.in_dec (List.list_eq_dec String.string_dec) k
                  (downloaded_shards l1)) as [Hi | Hni]; [now apply Hgone|].
      now rewrite Hkeep. }
  exists (set_fs (delete temp_dir (fs w3)) w3). split.
  - rewrite (bind_run _ _ _ tt (w2, l1)) by reflexivity.
    rewrite (bind_run _ _ _ true (w2, l1)).
    2:{ unfold liftW, path_exists, FS.exist, FS.lookup_node. cbn [fst snd].
        destruct temp_dir; [congruence|]. unfold w2. cbn [fs printed].
        now rewrite Htemp. }
    rewrite (bind_run _ _ _ tt (set_fs (delete temp_dir (fs w3)) w3, l1));
      [reflexivity|].
    unfold bind at 1, get_locals at 1. cbn [snd].
    rewrite (bind_run _ _ _ _ _ Hun).
    unfold try_except, liftW, fs_op. cbn [fst snd]. now rewrite Hrm.
  - cbn [fs set_fs requests stdin]. split; [apply lookup_delete_eq|].
    split; [|split; [|now split]].
    + intros q Hq. rewrite lookup_delete_ne by (intros ->; contradiction).
      now apply Hgone.
    + intros q Hqt Hq. rewrite lookup_delete_ne by congruence.
      now rewrite Hkeep.
Qed.

(** The conditions of a clean start, shared by the theorems below: the
    output goes into an existing directory and not onto a directory, the
    temporary directory does not exist yet and is not the output path, and
    the shard URLs have proper, pairwise different file names. *)
Section CleanStart.

Variables (shard_urls : list string) (output_path : path) (w : world).

Hypothesis Hout : output_path <> [].
Hypothesis Hparent : FS.is_dir (fs w) (FS.parent output_path) = true.
Hypothesis Hnot_dir : fs w !! output_path <> Some Dir.
Hypothesis Hdistinct : temp_dir_of output_path <> output_path.
Hypothesis Hfresh : fs w !! temp_dir_of output_path = None.
Hypothesis Hempty : FS.children (fs w) (temp_dir_of output_path) = [].
Hypothesis Hproper :
  Forall (fun u => Py.str_in (Py.basename u) [""; "."; ".."] = false)
    shard_urls.
Hypothesis Hnames : List.NoDup (map Py.basename shard_urls).

Let temp := temp_dir_of output_path.
Let f1 := <[temp := Dir]> (fs w).

Lemma temp_not_nil : temp <> [].
Proof.
  unfold temp. rewrite temp_dir_of_eq. now destruct (FS.parent output_path).
Qed.

Lemma temp_parent : FS.parent temp = FS.parent output_path.
Proof. unfold temp. rewrite temp_dir_of_eq. apply parent_snoc. Qed.

Lemma mkdir_temp : FS.mkdir_exist_ok (fs w) temp = Some f1.
Proof.
  apply mkdir_ok; [apply temp_not_nil | exact Hfresh|].
  now rewrite temp_parent.
Qed.

Lemma child_of_temp_free (k : path) :
  k <> [] -> FS.parent k = temp -> f1 !! k = None.
Proof.
  intros Hk Hpar. unfold f1. rewrite lookup_insert_ne.
  - now apply (proj1 (children_nil _ _) Hempty).
  - intros E. rewrite <- E in Hpar.
    pose proof (parent_length temp temp_not_nil) as H. rewrite Hpar in H.
    lia.
Qed.

Lemma temp_is_dir : f1 !! temp = Some Dir.
Proof. unfold f1. apply lookup_insert_eq. Qed.

Lemma parent_not_temp : FS.parent output_path <> temp.
Proof.
  intros E. rewrite <- temp_parent in E.
  pose proof (parent_length temp temp_not_nil) as H. rewrite E in H. lia.
Qed.

Lemma output_not_child : FS.parent output_path <> temp.
Proof. exact parent_not_temp. Qed.

Lemma zip_fst_In (paths : list path) (cs : list (list Byte.byte)) (q : path) :
  In q (map fst (zip paths cs)) -> In q paths.
Proof.
  intros Hin. apply in_map_iff in Hin as [[q' c'] [Hq Hin]].
  simpl in Hq. subst q'.
  apply list_elem_of_In, elem_of_zip_l in Hin. now apply list_elem_of_In.
Qed.

Lemma held_read (f : gmap path node) (paths : list path)
  (cs : list (list Byte.byte)) (q : path) (c0 : list Byte.byte) :
  Forall2 (fun p c => f !! p = Some (File c)) paths cs ->
  Forall (fun c => snd (bz2_read env c) = true) cs ->
  ~ In q paths -> Forall (fun p => p <> []) paths ->
  Forall2 (fun p c => FS.read (<[q := File c0]> f) p = Some c /\
                      snd (bz2_read env c) = true) paths cs.
Proof.
  intros H. induction H as [|p c ps cs Hp H IH]; intros Hclean Hq Hnil;
    constructor.
  - inversion Hclean; subst. inversion Hnil; subst. split; [|assumption].
    unfold FS.read, FS.lookup_node. destruct p as [|a p0]; [congruence|].
    rewrite lookup_insert_ne; [now rewrite Hp|].
    intros ->. apply Hq. now left.
  - inversion Hclean; subst. inversion Hnil; subst. apply IH; auto.
    intros Hin. apply Hq. now right.
Qed.

Lemma is_dir_inv (f : gmap path node) (d : path) :
  FS.is_dir f d = true -> d = [] \/ f !! d = Some Dir.
Proof.
  unfold FS.is_dir, FS.lookup_node. destruct d as [|c0 d0]; [now left|].
  destruct (f !! (c0 :: d0)) as [[c|]|]; try discriminate. now right.
Qed.

(** From a clean start (the output's directory exists, the output path is
    not a directory, no temporary directory is left from an earlier run) and
    for shard URLs with distinct, proper file names: when every shard
    arrives whole and decodes without error, the run returns [True] and the
    output file holds the compressed concatenation of the decoded shards. *)
Theorem reassembly_succeeds (cs : list (list Byte.byte)) :
  Forall2 (fun u c => retrieve env u = Complete c /\
                      snd (bz2_read env c) = true) shard_urls cs ->
  exists w',
    download_and_concatenate_shards env shard_urls output_path w
    = (Ret true, w') /\
    fs w' !! output_path
    = Some (File (gzip_compress env (decoded env cs))).
Proof.
  intros Hcs. apply Forall2_split_and in Hcs as [Hret Hclean].
  pose proof (paths_of_NoDup temp shard_urls Hproper Hnames) as Hnd.
  (* the downloads *)
  destruct (download_all_ok temp shard_urls cs (set_fs f1 w)
              {| downloaded_shards := []; outfile := []; total_size := 0 |}
              temp_not_nil temp_is_dir Hret Hproper) as [wa [la Hdl]].
  { intros u Hu. cbn [fs set_fs]. rewrite child_of_temp_free.
    - discriminate.
    - now destruct temp.
    - apply parent_snoc. }
  pose proof Hdl as Hdl'.
  apply download_all_Ret in Hdl'
    as [cs' [Hcs' [Hfa [Hall [Hdirs [Houta [Hina Hla]]]]]]].
  rewrite (complete_contents_unique _ _ _ Hret Hcs') in Hfa.
  cbn [fs set_fs downloaded_shards outfile total_size app] in *.
  set (paths := paths_of temp shard_urls) in *.
  assert (Hnotout : ~ In output_path paths).
  { apply (paths_not_output output_path shard_urls f1 Hout temp_is_dir Hall). }
  assert (Hlen : length paths = length cs).
  { unfold paths, paths_of. rewrite length_map.
    now apply Forall2_length in Hret. }
  assert (Hheld : Forall2 (fun p c => fs wa !! p = Some (File c)) paths cs).
  { rewrite Hfa. now apply write_all_lookup. }
  assert (Hwa : forall q, ~ In q paths -> q <> temp -> fs wa !! q = fs w !! q).
  { intros q Hq Hqt. rewrite Hfa, write_all_notin.
    - unfold f1. now apply lookup_insert_ne.
    - intros Hin. apply Hq. now apply zip_fst_In in Hin. }
  (* the gzip stream *)
  assert (Hopen : FS.write (fs wa) output_path []
                  = Some (<[output_path := File []]> (fs wa))).
  { apply write_ok; [exact Hout | |].
    - rewrite Hwa; auto.
    - destruct (decide (FS.parent output_path = [])) as [E | Hne].
      + rewrite E. reflexivity.
      + destruct (is_dir_inv _ _ Hparent) as [E | Hd]; [contradiction|].
        apply is_dir_lookup; [exact Hne|].
        apply Hdirs. unfold f1. rewrite lookup_insert_ne; [exact Hd|].
        intros E. symmetry in E. now apply parent_not_temp in E. }
  assert (Hread : Forall2
            (fun p c => FS.read (<[output_path := File []]> (fs wa)) p = Some c
                        /\ snd (bz2_read env c) = true) paths cs).
  { apply held_read; auto.
    eapply Forall_impl; [exact Hall|]. now intros p [Hp _]. }
  pose proof (process_all_ok paths cs
                (set_fs (<[output_path := File []]> (fs wa)) wa)
                {| downloaded_shards := paths; outfile := [];
                   total_size := 0 |} Hread) as Hstream.
  cbn [downloaded_shards outfile total_size app] in Hstream.
  rewrite Z.add_0_l in Hstream.
  match type of Hstream with
  | _ = (_, (?w2, ?l2)) =>
      pose proof (with_gzip_open_run output_path
                    (let* l := get_locals in
                     for_each (downloaded_shards l) (process_shard env))
                    wa w2 la l2 _ (Ret tt) Hopen) as Hgz
  end.
  subst la. cbn [downloaded_shards outfile total_size] in Hgz.
  specialize (Hgz Hstream). cbn [fs set_fs outfile] in Hgz.
  set (wb := set_fs
               (<[output_path := File (gzip_compress env (decoded env cs))]>
                  (<[output_path := File []]> (fs wa)))
               (set_fs (<[output_path := File []]> (fs wa)) wa)) in *.
  set (lb := {| downloaded_shards := paths; outfile := decoded env cs;
                total_size := Z.of_nat (length (decoded env cs)) |}) in *.
  set (msg := CreatedOutput (FS.name output_path)
                (Z.of_nat (length (decoded env cs)))).
  assert (Hwb : forall q, q <> output_path -> fs (printed msg wb) !! q
                                              = fs wa !! q).
  { intros q Hq. unfold wb. cbn [fs printed set_fs].
    now rewrite !lookup_insert_ne by congruence. }
  (* the cleanup *)
  destruct (unlink_all_ok paths (printed msg wb) lb Hnd) as [wj Hun].
  { apply List.Forall_forall. intros p Hp.
    pose proof (proj1 (List.Forall_forall _ _) Hall p Hp) as [Hpn _].
    split; [exact Hpn|].
    destruct (Forall2_exists_l _ _ _ Hheld p Hp) as [c Hc]. exists c.
    rewrite Hwb; [exact Hc|]. intros ->. contradiction. }
  pose proof Hun as Hun'.
  apply unlink_all_Ret in Hun' as [_ [_ [_ [Hother [Hgone _]]]]].
  assert (Htemp_notin : ~ In temp paths).
  { intros Hin. apply (paths_of_children _ _ _ Hproper) in Hin as [_ Hpar].
    pose proof (parent_length temp temp_not_nil) as H. rewrite Hpar in H. lia. }
  assert (Hrm : FS.rmdir (fs wj) temp = Some (delete temp (fs wj))).
  { apply rmdir_ok; [apply temp_not_nil | |].
    - rewrite Hother by exact Htemp_notin. rewrite Hwb by exact Hdistinct.
      apply Hdirs, temp_is_dir.
    - apply children_nil. intros k Hk Hpar.
      destruct (List.in_dec (List.list_eq_dec String.string_dec) k paths) as [Hin | Hnin];
        [now apply Hgone|].
      rewrite Hother by exact Hnin.
      assert (Hkt : k <> temp).
      { intros ->. pose proof (parent_length temp temp_not_nil) as H.
        rewrite Hpar in H. lia. }
      rewrite Hwb.
      + rewrite Hwa by assumption.
        now apply (proj1 (children_nil _ _) Hempty).
      + intros ->. now apply parent_not_temp. }
  exists (set_fs (delete temp (fs wj)) wj). split.
  - unfold download_and_concatenate_shards. fold temp.
    rewrite (bind_run _ _ _ tt (set_fs f1 w)).
    2:{ unfold fs_op. now rewrite mkdir_temp. }
    unfold with_locals, try_except.
    rewrite (bind_run _ _ _ _ _ Hdl).
    rewrite (bind_run _ _ _ _ _ Hgz).
    unfold bind at 1, get_locals at 1. cbn [snd].
    rewrite (bind_run _ _ _ tt (printed msg wb, lb)) by reflexivity.
    unfold lb at 1. cbn [downloaded_shards].
    rewrite (bind_run _ _ _ _ _ Hun).
    rewrite (bind_run _ _ _ tt (set_fs (delete temp (fs wj)) wj, lb)).
    2:{ unfold liftW, fs_op. cbn [fst snd]. now rewrite Hrm. }
    reflexivity.
  - cbn [fs set_fs]. rewrite lookup_delete_ne by exact Hdistinct.
    rewrite Hother by exact Hnotout. unfold wb. cbn [fs printed set_fs].
    apply lookup_insert_eq.
Qed.

Lemma temp_not_listed (urls : list string) :
  Forall (fun u => Py.str_in (Py.basename u) [""; "."; ".."] = false) urls ->
  ~ In temp (paths_of temp urls).
Proof.
  intros Hp Hin. apply (paths_of_children _ _ _ Hp) in Hin as [_ Hpar].
  pose proof (parent_length temp temp_not_nil) as H. rewrite Hpar in H. lia.
Qed.

(** What the file system holds once a list of shards has been downloaded
    into the new temporary directory. *)
Lemma after_downloads (urls : list string) (cs : list (list Byte.byte)) :
  Forall (fun u => Py.str_in (Py.basename u) [""; "."; ".."] = false) urls ->
  length urls = length cs ->
  let fa := write_all f1 (zip (paths_of temp urls) cs) in
  fa !! temp = Some Dir /\
  Forall (fun p => p <> [] /\ fa !! p <> Some Dir) (paths_of temp urls) /\
  (forall k, k <> [] -> FS.parent k = temp ->
             In k (paths_of temp urls) \/ fa !! k = None) /\
  (forall q, q <> temp -> ~ In q (paths_of temp urls) ->
             fa !! q = fs w !! q).
Proof.
  intros Hp Hlen fa.
  assert (Hfst : map fst (zip (paths_of temp urls) cs) = paths_of temp urls).
  { apply zip_fst. unfold paths_of. now rewrite length_map. }
  assert (Hnotin : forall q, ~ In q (paths_of temp urls) -> fa !! q = f1 !! q).
  { intros q Hq. unfold fa. apply write_all_notin. now rewrite Hfst. }
  split; [|split; [|split]].
  - rewrite Hnotin by (apply temp_not_listed, Hp). apply temp_is_dir.
  - apply List.Forall_forall. intros p Hin.
    split; [apply (paths_of_children _ _ _ Hp Hin)|].
    destruct (write_all_in (zip (paths_of temp urls) cs) f1 p) as [c Hc];
      [now rewrite Hfst|].
    unfold fa. rewrite Hc. discriminate.
  - intros k Hk Hpar.
    destruct (List.in_dec (List.list_eq_dec String.string_dec) k
                (paths_of temp urls)) as [Hi | Hni]; [now left|].
    right. rewrite Hnotin by exact Hni. now apply child_of_temp_free.
  - intros q Hqt Hq. rewrite Hnotin by exact Hq. unfold f1.
    now apply lookup_insert_ne.
Qed.

(** A download that fails before anything is written to disk (the HEAD or
    the GET request fails) is undone completely: the run returns [False],
    the file system is as it was before the call, and no shard after the
    failing one has been requested. *)
Theorem failed_download_is_undone (done later : list string) (bad : string)
  (cs : list (list Byte.byte)) :
  shard_urls = done ++ bad :: later ->
  Forall2 (fun u c => retrieve env u = Complete c) done cs ->
  retrieve env bad = HeadFailed \/ retrieve env bad = GetFailed ->
  exists w',
    download_and_concatenate_shards env shard_urls output_path w
    = (Ret false, w') /\
    fs w' = fs w /\
    requests w'
    = requests w ++ flat_map (fun u => [HEAD u; GET u]) done
        ++ HEAD bad :: match retrieve env bad with
                       | GetFailed => [GET bad]
                       | _ => []
                       end.
Proof.
  intros Hurls Hcs Hbad.
  pose proof Hproper as Hp. rewrite Hurls in Hp.
  apply Forall_app in Hp as [Hp _].
  pose proof (Forall2_length _ _ _ Hcs) as Hlen.
  destruct (after_downloads done cs Hp Hlen) as [Htemp [Hall [Hkids Hkeep]]].
  set (paths := paths_of temp done) in *.
  set (fa := write_all f1 (zip paths cs)) in *.
  set (wa := {| fs := fa;
                requests := requests w
                            ++ flat_map (fun u => [HEAD u; GET u]) done;
                stdin := stdin w; stdout := stdout w |}).
  destruct (download_dump_nothing bad (FS.joinpath temp (Py.basename bad))
              wa Hbad) as [wb [Hdd [Hfb Hrb]]].
  assert (Hdl : download_all env temp (done ++ bad :: later)
                  (set_fs f1 w,
                   {| downloaded_shards := []; outfile := [];
                      total_size := 0 |})
                = (Raise (Exception (FailedToDownload bad)),
                   (wb, {| downloaded_shards := paths; outfile := [];
                           total_size := 0 |}))).
  { rewrite (download_all_app temp done (bad :: later) cs (set_fs f1 w)
               {| downloaded_shards := []; outfile := []; total_size := 0 |}
               temp_not_nil temp_is_dir Hcs Hp).
    - cbn [download_all fs set_fs requests stdin stdout downloaded_shards
           outfile total_size app].
      fold paths. fold fa. fold wa.
      rewrite (bind_run _ _ _ false (wb, {| downloaded_shards := paths;
                                            outfile := [];
                                            total_size := 0 |}));
        [reflexivity|].
      unfold liftW. cbn [fst snd]. now rewrite Hdd.
    - intros u Hu. cbn [fs set_fs]. rewrite child_of_temp_free.
      + discriminate.
      + now destruct temp.
      + apply parent_snoc. }
  destruct (rollback_run temp (Exception (FailedToDownload bad)) wb
              {| downloaded_shards := paths; outfile := []; total_size := 0 |}
              temp_not_nil) as [w' [Hrun [Hgt [Hgone [Hother [Hrq _]]]]]];
    cbn [downloaded_shards]; rewrite ?Hfb; auto.
  cbn [downloaded_shards] in *.
  exists w'. split; [|split].
  - unfold download_and_concatenate_shards. fold temp. rewrite Hurls.
    rewrite (bind_run _ _ _ tt (set_fs f1 w)).
    2:{ unfold fs_op. now rewrite mkdir_temp. }
    unfold with_locals. unfold try_except at 1.
    rewrite (bind_stop _ _ _ _ _ Hdl). cbn [is_Exception].
    now rewrite Hrun.
  - apply map_eq. intros q.
    destruct (decide (q = temp)) as [-> | Hqt];
      [rewrite Hgt; symmetry; exact Hfresh|].
    destruct (List.in_dec (List.list_eq_dec String.string_dec) q paths)
      as [Hi | Hni].
    + rewrite (Hgone q Hi). symmetry.
      destruct (paths_of_children _ _ _ Hp Hi) as [Hqn Hpar].
      now apply (proj1 (children_nil _ _) Hempty).
    + rewrite (Hother q Hqt Hni), Hfb. now apply Hkeep.
  - rewrite Hrq, Hrb. unfold wa. cbn [requests].
    now rewrite <- app_assoc.
Qed.

(** A shard whose bz2 stream is damaged makes the run return [False]. The
    temporary directory and its files are removed and every path other
    than the output is as before; the output file is left in place,
    holding the compressed form of what had been decoded up to the
    damage. *)
Theorem damaged_shard_leaves_partial_output (done later : list (list Byte.byte))
  (c : list Byte.byte) :
  Forall2 (fun u c => retrieve env u = Complete c) shard_urls
    (done ++ c :: later) ->
  Forall (fun c => snd (bz2_read env c) = true) done ->
  snd (bz2_read env c) = false ->
  exists w',
    download_and_concatenate_shards env shard_urls output_path w
    = (Ret false, w') /\
    fs w' !! output_path
    = Some (File (gzip_compress env
                    (decoded env done ++ fst (bz2_read env c)))) /\
    (forall q, q <> output_path -> fs w' !! q = fs w !! q).
Proof.
  intros Hcs Hclean Hc.
  set (cs := done ++ c :: later) in *.
  pose proof (Forall2_length _ _ _ Hcs) as Hlen.
  destruct (after_downloads shard_urls cs Hproper Hlen)
    as [Htemp [Hall [Hkids Hkeep]]].
  pose proof (paths_of_NoDup temp shard_urls Hproper Hnames) as Hnd.
  set (paths := paths_of temp shard_urls) in *.
  set (fa := write_all f1 (zip paths cs)) in *.
  set (wa := {| fs := fa;
                requests := requests w
                            ++ flat_map (fun u => [HEAD u; GET u]) shard_urls;
                stdin := stdin w; stdout := stdout w |}).
  set (la := {| downloaded_shards := paths; outfile := [];
                total_size := 0 |}).
  assert (Hdl : download_all env temp shard_urls
                  (set_fs f1 w,
                   {| downloaded_shards := []; outfile := [];
                      total_size := 0 |})
                = (Ret tt, (wa, la))).
  { pose proof (download_all_app temp shard_urls [] cs (set_fs f1 w)
                  {| downloaded_shards := []; outfile := [];
                     total_size := 0 |}
                  temp_not_nil temp_is_dir Hcs Hproper) as H.
    rewrite app_nil_r in H. rewrite H; [reflexivity|].
    intros u Hu. cbn [fs set_fs]. rewrite child_of_temp_free.
    - discriminate.
    - now destruct temp.
    - apply parent_snoc. }
  assert (Hnotout : ~ In output_path paths).
  { intros Hi. apply (paths_of_children _ _ _ Hproper) in Hi as [_ Hpar].
    now apply parent_not_temp. }
  assert (Hlenp : length paths = length cs).
  { unfold paths, paths_of. now rewrite length_map. }
  assert (Hheld : Forall2 (fun p c => fa !! p = Some (File c)) paths cs).
  { now apply write_all_lookup. }
  assert (Hopen : FS.write (fs wa) output_path []
                  = Some (<[output_path := File []]> fa)).
  { apply write_ok; [exact Hout | |]; cbn [fs].
    - rewrite Hkeep; auto.
    - destruct (decide (FS.parent output_path = [])) as [E | Hne];
        [now rewrite E|].
      destruct (is_dir_inv _ _ Hparent) as [E | Hd]; [contradiction|].
      apply is_dir_lookup; [exact Hne|]. rewrite Hkeep; [exact Hd | |].
      + intros E. now apply parent_not_temp.
      + intros Hi. apply (paths_of_children _ _ _ Hproper) in Hi as [_ Hpar].
        pose proof (parent_length _ Hne) as H1.
        pose proof (parent_length temp temp_not_nil) as H2.
        rewrite temp_parent in H2. rewrite Hpar in H1. lia. }
  assert (Hread : Forall2
            (fun p c => FS.read (<[output_path := File []]> fa) p = Some c)
            paths cs).
  { apply held_read_plain; auto.
    eapply Forall_impl; [exact Hall|]. now intros p [Hp _]. }
  pose proof (process_all_stop done later c paths
                (set_fs (<[output_path := File []]> fa) wa) la
                Hread Hclean Hc) as Hstream.
  cbn [downloaded_shards outfile total_size la app] in Hstream.
  rewrite Z.add_0_l in Hstream.
  match type of Hstream with
  | _ = (_, (?w2, ?l2)) =>
      pose proof (with_gzip_open_run output_path
                    (let* l := get_locals in
                     for_each (downloaded_shards l) (process_shard env))
                    wa w2 la l2 _ (Raise OSError) Hopen Hstream) as Hgz
  end.
  cbn [fs set_fs outfile] in Hgz.
  set (so_far := decoded env done ++ fst (bz2_read env c)) in *.
  set (wb := set_fs (<[output_path := File (gzip_compress env so_far)]>
                       (<[output_path := File []]> fa))
               (set_fs (<[output_path := File []]> fa) wa)) in *.
  set (lb := {| downloaded_shards := paths; outfile := so_far;
                total_size := Z.of_nat (length so_far) |}) in *.
  assert (Hwb : forall q, q <> output_path -> fs wb !! q = fa !! q).
  { intros q Hq. unfold wb. cbn [fs set_fs].
    now rewrite !lookup_insert_ne by congruence. }
  destruct (rollback_run temp OSError wb lb temp_not_nil)
    as [w' [Hrun [Hgt [Hgone [Hother _]]]]].
  { now rewrite Hwb. }
  { apply List.Forall_forall. intros p Hi.
    pose proof (proj1 (List.Forall_forall _ _) Hall p Hi) as [Hpn Hpd].
    split; [exact Hpn|]. rewrite Hwb; [exact Hpd|].
    intros ->. contradiction. }
  { intros k Hk Hpar. rewrite Hwb; [now apply Hkids|].
    intros ->. now apply parent_not_temp. }
  cbn [downloaded_shards lb] in *.
  exists w'. split; [|split].
  - unfold download_and_concatenate_shards. fold temp.
    rewrite (bind_run _ _ _ tt (set_fs f1 w)).
    2:{ unfold fs_op. now rewrite mkdir_temp. }
    unfold with_locals. unfold try_except at 1.
    rewrite (bind_run _ _ _ _ _ Hdl).
    rewrite (bind_stop _ _ _ _ _ Hgz). cbn [is_Exception].
    now rewrite Hrun.
  - rewrite Hother; [|exact (fun E => Hdistinct (eq_sym E))|exact Hnotout].
    unfold wb. cbn [fs set_fs]. apply lookup_insert_eq.
  - intros q Hq.
    destruct (decide (q = temp)) as [-> | Hqt];
      [rewrite Hgt; symmetry; exact Hfresh|].
    destruct (List.in_dec (List.list_eq_dec String.string_dec) q paths)
      as [Hi | Hni].
    + rewrite (Hgone q Hi). symmetry.
      destruct (paths_of_children _ _ _ Hproper Hi) as [Hqn Hpar].
      now apply (proj1 (children_nil _ _) Hempty).
    + rewrite (Hother q Hqt Hni), Hwb by exact Hq. now apply Hkeep.
Qed.



End CleanStart.

End ReassemblerRuns.

Lemma reassembly_succeeds_witness :
  exists w',
    download_and_concatenate_shards shard_env
      ["http://h/a.json.bz2"; "http://h/b.json.bz2"] ["out"; "x.json.gz"]
      out_world = (Ret true, w') /\
    fs w' !! ["out"; "x.json.gz"]
    = Some (File (gzip_compress shard_env
                    (decoded shard_env [[Byte.x01; Byte.x02]; [Byte.x03]]))).
Proof.
  apply (reassembly_succeeds shard_env
           ["http://h/a.json.bz2"; "http://h/b.json.bz2"]
           ["out"; "x.json.gz"] out_world).
  - discriminate.
  - reflexivity.
  - vm_compute. discriminate.
  - vm_compute. discriminate.
  - vm_compute. reflexivity.
  - vm_compute. reflexivity.
  - repeat constructor.
  - repeat constructor; vm_compute; intuition discriminate.
  - repeat constructor.
Defined.

Lemma failed_download_is_undone_witness :
  exists w',
    download_and_concatenate_shards shard_env
      ["http://h/a.json.bz2"; "http://h/missing.json.bz2";
       "http://h/b.json.bz2"] ["out"; "x.json.gz"] out_world
    = (Ret false, w') /\
    fs w' = fs out_world /\
    requests w'
    = requests out_world
        ++ flat_map (fun u => [HEAD u; GET u]) ["http://h/a.json.bz2"]
        ++ HEAD "http://h/missing.json.bz2"
           :: match retrieve shard_env "http://h/missing.json.bz2" with
              | GetFailed => [GET "http://h/missing.json.bz2"]
              | _ => []
              end.
Proof.
  apply (failed_download_is_undone shard_env
           ["http://h/a.json.bz2"; "http://h/missing.json.bz2";
            "http://h/b.json.bz2"] ["out"; "x.json.gz"] out_world)
    with (later := ["http://h/b.json.bz2"]) (cs := [[Byte.x01; Byte.x02]]).
  - reflexivity.
  - vm_compute. reflexivity.
  - vm_compute. reflexivity.
  - repeat constructor.
  - reflexivity.
  - repeat constructor.
  - left. reflexivity.
Defined.

Lemma damaged_shard_leaves_partial_output_witness :
  exists w',
    download_and_concatenate_shards damaged_env
      ["http://h/a.json.bz2"; "http://h/b.json.bz2"] ["out"; "x.json.gz"]
      out_world = (Ret false, w') /\
    fs w' !! ["out"; "x.json.gz"]
    = Some (File (gzip_compress damaged_env
                    (decoded damaged_env [[Byte.x01; Byte.x02]]
                     ++ fst (bz2_read damaged_env [Byte.x03])))) /\
    (forall q, q <> ["out"; "x.json.gz"] -> fs w' !! q = fs out_world !! q).
Proof.
  apply (damaged_shard_leaves_partial_output damaged_env
           ["http://h/a.json.bz2"; "http://h/b.json.bz2"]
           ["out"; "x.json.gz"] out_world)
    with (later := []).
  - discriminate.
  - reflexivity.
  - vm_compute. discriminate.
  - vm_compute. discriminate.
  - vm_compute. reflexivity.
  - vm_compute. reflexivity.
  - repeat constructor.
  - repeat constructor; vm_compute; intuition discriminate.
  - repeat constructor.
  - repeat constructor.
  - reflexivity.
Defined.


(** ** What a run leaves alone *)

Section Keeps.

Context {S : Type} (I : S -> Prop) (R : S -> S -> Prop).
Hypothesis R_refl : forall s, R s s.
Hypothesis R_trans : forall a b c, R a b -> R b c -> R a c.

Lemma keeps_ret {A} (E : exn -> Prop) (a : A) : keeps I R E (ret a).
Proof. intros s Hs. cbn. (split; [|split]); auto; discriminate. Qed.

Lemma keeps_raise {A} (E : exn -> Prop) (e : exn) :
  E e -> keeps I R E (@raise S A e).
Proof. intros He s Hs. cbn. (split; [|split]); auto. now intros e' [= <-]. Qed.

Lemma keeps_weaken {A} (E E' : exn -> Prop) (c : M S A) :
  (forall e, E e -> E' e) -> keeps I R E c -> keeps I R E' c.
Proof.
  intros HE Hc s Hs. destruct (Hc s Hs) as [Hi [Hr He]]. auto.
Qed.

Lemma keeps_bind {A B} (E : exn -> Prop) (c : M S A) (k : A -> M S B) :
  keeps I R E c -> (forall a, keeps I R E (k a)) -> keeps I R E (bind c k).
Proof.
  intros Hc Hk s Hs. destruct (Hc s Hs) as [Hi [Hr He]]. unfold bind.
  destruct (c s) as [[a|e] s1]; cbn [fst snd] in *.
  - destruct (Hk a s1 Hi) as [Hi' [Hr' He']].
    split; [exact Hi'|]. split; [now apply (R_trans _ s1)|exact He'].
  - split; [exact Hi|]. split; [exact Hr|].
    intros e' [= <-]. now apply He.
Qed.

Lemma keeps_try {A} (E E' : exn -> Prop) (c : M S A) (h : exn -> M S A) :
  keeps I R E c -> (forall e, E e -> keeps I R E' (h e)) ->
  keeps I R E' (try_except c h).
Proof.
  intros Hc Hh s Hs. destruct (Hc s Hs) as [Hi [Hr He]]. unfold try_except.
  destruct (c s) as [[a|e] s1]; cbn [fst snd] in *.
  - (split; [|split]); auto; discriminate.
  - destruct (Hh e (He e eq_refl) s1 Hi) as [Hi' [Hr' He']].
    split; [exact Hi'|]. split; [now apply (R_trans _ s1)|exact He'].
Qed.

Lemma keeps_finally {A} (E : exn -> Prop) (c : M S A) (f : M S unit) :
  keeps I R E c -> keeps I R E f -> keeps I R E (finally c f).
Proof.
  intros Hc Hf s Hs. destruct (Hc s Hs) as [Hi [Hr He]]. unfold finally.
  destruct (c s) as [r s1]; cbn [fst snd] in *.
  destruct (Hf s1 Hi) as [Hi' [Hr' He']].
  destruct (f s1) as [[[]|e] s2]; cbn [fst snd] in *;
    (split; [exact Hi'|]); (split; [now apply (R_trans _ s1)|]);
    [exact He|].
  intros e' [= <-]. now apply He'.
Qed.

Lemma keeps_for_each {A} (E : exn -> Prop) (xs : list A)
  (body : A -> M S unit) :
  (forall x, In x xs -> keeps I R E (body x)) ->
  keeps I R E (for_each xs body).
Proof.
  induction xs as [|x xs IH]; intros H; cbn [for_each].
  - apply keeps_ret.
  - apply keeps_bind; [apply H; now left|]. intros _. apply IH.
    intros y Hy. apply H. now right.
Qed.

Lemma keeps_modify (E : exn -> Prop) (f : S -> S) :
  (forall s, I s -> I (f s) /\ R s (f s)) -> keeps I R E (modify f).
Proof.
  intros H s Hs. destruct (H s Hs). cbn. (split; [|split]); auto; discriminate.
Qed.

Lemma keeps_get (E : exn -> Prop) : keeps I R E get.
Proof. intros s Hs. cbn. (split; [|split]); auto; discriminate. Qed.

End Keeps.

(** *** Paths in a directory *)

Lemma within_refl (d : path) : within d d.
Proof. exists []. now rewrite app_nil_r. Qed.

Lemma within_snoc (d : path) (n : string) : within d (d ++ [n]).
Proof. now exists [n]. Qed.

Lemma within_trans (d p q : path) : within d p -> within p q -> within d q.
Proof. intros [r ->] [r' ->]. exists (r ++ r'). now rewrite app_assoc. Qed.

Lemma within_parent (p : path) : p <> [] -> within (FS.parent p) p.
Proof.
  intros Hp. destruct (exists_last Hp) as [q [x ->]].
  rewrite parent_snoc. apply within_snoc.
Qed.

(** The temporary directory and all that is joined to it lie in the
    directory of the output file. *)
Lemma within_temp (output_path : path) :
  within (FS.parent output_path) (temp_dir_of output_path).
Proof. rewrite temp_dir_of_eq. apply within_snoc. Qed.

Lemma within_shard_path (output_path : path) (n : string) :
  within (FS.parent output_path) (FS.joinpath (temp_dir_of output_path) n).
Proof.
  destruct (joinpath_cases (temp_dir_of output_path) n) as [-> | [-> | ->]].
  - apply within_temp.
  - rewrite temp_dir_of_eq, parent_snoc. apply within_refl.
  - eapply within_trans; [apply within_temp | apply within_snoc].
Qed.

Lemma within_output (output_path : path) :
  within (FS.parent output_path) output_path.
Proof.
  destruct output_path as [|c p]; [apply within_refl|].
  now apply within_parent.
Qed.

(** *** The relation [confined] *)

Lemma confined_refl (d : path) (w : world) : confined d w w.
Proof. now repeat split. Qed.

Lemma confined_trans (d : path) (a b c : world) :
  confined d a b -> confined d b c -> confined d a c.
Proof.
  intros [H1 [H2 H3]] [H1' [H2' H3']]. split; [congruence|]. split.
  - intros q Hq. now rewrite H2', H2.
  - auto.
Qed.

Lemma confined_printed (d : path) (m : message) (w : world) :
  confined d w (printed m w).
Proof. now repeat split. Qed.

Lemma confined_logged (d : path) (r : request) (w : world) :
  confined d w (logged r w).
Proof. now repeat split. Qed.

Lemma confined_insert_file (d p : path) (c : list Byte.byte) (w : world) :
  within d p -> confined d w (set_fs (<[p := File c]> (fs w)) w).
Proof.
  intros Hp. split; [reflexivity|]. cbn [fs set_fs]. split.
  - intros q Hq. apply lookup_insert_ne. intros ->. contradiction.
  - intros q. destruct (decide (p = q)) as [-> | Hne].
    + rewrite lookup_insert_eq. discriminate.
    + now rewrite lookup_insert_ne.
Qed.

Lemma confined_delete (d p : path) (w : world) :
  within d p -> confined d w (set_fs (delete p (fs w)) w).
Proof.
  intros Hp. split; [reflexivity|]. cbn [fs set_fs]. split.
  - intros q Hq. apply lookup_delete_ne. intros ->. contradiction.
  - intros q. destruct (decide (p = q)) as [-> | Hne].
    + rewrite lookup_delete_eq. discriminate.
    + now rewrite lookup_delete_ne.
Qed.

(** *** The relation [spares] *)

Lemma spares_refl (d : path) (w : world) : spares d w w.
Proof. now split. Qed.

Lemma spares_trans (d : path) (a b c : world) :
  spares d a b -> spares d b c -> spares d a c.
Proof.
  intros [H1 H2] [H1' H2']. split; [congruence|].
  intros q Hq Hex. rewrite H2', H2; auto. now rewrite H2.
Qed.

Lemma spares_printed (d : path) (m : message) (w : world) :
  spares d w (printed m w).
Proof. now split. Qed.

Lemma spares_logged (d : path) (r : request) (w : world) :
  spares d w (logged r w).
Proof. now split. Qed.

Lemma confined_spares (d : path) (w w' : world) :
  confined d w w' -> spares d w w'.
Proof. intros [H1 [H2 _]]. split; [exact H1|]. auto. Qed.

(** *** The reassembler's [try] block *)

Ltac rel_side :=
  solve [ intros ?; apply confined_refl
        | intros ? ? ?; apply confined_trans
        | intros ?; apply spares_refl
        | intros ? ? ?; apply spares_trans ].

Ltac keeps_step :=
  lazymatch goal with
  | |- keeps _ _ _ (ret _) => apply keeps_ret; rel_side
  | |- keeps _ _ _ (raise _) =>
      apply keeps_raise; [rel_side | first [reflexivity | assumption]]
  | |- keeps _ _ _ (bind _ _) => apply keeps_bind; [rel_side | | intros ?]
  | |- keeps _ _ _ (try_except _ _) =>
      eapply keeps_try; [rel_side | | intros ? ?]
  | |- keeps _ _ _ (finally _ _) => apply keeps_finally; [rel_side | | ]
  | |- keeps _ _ _ (if ?b then _ else _) => destruct b
  | |- keeps _ _ _ (match ?x with _ => _ end) => destruct x
  | |- keeps _ _ _ (let _ := _ in _) => cbv zeta
  end.

Section Confinement.

Context (env : environment) (d : path).

Local Abbreviation W := (keeps (fun _ : world => True) (confined d) catchable).

Local Abbreviation L :=
  (keeps (shards_in d)
     (fun s s' : world * locals => confined d (fst s) (fst s')) catchable).

Lemma W_print (m : message) : W (print m).
Proof.
  apply keeps_modify. intros w _. split; [exact Logic.I|].
  apply confined_printed.
Qed.

Lemma W_log_request (r : request) : W (log_request r).
Proof.
  apply keeps_modify. intros w _. split; [exact Logic.I|].
  apply confined_logged.
Qed.

Lemma W_path_exists (p : path) : W (path_exists p).
Proof.
  intros w _. cbn. split; [exact Logic.I|]. split; [apply confined_refl|].
  discriminate.
Qed.

Lemma W_read_file (p : path) : W (read_file p).
Proof.
  intros w _. unfold read_file. split; [exact Logic.I|].
  destruct (FS.read (fs w) p); cbn; (split; [apply confined_refl|]).
  - discriminate.
  - now intros e [= <-].
Qed.

Lemma W_fs_op (op : gmap path node -> option (gmap path node)) :
  (forall w f', op (fs w) = Some f' -> confined d w (set_fs f' w)) ->
  W (fs_op op).
Proof.
  intros H w _. unfold fs_op. split; [exact Logic.I|].
  destruct (op (fs w)) as [f'|] eqn:E; cbn.
  - split; [now apply H | discriminate].
  - split; [apply confined_refl | now intros e [= <-]].
Qed.

Lemma W_write (p : path) (c : list Byte.byte) :
  within d p -> W (fs_op (fun f => FS.write f p c)).
Proof.
  intros Hp. apply W_fs_op. intros w f' H.
  apply write_Some in H as [_ [_ ->]]. now apply confined_insert_file.
Qed.

Lemma W_unlink (p : path) :
  within d p -> W (fs_op (fun f => FS.unlink f p)).
Proof.
  intros Hp. apply W_fs_op. intros w f' H.
  apply unlink_Some in H as [_ [_ ->]]. now apply confined_delete.
Qed.

Lemma W_rmdir (p : path) :
  within d p -> W (fs_op (fun f => FS.rmdir f p)).
Proof.
  intros Hp. apply W_fs_op. intros w f' H.
  apply rmdir_Some in H as [-> _]. now apply confined_delete.
Qed.

Lemma W_download_dump (url : string) (p : path) :
  within d p -> W (download_dump env url p).
Proof.
  intros Hp. unfold download_dump.
  keeps_step; [keeps_step; [apply W_log_request|]|].
  - keeps_step; repeat first
      [ apply W_log_request | apply (W_write _ _ Hp) | keeps_step ].
  - unfold catchable in *.
    match goal with H : is_Exception _ = true |- _ => rewrite H end.
    keeps_step; [apply W_print | keeps_step].
Qed.

(** A step on the world alone keeps the shard paths what they are. *)
Lemma shards_in_step (w w' : world) (l : locals) :
  shards_in d (w, l) -> confined d w w' -> shards_in d (w', l).
Proof.
  unfold shards_in. cbn [fst snd]. intros H [_ [_ Hd]].
  eapply Forall_impl; [exact H|]. intros p [Hp [Hn Hf]].
  split; [exact Hp|]. split; [exact Hn|]. intros E. apply Hf. now apply Hd.
Qed.

Lemma L_liftW {A} (c : M world A) : W c -> L (liftW c).
Proof.
  intros Hc [w l] Hs. destruct (Hc w Logic.I) as [_ [Hr He]].
  unfold liftW. cbn [fst snd] in *. destruct (c w) as [r w'].
  cbn [fst snd] in *. split; [now apply (shards_in_step w)|]. now split.
Qed.

Lemma L_get_locals : L get_locals.
Proof.
  intros s Hs. cbn. split; [exact Hs|]. split; [apply confined_refl|].
  discriminate.
Qed.

Lemma L_set_locals (f : locals -> locals) :
  (forall l, downloaded_shards (f l) = downloaded_shards l) ->
  L (set_locals f).
Proof.
  intros H [w l] Hs. cbn. split; [|split; [apply confined_refl|discriminate]].
  unfold shards_in in *. cbn [fst snd] in *. now rewrite H.
Qed.

Lemma L_read_chunks (stream : list Byte.byte) (clean : bool) :
  L (read_chunks stream clean).
Proof.
  intros [w l] Hs. rewrite read_chunks_spec. cbn [fst snd].
  split; [exact Hs|]. split; [apply confined_refl|].
  destruct clean; [discriminate | now intros e [= <-]].
Qed.

Lemma L_process_shard (p : path) : L (process_shard env p).
Proof.
  unfold process_shard. keeps_step.
  - apply L_liftW, W_read_file.
  - apply L_read_chunks.
Qed.

Lemma L_download_all (temp_dir : path) (shard_urls : list string) :
  (forall n, within d (FS.joinpath temp_dir n)) ->
  L (download_all env temp_dir shard_urls).
Proof.
  intros Hin. induction shard_urls as [|u us IH]; cbn [download_all].
  - keeps_step.
  - set (p := FS.joinpath temp_dir (Py.basename u)).
    intros [w l] Hs.
    destruct (W_download_dump u p (Hin _) w Logic.I) as [_ [Hr He]].
    destruct (download_dump env u p w) as [[[|]|e] w1] eqn:Hd;
      cbn [fst snd] in *.
    + rewrite (bind_run _ _ _ true (w1, l))
        by (unfold liftW; cbn [fst snd]; now rewrite Hd).
      cbn [negb].
      set (l1 := {| downloaded_shards := downloaded_shards l ++ [p];
                    outfile := outfile l; total_size := total_size l |}).
      rewrite (bind_run _ _ _ tt (w1, l1)) by reflexivity.
      apply download_dump_true in Hd as [c [_ [Hw _]]].
      apply write_Some in Hw as [Hpn [_ Hfs]].
      assert (Hs1 : shards_in d (w1, l1)).
      { unfold shards_in. cbn [fst snd l1 downloaded_shards].
        apply Forall_app. split.
        - now apply (shards_in_step w).
        - constructor; [|constructor]. split; [apply Hin|].
          split; [exact Hpn|]. rewrite Hfs, lookup_insert_eq. discriminate. }
      destruct (IH (w1, l1) Hs1) as [Hi' [Hr' He']]. cbn [fst snd] in *.
      split; [exact Hi'|]. split; [|exact He'].
      now apply (confined_trans d w w1).
    + rewrite (bind_run _ _ _ false (w1, l))
        by (unfold liftW; cbn [fst snd]; now rewrite Hd).
      cbn [negb raise fst snd].
      split; [now apply (shards_in_step w)|]. split; [exact Hr|].
      now intros e [= <-].
    + rewrite (bind_stop _ _ _ e (w1, l))
        by (unfold liftW; cbn [fst snd]; now rewrite Hd).
      cbn [fst snd].
      split; [now apply (shards_in_step w)|]. split; [exact Hr|].
      intros e' [= <-]. now apply He.
Qed.

Lemma L_with_gzip_open (output_path : path)
  (body : M (world * locals) unit) :
  within d output_path -> L body -> L (with_gzip_open env output_path body).
Proof.
  intros Hp Hbody. unfold with_gzip_open.
  keeps_step; [apply L_liftW, W_write, Hp|].
  keeps_step; [now apply L_set_locals|].
  keeps_step; [exact Hbody|].
  keeps_step; [apply L_get_locals|].
  apply L_liftW. apply keeps_modify. intros w _. split; [exact Logic.I|].
  now apply confined_insert_file.
Qed.

(** The loops over [downloaded_shards] delete paths that the invariant
    places in [d]. *)
Lemma L_over_shards {A} (k : locals -> M (world * locals) A) :
  (forall l,
     keeps (fun s => shards_in d s /\
                     downloaded_shards (snd s) = downloaded_shards l)
       (fun s s' => confined d (fst s) (fst s')) catchable (k l)) ->
  L (bind get_locals k).
Proof.
  intros H [w l] Hs. unfold bind, get_locals. cbn [fst snd].
  destruct (H l (w, l) (conj Hs eq_refl)) as [[Hi _] [Hr He]].
  split; [exact Hi|]. split; [exact Hr | exact He].
Qed.

Lemma fixed_liftW {A} (l : locals) (c : M world A) :
  W c ->
  keeps (fun s => shards_in d s /\
                  downloaded_shards (snd s) = downloaded_shards l)
    (fun s s' => confined d (fst s) (fst s')) catchable (liftW c).
Proof.
  intros Hc [w l0] [Hs Hl]. destruct (L_liftW c Hc (w, l0) Hs) as [Hi HrHe].
  split; [|exact HrHe]. split; [exact Hi|].
  unfold liftW. cbn [fst snd]. now destruct (c w).
Qed.

Lemma fixed_unlink_all (l : locals) :
  keeps (fun s => shards_in d s /\
                  downloaded_shards (snd s) = downloaded_shards l)
    (fun s s' => confined d (fst s) (fst s')) catchable
    (for_each (downloaded_shards l)
       (fun shard_path => liftW (fs_op (fun f => FS.unlink f shard_path)))).
Proof.
  apply keeps_for_each; try rel_side. intros p Hp s Hsl.
  apply (fixed_liftW l); [|exact Hsl]. apply W_unlink.
  destruct Hsl as [Hs Hl]. unfold shards_in in Hs. rewrite Hl in Hs.
  now destruct (proj1 (List.Forall_forall _ _) Hs p Hp) as [Hw _].
Qed.

(** The [except] branch never fails: a shard file is deleted only if it is
    there, and a failure to remove the directory is ignored. *)
Lemma handler_returns (temp_dir : path) (e : exn) (w1 : world) (l1 : locals) :
  within d temp_dir -> shards_in d (w1, l1) ->
  exists w',
    (liftW (print (ErrorProcessingShards e)) ;;
     let* there := liftW (path_exists temp_dir) in
     (if there then
        let* l := get_locals in
        for_each (downloaded_shards l)
          (fun shard_path =>
             let* present := liftW (path_exists shard_path) in
             if present
             then liftW (fs_op (fun f => FS.unlink f shard_path))
             else ret tt) ;;
        try_except
          (liftW (fs_op (fun f => FS.rmdir f temp_dir)))
          (fun _ => ret tt)
      else ret tt) ;;
     ret false) (w1, l1) = (Ret false, (w', l1)) /\
    confined d w1 w'.
Proof.
  intros Htemp Hs.
  set (w2 := printed (ErrorProcessingShards e) w1).
  rewrite (bind_run _ _ _ tt (w2, l1)) by reflexivity.
  rewrite (bind_run _ _ _ (FS.exist (fs w2) temp_dir) (w2, l1))
    by reflexivity.
  destruct (FS.exist (fs w2) temp_dir).
  2:{ exists w2. split; [reflexivity|]. apply confined_printed. }
  assert (Hall : Forall (fun p => p <> [] /\ fs w2 !! p <> Some Dir)
                   (downloaded_shards l1)).
  { eapply Forall_impl; [exact Hs|]. now intros p [_ H]. }
  destruct (guarded_unlink_all (downloaded_shards l1) w2 l1 Hall)
    as [w3 [Hun [Hgone [Hkeep [_ [Hin _]]]]]].
  assert (Hc3 : confined d w1 w3).
  { split; [exact Hin|]. split.
    - intros q Hq. apply Hkeep. intros Hi.
      apply (proj1 (List.Forall_forall _ _) Hs) in Hi as [Hw _].
      contradiction.
    - intros q Hq.
      destruct (List.in_dec (List.list_eq_dec String.string_dec) q
                  (downloaded_shards l1)) as [Hi | Hni].
      + rewrite (Hgone q Hi) in Hq. discriminate.
      + now rewrite (Hkeep q Hni) in Hq. }
  destruct (FS.rmdir (fs w3) temp_dir) as [f4|] eqn:Hrm.
  - exists (set_fs f4 w3). split.
    + rewrite (bind_run _ _ _ tt (set_fs f4 w3, l1)); [reflexivity|].
      unfold bind at 1, get_locals at 1. cbn [snd].
      rewrite (bind_run _ _ _ _ _ Hun).
      unfold try_except, liftW, fs_op. cbn [fst snd]. now rewrite Hrm.
    + apply (confined_trans d _ w3); [exact Hc3|].
      apply rmdir_Some in Hrm as [-> _]. now apply confined_delete.
  - exists w3. split; [|exact Hc3].
    rewrite (bind_run _ _ _ tt (w3, l1)); [reflexivity|].
    unfold bind at 1, get_locals at 1. cbn [snd].
    rewrite (bind_run _ _ _ _ _ Hun).
    unfold try_except, liftW, fs_op. cbn [fst snd]. now rewrite Hrm.
Qed.

End Confinement.

Section ReassemblerConfined.

Context (env : environment) (output_path : path).

Local Abbreviation d := (FS.parent output_path).

Local Abbreviation L :=
  (keeps (shards_in d)
     (fun s s' : world * locals => confined d (fst s) (fst s')) catchable).

Lemma try_block_keeps (shard_urls : list string) :
  L (download_all env (temp_dir_of output_path) shard_urls ;;
     with_gzip_open env output_path
       (let* l := get_locals in
        for_each (downloaded_shards l) (process_shard env)) ;;
     let* l := get_locals in
     liftW (print (CreatedOutput (FS.name output_path) (total_size l))) ;;
     for_each (downloaded_shards l)
       (fun shard_path => liftW (fs_op (fun f => FS.unlink f shard_path))) ;;
     liftW (fs_op (fun f => FS.rmdir f (temp_dir_of output_path))) ;;
     ret true).
Proof.
  keeps_step.
  { apply L_download_all. apply within_shard_path. }
  keeps_step.
  { apply L_with_gzip_open; [apply within_output|].
    keeps_step; [apply L_get_locals|].
    apply keeps_for_each; try rel_side. intros p _. apply L_process_shard. }
  apply L_over_shards. intros l.
  keeps_step; [apply fixed_liftW, W_print|].
  keeps_step; [apply fixed_unlink_all|].
  keeps_step; [apply fixed_liftW, W_rmdir, within_temp|].
  keeps_step.
Qed.


(** Every run of the reassembler: it raises exactly when the temporary
    directory cannot be created; otherwise it returns, having touched
    nothing outside the directory of the output file. *)
Lemma reassembler_run (shard_urls : list string) (w : world) :
  match FS.mkdir_exist_ok (fs w) (temp_dir_of output_path) with
  | None =>
      download_and_concatenate_shards env shard_urls output_path w
      = (Raise OSError, w)
  | Some f1 =>
      exists b w',
        download_and_concatenate_shards env shard_urls output_path w
        = (Ret b, w') /\ confined d (set_fs f1 w) w'
  end.
Proof.
  unfold download_and_concatenate_shards.
  destruct (FS.mkdir_exist_ok (fs w) (temp_dir_of output_path)) as [f1|]
    eqn:Hmk.
  2:{ apply bind_stop. unfold fs_op. now rewrite Hmk. }
  rewrite (bind_run _ _ _ tt (set_fs f1 w))
    by (unfold fs_op; now rewrite Hmk).
  unfold with_locals. unfold try_except at 1.
  set (s0 := (set_fs f1 w,
              {| downloaded_shards := []; outfile := []; total_size := 0 |})).
  assert (Hs0 : shards_in d s0) by constructor.
  destruct (try_block_keeps shard_urls s0 Hs0)
    as [Hi [Hr He]].
  match type of Hi with
  | shards_in _ (snd ?run) => destruct run as [[b|e] [w1 l1]]
  end; cbn [fst snd] in *.
  - now exists b, w1.
  - rewrite (He e eq_refl).
    destruct (handler_returns d (temp_dir_of output_path) e w1 l1)
      as [w' [Hrun Hc]]; [apply within_temp | exact Hi |].
    rewrite Hrun. exists false, w'. split; [reflexivity|].
    now apply (confined_trans d _ w1).
Qed.

End ReassemblerConfined.

(** ** The command line: what [main] can do *)

Lemma string_length_append (s t : string) :
  String.length (s +:+ t) = String.length s + String.length t.
Proof. induction s as [|a s IH]; simpl; [reflexivity | now rewrite IH]. Qed.

Lemma output_filename_long (lang date : string) :
  5 <= String.length (output_filename lang date).
Proof.
  unfold output_filename.
  destruct (String.eqb lang "simple"); rewrite !string_length_append;
    simpl; lia.
Qed.

(** The name of the output file is a proper file name, so that the output
    path lies in the output directory. *)
Lemma output_filename_proper (lang date : string) :
  Py.str_in (output_filename lang date) [""; "."; ".."] = false.
Proof.
  pose proof (output_filename_long lang date) as H.
  unfold Py.str_in. cbn [existsb].
  destruct (String.eqb_spec (output_filename lang date) "") as [E|_];
    [rewrite E in H; simpl in H; lia|].
  destruct (String.eqb_spec (output_filename lang date) ".") as [E|_];
    [rewrite E in H; simpl in H; lia|].
  destruct (String.eqb_spec (output_filename lang date) "..") as [E|_];
    [rewrite E in H; simpl in H; lia|].
  reflexivity.
Qed.

Section MainKeeps.

Context (env : environment) (d : path).

Local Abbreviation K := (keeps (fun _ : world => True) (spares d)).

Lemma K_print (E : exn -> Prop) (m : message) : K E (print m).
Proof.
  apply keeps_modify. intros w _. split; [exact Logic.I|].
  apply spares_printed.
Qed.

Lemma K_log_request (E : exn -> Prop) (r : request) : K E (log_request r).
Proof.
  apply keeps_modify. intros w _. split; [exact Logic.I|].
  apply spares_logged.
Qed.

Lemma K_urlopen (url : string) : K catchable (urlopen env url).
Proof.
  unfold urlopen. keeps_step; [apply K_log_request|].
  keeps_step; keeps_step.
Qed.

Lemma K_find_latest_date (base_url : string) :
  K catchable (find_latest_date env base_url).
Proof.
  unfold find_latest_date. keeps_step.
  - keeps_step; [apply K_urlopen|].
    repeat first [apply K_print | keeps_step].
  - keeps_step; keeps_step.
Qed.

Lemma K_list_available_indexes (base_url : string) :
  K catchable (list_available_indexes env base_url).
Proof.
  unfold list_available_indexes. keeps_step.
  - keeps_step; [apply K_urlopen|]. cbv zeta. keeps_step.
  - unfold catchable in *.
    match goal with H : is_Exception _ = true |- _ => rewrite H end.
    keeps_step.
Qed.

Lemma K_discover_shard_files (base_url lang date : string) :
  K catchable (discover_shard_files env base_url lang date).
Proof.
  unfold discover_shard_files. cbv zeta. keeps_step.
  - keeps_step; [apply K_urlopen|]. cbv zeta.
    repeat first [apply K_list_available_indexes | keeps_step].
  - keeps_step;
      repeat first [apply K_list_available_indexes | apply K_urlopen
                   | keeps_step].
Qed.

Lemma K_reassembler (shard_urls : list string) (output_path : path) :
  FS.parent output_path = d ->
  K catchable (download_and_concatenate_shards env shard_urls output_path).
Proof.
  intros Hd w _. split; [exact Logic.I|].
  pose proof (reassembler_run env output_path shard_urls w) as H.
  destruct (FS.mkdir_exist_ok (fs w) (temp_dir_of output_path)) as [f1|]
    eqn:Hmk.
  - destruct H as [b [w' [-> [Hin [Hout _]]]]]. cbn [fst snd fs set_fs] in *.
    split; [|discriminate]. split; [exact Hin|].
    intros q Hq _. rewrite Hd in Hout. rewrite (Hout q Hq).
    apply (mkdir_exist_ok_other _ _ _ _ Hmk). intros ->. apply Hq.
    rewrite <- Hd. apply within_temp.
  - rewrite H. cbn [fst snd]. split; [apply spares_refl|].
    now intros e [= <-].
Qed.

(** What [main] does once the output directory is there and the old dumps
    are dealt with: it returns or exits with status 1, without reading the
    input or touching what exists outside the output directory. *)
Lemma K_download (args : Args) :
  d = output_dir args ->
  K (fun e => e = SystemExit 1)
    (let* dump_date :=
       (if Py.truthy (default "" (date args)) then ret (default "" (date args))
        else
          try_except (find_latest_date env base_index_url)
            (fun e =>
               if is_Exception e then print (ErrorMessage e) ;; sys_exit 1
               else raise e)) in
     let filename := output_filename (lang args) dump_date in
     let output_path := FS.joinpath (output_dir args) filename in
     let base_url := base_index_url +:+ dump_date +:+ "/" in
     try_except
       (let* shard_urls :=
          discover_shard_files env base_url (lang args) dump_date in
        let* ok := download_and_concatenate_shards env shard_urls output_path in
        if ok then print (Succeeded filename)
        else print (Failed filename) ;; sys_exit 1)
       (fun e =>
          if is_Exception e then print (ErrorMessage e) ;; sys_exit 1
          else raise e)).
Proof.
  intros Hd.
  assert (Hexit : forall A, K (fun e => e = SystemExit 1) (@sys_exit A 1)).
  { intros A. unfold sys_exit. keeps_step. }
  keeps_step.
  - keeps_step; [keeps_step|].
    keeps_step; [apply K_find_latest_date|].
    unfold catchable in *.
    match goal with H : is_Exception _ = true |- _ => rewrite H end.
    keeps_step; [apply K_print | apply Hexit].
  - cbv zeta.
    apply (keeps_try _ _ (spares_trans d)
             (fun e => catchable e \/ e = SystemExit 1)).
    + keeps_step.
      { eapply keeps_weaken; [|apply K_discover_shard_files]. now left. }
      keeps_step.
      { eapply keeps_weaken; [|apply K_reassembler]; [now left|].
        rewrite (joinpath_proper _ _ (output_filename_proper _ _)).
        rewrite parent_snoc. now symmetry. }
      keeps_step; [apply K_print|].
      keeps_step; [apply K_print|].
      unfold sys_exit. apply keeps_raise; [rel_side | now right].
    + intros e [He | ->].
      * unfold catchable in He. rewrite He.
        keeps_step; [apply K_print | apply Hexit].
      * cbn [is_Exception]. keeps_step.
Qed.

End MainKeeps.

Lemma entry_eq_dec (a b : option node) : {a = b} + {a <> b}.
Proof.
  decide equality. decide equality.
  apply List.list_eq_dec, Byte.byte_eq_dec.
Qed.

Lemma within_of_parent (dir p : path) : FS.parent p = dir -> within dir p.
Proof.
  intros <-. destruct p as [|c p]; [apply within_refl|].
  now apply within_parent.
Qed.

(** Creating a directory leaves what exists as it is. *)
Lemma mkdir_exist_ok_keeps (f f1 : gmap path node) (p q : path) :
  FS.mkdir_exist_ok f p = Some f1 -> f !! q <> None -> f1 !! q = f !! q.
Proof.
  unfold FS.mkdir_exist_ok, FS.lookup_node. intros H Hq.
  destruct p as [|c0 p0]; [now injection H as <-|].
  destruct (f !! (c0 :: p0)) as [[c|]|] eqn:E; try discriminate H.
  - now injection H as <-.
  - destruct (FS.is_dir f (FS.parent (c0 :: p0))); [|discriminate H].
    injection H as <-. apply lookup_insert_ne. intros <-. contradiction.
Qed.

Lemma mkdir_prefixes_keeps (todo done : path) (f f1 : gmap path node)
  (q : path) :
  FS.mkdir_prefixes f done todo = Some f1 -> f !! q <> None ->
  f1 !! q = f !! q.
Proof.
  revert done f. induction todo as [|c rest IH]; intros done f H Hq;
    cbn [FS.mkdir_prefixes] in H.
  - now injection H as <-.
  - destruct (FS.mkdir_exist_ok f (done ++ [c])) as [f0|] eqn:E;
      [|discriminate H].
    pose proof (mkdir_exist_ok_keeps _ _ _ q E Hq) as H0.
    rewrite (IH _ _ H); [exact H0|]. now rewrite H0.
Qed.

(** The deletion loop never raises: a failed deletion is reported and ends
    the loop. *)
Lemma delete_dumps_returns (dump_files : list path) (w : world) :
  exists r w', delete_dumps dump_files w = (Ret r, w').
Proof.
  revert w. induction dump_files as [|f rest IH]; intros w.
  - now exists None, w.
  - cbn [delete_dumps].
    cbv beta iota zeta delta [bind ret raise print modify try_except fs_op].
    destruct (FS.unlink (fs w) f) as [f1|]; cbv beta iota.
    + apply IH.
    + cbv beta iota delta [is_Exception]. eauto.
Qed.

(** [cleanup_old_dumps] raises only when the confirmation prompt meets the
    end of the input; without a prompt the input is not read. *)
Lemma cleanup_outcome (output_dir : path) (confirm : bool) (w : world) :
  match fst (cleanup_old_dumps output_dir confirm w) with
  | Ret _ => True
  | Raise e => e = EOFError /\ confirm = true /\ stdin w = []
  end /\
  (confirm = false ->
   stdin (snd (cleanup_old_dumps output_dir confirm w)) = stdin w).
Proof.
  run_cleanup.
  destruct (glob (fs w) output_dir dump_pattern) as [|f0 fs0].
  { cbn. now split. }
  mred. destruct confirm; mred.
  - destruct (stdin w) as [|line rest] eqn:Hin.
    { cbn. now split. }
    mred. destruct (is_yes line); cbv beta iota delta [negb].
    + match goal with
      | |- context [delete_dumps ?l ?w0] =>
          destruct (delete_dumps_returns l w0) as [r [w1 Hd]]; rewrite Hd
      end.
      destruct r; cbn; now split.
    + cbn. now split.
  - cbv beta iota delta [negb].
    match goal with
    | |- context [delete_dumps ?l ?w0] =>
        destruct (delete_dumps_returns l w0) as [r [w1 Hd]]; rewrite Hd;
        apply delete_dumps_spec in Hd as [Hs _]
    end.
    autorewrite with world in Hs.
    destruct r; cbn; (split; [exact Logic.I|]); intros _;
      autorewrite with world; exact Hs.
Qed.

(** [cleanup_old_dumps] touches nothing outside the directory it cleans. *)
Lemma cleanup_frame (output_dir : path) (confirm : bool) (w : world)
  (q : path) :
  ~ within output_dir q ->
  fs (snd (cleanup_old_dumps output_dir confirm w)) !! q = fs w !! q.
Proof.
  intros Hq.
  destruct (cleanup_old_dumps output_dir confirm w) as [r w'] eqn:Hrun.
  cbn [snd].
  destruct (entry_eq_dec (fs w' !! q) (fs w !! q)) as [E | Hne]; [exact E|].
  destruct (cleanup_changes _ _ _ _ _ Hrun q Hne) as [[Hpar _] _].
  elim Hq. now apply within_of_parent.
Qed.

(** The three stages of [main] put together. *)
Lemma main_summary (env : environment) (args : Args) (w : world) :
  (forall q, ~ within (output_dir args) q -> fs w !! q <> None ->
             fs (snd (main env args w)) !! q = fs w !! q) /\
  (clean args = false \/ yes args = true ->
   stdin (snd (main env args w)) = stdin w) /\
  match fst (main env args w) with
  | Ret _ => True
  | Raise (SystemExit code) => code = 1%Z
  | Raise OSError => FS.mkdir_parents (fs w) (output_dir args) = None
  | Raise EOFError =>
      clean args = true /\ yes args = false /\ stdin w = []
  | Raise _ => False
  end.
Proof.
  unfold main.
  destruct (FS.mkdir_parents (fs w) (output_dir args)) as [f1|] eqn:Hmk.
  2:{ rewrite (bind_stop _ _ _ OSError w)
        by (unfold fs_op; now rewrite Hmk).
      cbn [fst snd]. now repeat split. }
  rewrite (bind_run _ _ _ tt (set_fs f1 w))
    by (unfold fs_op; now rewrite Hmk).
  set (w1 := set_fs f1 w).
  assert (H1 : forall q, fs w !! q <> None -> fs w1 !! q = fs w !! q).
  { intros q Hq. now apply (mkdir_prefixes_keeps _ _ _ _ _ Hmk). }
  (* the cleanup *)
  assert (Hstage : exists w2,
    ((if clean args
      then let* ok := cleanup_old_dumps (output_dir args) (negb (yes args)) in
           if negb ok then sys_exit 1 else ret tt
      else ret tt) w1 = (Ret tt, w2) \/
     (exists e, (if clean args
      then let* ok := cleanup_old_dumps (output_dir args) (negb (yes args)) in
           if negb ok then sys_exit 1 else ret tt
      else ret tt) w1 = (Raise e, w2) /\
      (e = SystemExit 1 \/
       e = EOFError /\ clean args = true /\ yes args = false /\
       stdin w1 = []))) /\
    (forall q, ~ within (output_dir args) q -> fs w2 !! q = fs w1 !! q) /\
    (clean args = false \/ yes args = true -> stdin w2 = stdin w1)).
  { destruct (clean args) eqn:Hclean.
    - pose proof (cleanup_outcome (output_dir args) (negb (yes args)) w1)
        as [Hout Hin].
      pose proof (fun q => cleanup_frame (output_dir args)
                             (negb (yes args)) w1 q) as Hfr.
      destruct (cleanup_old_dumps (output_dir args) (negb (yes args)) w1)
        as [[[|]|e] w2] eqn:Hcl; cbn [fst snd] in *; exists w2.
      + split; [left; now rewrite (bind_run _ _ _ _ _ Hcl)|].
        split; [exact Hfr|]. intros [H | H]; [discriminate H|].
        apply Hin. now rewrite H.
      + split.
        * right. exists (SystemExit 1).
          split; [now rewrite (bind_run _ _ _ _ _ Hcl) | now left].
        * split; [exact Hfr|]. intros [H | H]; [discriminate H|].
          apply Hin. now rewrite H.
      + destruct Hout as [-> [Hyes Hnil]]. split.
        * right. exists EOFError.
          split; [now rewrite (bind_stop _ _ _ _ _ Hcl)|]. right.
          repeat split; [|exact Hnil]. now destruct (yes args).
        * split; [exact Hfr|]. intros [H | H]; [discriminate H|].
          apply Hin. now rewrite H.
    - exists w1. split; [now left|]. now split. }
  destruct Hstage as [w2 [Hrun [Hfr Hin]]].
  destruct Hrun as [Hrun | [e [Hrun He]]].
  2:{ rewrite (bind_stop _ _ _ _ _ Hrun). cbn [fst snd].
      split; [intros q Hq Hex; now rewrite Hfr, H1|]. split; [exact Hin|].
      destruct He as [-> | [-> He]]; [reflexivity | exact He]. }
  rewrite (bind_run _ _ _ _ _ Hrun).
  destruct (K_download env (output_dir args) args eq_refl w2 Logic.I)
    as [_ [[Hs Hf] He]].
  match type of He with
  | forall e, fst ?x = Raise e -> _ => set (run := x) in *
  end.
  split; [|split].
  - intros q Hq Hex. rewrite Hf; [now rewrite Hfr, H1 | exact Hq|].
    now rewrite Hfr, H1.
  - intros H. rewrite Hs. now apply Hin.
  - destruct (fst run) as [[]|e]; [exact Logic.I|].
    now rewrite (He e eq_refl).
Qed.



(** Whatever happens, [download_and_concatenate_shards] does not read the
    input and touches nothing outside the directory of the output file:
    every other path of the file system is as before. *)
Theorem reassembler_stays_in_directory (env : environment)
  (shard_urls : list string) (output_path : path) (w : world) :
  let w' := snd (download_and_concatenate_shards env shard_urls output_path w) in
  stdin w' = stdin w /\
  forall q, ~ within (FS.parent output_path) q -> fs w' !! q = fs w !! q.
Proof.
  cbv zeta. pose proof (reassembler_run env output_path shard_urls w) as H.
  destruct (FS.mkdir_exist_ok (fs w) (temp_dir_of output_path)) as [f1|]
    eqn:Hmk.
  - destruct H as [b [w' [-> [Hin [Hout _]]]]]. cbn [fst snd fs set_fs] in *.
    split; [exact Hin|]. intros q Hq. rewrite (Hout q Hq).
    apply (mkdir_exist_ok_other _ _ _ _ Hmk). intros ->. apply Hq.
    apply within_temp.
  - rewrite H. now split.
Qed.


(** Without [--clean], or with [--yes], [main] never reads the input. *)
Theorem main_reads_input_only_to_confirm (env : environment) (args : Args)
  (w : world) :
  clean args = false \/ yes args = true ->
  stdin (snd (main env args w)) = stdin w.
Proof. apply main_summary. Qed.

Lemma main_reads_input_only_to_confirm_witness :
  stdin (snd (main archive_env download_args (dir_world shared_fs ["yes"])))
  = stdin (dir_world shared_fs ["yes"]).
Proof.
  apply (main_reads_input_only_to_confirm archive_env download_args
           (dir_world shared_fs ["yes"])).
  left. reflexivity.
Defined.







(** ** Names: the temporary directory, and what the cleanup looks for *)

Lemma output_filename_template (lang date : string) :
  output_filename lang date
  = (lang +:+ "wiki-" +:+ date +:+ "-cirrussearch-content.json") +:+ ".gz".
Proof.
  rewrite !append_assoc. unfold output_filename.
  destruct (String.eqb_spec lang "simple") as [-> | _]; reflexivity.
Qed.

Lemma rfind_app (c : ascii) (s t : string) (i : nat) :
  Py.rfind c t = Some i -> Py.rfind c (s +:+ t) = Some (String.length s + i).
Proof.
  intros H. induction s as [|a s IH]; [exact H|].
  change (Py.rfind c (String a s +:+ t))
    with (match Py.rfind c (s +:+ t) with
          | Some i => Some (S i)
          | None => if Ascii.eqb a c then Some 0 else None
          end).
  now rewrite IH.
Qed.

Lemma substring_0_app (s t : string) :
  String.substring 0 (String.length s) (s +:+ t) = s.
Proof.
  induction s as [|a s IH].
  - now destruct t.
  - change (String.substring 0 (String.length (String a s))
              (String a s +:+ t))
      with (String a (String.substring 0 (String.length s) (s +:+ t))).
    now rewrite IH.
Qed.

Lemma stem_gz (s : string) :
  0 < String.length s -> Py.stem (s +:+ ".gz") = s.
Proof.
  intros Hs. unfold Py.stem.
  rewrite (rfind_app "." s ".gz" 0 eq_refl), Nat.add_0_r.
  rewrite string_length_append.
  assert (H1 : Nat.ltb 0 (String.length s) = true) by now apply Nat.ltb_lt.
  assert (H2 : Nat.ltb (String.length s)
                 (String.length s + String.length ".gz" - 1) = true)
    by (apply Nat.ltb_lt; simpl; lia).
  rewrite H1, H2. apply substring_0_app.
Qed.

Lemma name_snoc (d : path) (n : string) : FS.name (d ++ [n]) = n.
Proof. unfold FS.name. apply last_last. Qed.

(** For a language code and a date without ['/'], so that the name of the
    output file is a single path component: the temporary directory of the
    output file of [main] lies beside it and is named after it without the
    final [.gz]: [.temp_{lang}wiki-{date}-cirrussearch-content.json]. *)
Theorem temp_directory_name (dir : path) (lang date : string) :
  Py.contains lang "/" = false -> Py.contains date "/" = false ->
  temp_dir_of (dir ++ [output_filename lang date])
  = dir ++ [".temp_" +:+ lang +:+ "wiki-" +:+ date
            +:+ "-cirrussearch-content.json"].
Proof.
  intros _ _. rewrite temp_dir_of_eq, parent_snoc, name_snoc.
  rewrite output_filename_template, stem_gz; [reflexivity|].
  rewrite !string_length_append. simpl. lia.
Qed.

Lemma temp_directory_name_witness :
  temp_dir_of (["dumps"] ++ [output_filename "simple" "20240101"])
  = ["dumps"] ++ [".temp_" +:+ "simple" +:+ "wiki-" +:+ "20240101"
                  +:+ "-cirrussearch-content.json"].
Proof.
  apply (temp_directory_name ["dumps"] "simple" "20240101"); reflexivity.
Defined.

(** Whatever the language and the date, the output file of [main] is one of
    the old dumps that [cleanup_old_dumps] looks for in the directory:
    cleaning removes the dumps of every language, not only of the one
    asked for. *)
Theorem cleanup_targets_every_language (f : gmap path node) (dir : path)
  (lang date : string) (n : node) :
  f !! (dir ++ [output_filename lang date]) = Some n ->
  In (dir ++ [output_filename lang date]) (glob f dir dump_pattern).
Proof.
  intros H. unfold glob. apply filter_In. split.
  - unfold FS.children. apply filter_In. split.
    + apply in_map_iff. exists (dir ++ [output_filename lang date], n).
      split; [reflexivity|].
      now apply list_elem_of_In, elem_of_map_to_list.
    + apply is_child_of_true. split; [now destruct dir | apply parent_snoc].
  - rewrite name_snoc. apply dump_pattern_accepts. exists lang, date.
    rewrite output_filename_template. now rewrite !append_assoc.
Qed.

Lemma cleanup_targets_every_language_witness :
  In (["dumps"] ++ [output_filename "en" "20230101"])
    (glob stale_fs ["dumps"] dump_pattern).
Proof.
  apply (cleanup_targets_every_language stale_fs ["dumps"] "en" "20230101"
           (File [Byte.x1f; Byte.x8b])).
  reflexivity.
Defined.
